(** * rosbag_parser: the image-extraction pipeline of [src/rosbag_parser/main.py]

    A shallow embedding of the batch driver ([process_bag_files]), the
    per-container loop ([process_bag_file]), the per-record step
    ([process_bag_message]), the connection filter ([filter_image_msgs]),
    the upload of the output tree ([store_files_to_s3],
    [upload_file_to_s3]) and the download of one object
    ([download_object]), together with the pieces of the Python runtime and
    of the external libraries (os.path, pathlib, datetime, rospy.Time,
    rosbag, cv2, the S3 client) that these functions call.

    A string is the sequence of the code points of a Python [str] whose
    characters all have codes from 0 to 255 (ASCII and the Latin-1
    supplement), one 8-bit character per code point; file names, channels
    and window bounds with characters beyond that range are outside the
    model.  Integers are [Z]; the file system is a finite map from paths to
    images and a finite set of directories; exceptions and effects are
    threaded through a small state-and-error monad. *)

From Stdlib Require Import ZArith Ascii String List Bool Lia.
From Stdlib Require Import DecimalString.
From stdpp Require Import base decidable option list sorting gmap strings.

Local Open Scope Z_scope.

(** ** Python values and exceptions *)

Module Py.

(** Exceptions that the modelled code can raise. [ExternalError] stands for
    the exception classes of the external libraries (rosbag's
    ROSBagException family, cv_bridge and OpenCV errors, OSError). *)
Inductive exn : Type :=
| ValueError (msg : string)
| TypeError (msg : string)
| IndexError
| OverflowError
| UnboundLocalError (var : string)
| ExternalError (msg : string).

Definition result (A : Type) : Type := exn + A.

Definition ok {A} (a : A) : result A := inr a.
Definition raise {A} (e : exn) : result A := inl e.

Definition is_ok {A} (r : result A) : bool :=
  match r with inr _ => true | inl _ => false end.

(** *** str *)

(** [str(n)] for an int. *)
Definition str_of_int (n : Z) : string :=
  NilZero.string_of_int (Z.to_int n).

(** The characters with a lower-case form of their own among the codes
    from 0 to 255: the letters [A] to [Z] (65 to 90) and the letters of the
    Latin-1 supplement from 192 to 222, without the multiplication sign
    (215).  The lower-case form lies 32 codes higher. *)
Definition is_upper (c : ascii) : bool :=
  let n := nat_of_ascii c in
  ((65 <=? n) && (n <=? 90) || (192 <=? n) && (n <=? 222) && negb (n =? 215))%nat.

Definition lower_char (c : ascii) : ascii :=
  if is_upper c then ascii_of_nat (nat_of_ascii c + 32) else c.

(** [s.lower()].  On the code points from 0 to 255 the lower-case mapping of
    Unicode is a mapping of single characters and depends on no context
    (the characters whose lower case has another length or depends on the
    neighbours, as the capital sigma, lie beyond 255). *)
Fixpoint lower (s : string) : string :=
  match s with
  | EmptyString => EmptyString
  | String c s' => String (lower_char c) (lower s')
  end.

(** [s.replace(a, b)] for one-character [a] and [b]. *)
Fixpoint replace_char (a b : ascii) (s : string) : string :=
  match s with
  | EmptyString => EmptyString
  | String c s' => String (if Ascii.eqb c a then b else c) (replace_char a b s')
  end.

(** [s[n:]] for [n >= 0]. *)
Fixpoint slice_from (n : nat) (s : string) : string :=
  match n, s with
  | O, _ => s
  | S _, EmptyString => EmptyString
  | S n', String _ s' => slice_from n' s'
  end.

(** [s[:n]] for [n >= 0]. *)
Fixpoint slice_to (n : nat) (s : string) : string :=
  match n, s with
  | O, _ => EmptyString
  | S _, EmptyString => EmptyString
  | S n', String c s' => String c (slice_to n' s')
  end.

(** [s[:-n]] for [n > 0]: all but the last [n] characters. *)
Definition drop_last (n : nat) (s : string) : string :=
  slice_to (String.length s - n) s.

(** [s.rfind(c)]: the index of the last occurrence of [c], or [-1]. *)
Fixpoint rfind_from (c : ascii) (s : string) (i : Z) (found : Z) : Z :=
  match s with
  | EmptyString => found
  | String a s' => rfind_from c s' (i + 1) (if Ascii.eqb a c then i else found)
  end.

Definition rfind (c : ascii) (s : string) : Z := rfind_from c s 0 (-1).

(** [s.startswith(p)] *)
Fixpoint startswith (p s : string) : bool :=
  match p, s with
  | EmptyString, _ => true
  | String _ _, EmptyString => false
  | String a p', String b s' => Ascii.eqb a b && startswith p' s'
  end.

(** [s.split(sep)] for a non-empty separator: a left-to-right scan for
    non-overlapping occurrences.  [skip] counts the characters of a
    separator that was just matched and is still to be stepped over;
    [cur] is the piece being collected, reversed. *)
Fixpoint split_go (sep : string) (s : string) (skip : nat) (cur : string)
  : list string :=
  match s with
  | EmptyString => [String.rev cur]
  | String c s' =>
      match skip with
      | S k => split_go sep s' k cur
      | O =>
          if startswith sep s
          then String.rev cur :: split_go sep s' (String.length sep - 1) EmptyString
          else split_go sep s' O (String c cur)
      end
  end.

Definition split (sep s : string) : list string := split_go sep s O EmptyString.

(** [l[i]] on a list, raising IndexError out of range ([i >= 0]). *)
Definition index {A} (l : list A) (i : nat) : result A :=
  match l !! i with
  | Some a => ok a
  | None => raise IndexError
  end.

(** [x in l] for a list of strings. *)
Definition contains (x : string) (l : list string) : bool :=
  existsb (String.eqb x) l.

(** [sorted(l)] on strings: ascending in the lexicographic order of the
    character codes. *)
Definition sorted (l : list string) : list string :=
  merge_sort String.le l.

End Py.

(** ** os.path (POSIX flavour) *)

Module OsPath.
Import Py.

Definition sep : ascii := "/"%char.
Definition extsep : ascii := "."%char.

(** [os.path.basename(p)]: everything after the last separator. *)
Definition basename (p : string) : string :=
  let i := rfind sep p + 1 in
  slice_from (Z.to_nat i) p.

(** The characters [p[lo:hi]] as a list, for [0 <= lo]. *)
Definition chars_between (lo hi : Z) (p : string) : list ascii :=
  list_ascii_of_string (slice_from (Z.to_nat lo) (slice_to (Z.to_nat hi) p)).

(** [os.path.splitext(p)]: split at the last dot of the last path
    component, unless that component consists of leading dots only up to
    that dot (the loop of [genericpath._splitext] that skips leading dots
    returns at the first character that is not a dot). *)
Definition splitext (p : string) : string * string :=
  let sepIndex := rfind sep p in
  let dotIndex := rfind extsep p in
  if (sepIndex <? dotIndex)
     && existsb (fun c => negb (Ascii.eqb c extsep))
                (chars_between (sepIndex + 1) dotIndex p)
  then (slice_to (Z.to_nat dotIndex) p, slice_from (Z.to_nat dotIndex) p)
  else (p, EmptyString).

End OsPath.

(** ** datetime *)

Module Datetime.
Import Py.

Record datetime := mk_datetime
  { year : Z; month : Z; day : Z; hour : Z; minute : Z; second : Z }.

Definition is_leap (y : Z) : bool :=
  (y mod 4 =? 0) && (negb (y mod 100 =? 0) || (y mod 400 =? 0)).

Definition days_in_month (y m : Z) : Z :=
  if m =? 2 then (if is_leap y then 29 else 28)
  else if (m =? 4) || (m =? 6) || (m =? 9) || (m =? 11) then 30
  else 31.

(** Days from 1970-01-01 to the proleptic Gregorian date [y-m-d]. *)
Definition days_from_civil (y m d : Z) : Z :=
  let y' := if m <=? 2 then y - 1 else y in
  let era := y' / 400 in
  let yoe := y' - era * 400 in
  let mp := if 2 <? m then m - 3 else m + 9 in
  let doy := (153 * mp + 2) / 5 + d - 1 in
  let doe := yoe * 365 + yoe / 4 - yoe / 100 + doy in
  era * 146097 + doe - 719468.

(** The proleptic Gregorian date that lies [z] days after 1970-01-01. *)
Definition civil_from_days (z : Z) : Z * Z * Z :=
  let z' := z + 719468 in
  let era := z' / 146097 in
  let doe := z' - era * 146097 in
  let yoe := (doe - doe / 1460 + doe / 36524 - doe / 146096) / 365 in
  let doy := doe - (365 * yoe + yoe / 4 - yoe / 100) in
  let mp := (5 * doy + 2) / 153 in
  let d := doy - (153 * mp + 2) / 5 + 1 in
  let m := if mp <? 10 then mp + 3 else mp - 9 in
  let y := yoe + era * 400 in
  (if m <=? 2 then y + 1 else y, m, d).

(** Seconds of 0001-01-01 00:00:00 and of 9999-12-31 23:59:59 (UTC), the
    range of [datetime]. *)
Definition min_timestamp : Z := -62135596800.
Definition max_timestamp : Z := 253402300799.

(** [datetime.utcfromtimestamp(t)] for an int [t]. *)
Definition utcfromtimestamp (t : Z) : result datetime :=
  if (t <? min_timestamp) || (max_timestamp <? t)
  then raise (ValueError "year is out of range")
  else
    let days := t / 86400 in
    let rem := t mod 86400 in
    let '(y, m, d) := civil_from_days days in
    ok (mk_datetime y m d (rem / 3600) (rem mod 3600 / 60) (rem mod 60)).

(** Two decimal digits, zero-padded ([%m], [%d], [%H], [%M], [%S]). *)
Definition pad2 (n : Z) : string :=
  if n <? 10 then "0" +:+ str_of_int n else str_of_int n.

(** [dt.strftime('%Y-%m-%d_%H-%M-%S')].  [%Y] is the decimal year as the C
    library prints it, four digits from year 1000 on. *)
Definition strftime_ymd_hms (dt : datetime) : string :=
  str_of_int (year dt) +:+ "-" +:+ pad2 (month dt) +:+ "-" +:+ pad2 (day dt)
  +:+ "_" +:+ pad2 (hour dt) +:+ "-" +:+ pad2 (minute dt) +:+ "-" +:+ pad2 (second dt).

(** [dt.replace(tzinfo=timezone.utc).timestamp()]: the seconds since the
    epoch, a float with an integral value that is exact in this range. *)
Definition utc_timestamp (dt : datetime) : Z :=
  days_from_civil (year dt) (month dt) (day dt) * 86400
  + hour dt * 3600 + minute dt * 60 + second dt.

End Datetime.

(** *** datetime.strptime

    [_strptime] turns the format into a regular expression, takes the first
    match that a backtracking matcher finds from the start of the input and
    then requires that the match covers the whole input.  The matcher below
    returns all matches of a pattern in the order in which backtracking
    tries them, each with the input that is left. *)

Module Strptime.
Import Py Datetime.

Definition parser (A : Type) : Type := string -> list (A * string).

Definition p_ret {A} (a : A) : parser A := fun s => [(a, s)].

Definition p_bind {A B} (p : parser A) (f : A -> parser B) : parser B :=
  fun s => flat_map (fun '(a, rest) => f a rest) (p s).

Definition p_alt {A} (p q : parser A) : parser A := fun s => p s ++ q s.

(** One character with a code in [lo..hi], read as a decimal digit. *)
Definition p_digit (lo hi : ascii) : parser Z :=
  fun s =>
    match s with
    | String c rest =>
        let n := nat_of_ascii c in
        if (nat_of_ascii lo <=? n)%nat && (n <=? nat_of_ascii hi)%nat
        then [(Z.of_nat n - 48, rest)] else []
    | EmptyString => []
    end.

Definition p_char (c : ascii) : parser unit :=
  fun s =>
    match s with
    | String a rest => if Ascii.eqb a c then [(tt, rest)] else []
    | EmptyString => []
    end.

(** Two digits [a b], first in [lo1..hi1], second in [lo2..hi2]. *)
Definition p_two (lo1 hi1 lo2 hi2 : ascii) : parser Z :=
  p_bind (p_digit lo1 hi1) (fun a =>
  p_bind (p_digit lo2 hi2) (fun b => p_ret (10 * a + b))).

(** The characters that [\s] matches, among the codes below 256. *)
Definition is_space (c : ascii) : bool :=
  let n := nat_of_ascii c in
  ((9 <=? n) && (n <=? 13) || (28 <=? n) && (n <=? 32)
   || (n =? 133) || (n =? 160))%nat.

(** [\s*], greedy: the longest run first. *)
Fixpoint p_spaces0 (s : string) : list (unit * string) :=
  match s with
  | String c rest => if is_space c then p_spaces0 rest ++ [(tt, s)] else [(tt, s)]
  | EmptyString => [(tt, s)]
  end.

(** [\s+] *)
Definition p_spaces1 : parser unit :=
  fun s =>
    match s with
    | String c rest => if is_space c then p_spaces0 rest else []
    | EmptyString => []
    end.

(** [%Y]: [\d\d\d\d] *)
Definition p_Y : parser Z :=
  p_bind (p_two "0" "9" "0" "9") (fun hi =>
  p_bind (p_two "0" "9" "0" "9") (fun lo => p_ret (100 * hi + lo))).

(** [%m]: [1[0-2]|0[1-9]|[1-9]] *)
Definition p_m : parser Z :=
  p_alt (p_two "1" "1" "0" "2") (p_alt (p_two "0" "0" "1" "9") (p_digit "1" "9")).

(** [%d]: [3[0-1]|[1-2]\d|0[1-9]|[1-9]| [1-9]] *)
Definition p_d : parser Z :=
  p_alt (p_two "3" "3" "0" "1")
 (p_alt (p_two "1" "2" "0" "9")
 (p_alt (p_two "0" "0" "1" "9")
 (p_alt (p_digit "1" "9")
        (p_bind (p_char " ") (fun _ => p_digit "1" "9"))))).

(** [%H]: [2[0-3]|[0-1]\d|\d] *)
Definition p_H : parser Z :=
  p_alt (p_two "2" "2" "0" "3") (p_alt (p_two "0" "1" "0" "9") (p_digit "0" "9")).

(** [%M]: [[0-5]\d|\d] *)
Definition p_M : parser Z :=
  p_alt (p_two "0" "5" "0" "9") (p_digit "0" "9").

(** [%S]: [6[0-1]|[0-5]\d|\d] *)
Definition p_S : parser Z :=
  p_alt (p_two "6" "6" "0" "1") (p_alt (p_two "0" "5" "0" "9") (p_digit "0" "9")).

(** The pattern of ['%Y-%m-%d']. *)
Definition re_date : parser (Z * Z * Z) :=
  p_bind p_Y (fun y => p_bind (p_char "-") (fun _ =>
  p_bind p_m (fun m => p_bind (p_char "-") (fun _ =>
  p_bind p_d (fun d => p_ret (y, m, d)))))).

(** The pattern of ['%Y-%m-%d %H:%M:%S']. *)
Definition re_datetime : parser (Z * Z * Z * (Z * Z * Z)) :=
  p_bind re_date (fun ymd => p_bind p_spaces1 (fun _ =>
  p_bind p_H (fun h => p_bind (p_char ":") (fun _ =>
  p_bind p_M (fun mi => p_bind (p_char ":") (fun _ =>
  p_bind p_S (fun sec => p_ret (ymd, (h, mi, sec))))))))).

(** The [datetime] constructor with its range checks. *)
Definition make_datetime (y m d h mi sec : Z) : result datetime :=
  if (y <? 1) || (9999 <? y) then raise (ValueError "year is out of range")
  else if (d <? 1) || (days_in_month y m <? d)
  then raise (ValueError "day is out of range for month")
  else if 59 <? sec then raise (ValueError "second must be in 0..59")
  else ok (mk_datetime y m d h mi sec).

Definition first_match {A} (p : parser A) (s : string) : result A :=
  match p s with
  | [] => raise (ValueError "time data does not match format")
  | (a, EmptyString) :: _ => ok a
  | (_, String _ _) :: _ => raise (ValueError "unconverted data remains")
  end.

(** [datetime.strptime(s, '%Y-%m-%d')] *)
Definition strptime_date (s : string) : result datetime :=
  match first_match re_date s with
  | inl e => raise e
  | inr (y, m, d) => make_datetime y m d 0 0 0
  end.

(** [datetime.strptime(s, '%Y-%m-%d %H:%M:%S')] *)
Definition strptime_datetime (s : string) : result datetime :=
  match first_match re_datetime s with
  | inl e => raise e
  | inr (y, m, d, (h, mi, sec)) => make_datetime y m d h mi sec
  end.

End Strptime.

(** ** rospy.Time *)

Module Time.
Import Py.

Record t := mk { secs : Z; nsecs : Z }.

Definition to_nsec (x : t) : Z := secs x * 1000000000 + nsecs x.

(** The comparisons of [genpy.TVal] compare [to_nsec]. *)
Definition ltb (a b : t) : bool := to_nsec a <? to_nsec b.
Definition gtb (a b : t) : bool := to_nsec b <? to_nsec a.
Definition leb (a b : t) : bool := to_nsec a <=? to_nsec b.

(** [str(t)] *)
Definition str (x : t) : string := str_of_int (to_nsec x).

(** [rospy.Time.from_sec(f)] for a float [f] with the integral value
    [z]: the sub-second part is zero, and the constructor refuses
    negative seconds. *)
Definition from_sec (z : Z) : result t :=
  if z <? 0 then raise (TypeError "time values must be positive")
  else ok (mk z 0).

End Time.

(** ** rosbag

    The container reader is an external library.  A container is the
    sequence of its index entries in the order in which the reader visits
    them; each entry names its connection and its time, and deserializing
    its message either yields the message or raises.  [read_messages]
    follows the documented contract of [Bag.read_messages]: the entries on
    the requested topics (no list, or an empty one, means all topics) whose
    connection passes the connection filter and whose time lies in the
    inclusive range from [start_time] to [end_time]. *)

Module Rosbag.
Import Py.

Record Connection := mk_connection
  { c_topic : string;
    c_datatype : string;
    c_md5sum : string;
    c_msg_def : string;
    c_header : list (string * string) }.

(** A deserialized message: the printed form of its class,
    [str(type(msg))], and its serialized fields. *)
Record Msg := mk_msg { msg_class : string; msg_data : string }.

Record Entry := mk_entry
  { e_conn : Connection; e_time : Time.t; e_msg : result Msg }.

Definition Bag : Type := list Entry.

Definition ConnectionFilter : Type :=
  string -> string -> string -> string -> list (string * string) -> bool.

Definition topic_selected (topics : option (list string)) (c : Connection) : bool :=
  match topics with
  | None | Some [] => true
  | Some l => contains (c_topic c) l
  end.

Definition connection_selected (f : option ConnectionFilter) (c : Connection) : bool :=
  match f with
  | None => true
  | Some f => f (c_topic c) (c_datatype c) (c_md5sum c) (c_msg_def c) (c_header c)
  end.

Definition in_time_range (start_time end_time : option Time.t) (x : Time.t) : bool :=
  match start_time with None => true | Some a => Time.leb a x end
  && match end_time with None => true | Some b => Time.leb x b end.

Definition selected (topics : option (list string)) (start_time end_time : option Time.t)
    (f : option ConnectionFilter) (e : Entry) : bool :=
  topic_selected topics (e_conn e)
  && connection_selected f (e_conn e)
  && in_time_range start_time end_time (e_time e).

Definition read_messages (bag : Bag) (topics : option (list string))
    (start_time end_time : option Time.t) (f : option ConnectionFilter) : list Entry :=
  List.filter (selected topics start_time end_time f) bag.

(** The printed form of the class that genpy generates for the message
    type [pkg/base] inside the module [modname]. *)
Definition dyn_class_repr (modname pkg base : string) : string :=
  "<class '" +:+ modname +:+ "._" +:+ pkg +:+ "__" +:+ base +:+ "'>".

End Rosbag.

(** ** The world of the pipeline: file system, trace, external calls *)

(** A decoded pixel buffer, as bytes. *)
Definition Image : Type := string.

(** What the program does to the outside, in the order in which it does it.
    [EvOpen], [EvDecode...], [EvMakedirs] and [EvImwrite] record the calls
    of [rosbag.Bag], of the two decoders, of [os.makedirs] and of
    [cv2.imwrite]. *)
Inductive Event : Type :=
| EvLogStarted (path : string) (topics : option (list string))
               (start_time end_time : option string)
| EvLogInfo (m : string)
| EvLogError (m : string)
| EvPrint (m : string)
| EvOpen (file_name : string)
| EvClose (file_name : string)
| EvDecodeRaw (msg : Rosbag.Msg)
| EvDecodeCompressed (msg : Rosbag.Msg)
| EvMakedirs (dir : string)
| EvImwrite (path : string) (img : Image).

(** Directories are named by their path with the trailing separator. *)
Record State := mk_state
  { dirs : gset string;
    files : gmap string Image;
    trace : list Event }.

(** The inputs that the pipeline reads and the external decoders. *)
Record Env := mk_env
  { listdir : string -> Py.result (list string);
    bag_open : string -> Py.result Rosbag.Bag;
    message_to_cvimage : Rosbag.Msg -> Py.result Image;
    compressed_image_to_cvimage : Rosbag.Msg -> Py.result Image }.

(** Computations that read and change the state and may raise. *)
Definition M (A : Type) : Type := State -> Py.result A * State.

#[global] Instance M_ret : MRet M := fun A a s => (inr a, s).

#[global] Instance M_bind : MBind M := fun A B f m s =>
  match m s with
  | (inl e, s') => (inl e, s')
  | (inr a, s') => f a s'
  end.

Definition lift {A} (r : Py.result A) : M A := fun s => (r, s).

Definition throw {A} (e : Py.exn) : M A := lift (Py.raise e).

Definition emit (e : Event) : M unit :=
  fun s => (inr tt, mk_state (dirs s) (files s) (trace s ++ [e])).

(** [for x in l: body(x)] *)
Fixpoint for_each {A} (l : list A) (body : A -> M unit) : M unit :=
  match l with
  | [] => mret tt
  | x :: l' => body x;; for_each l' body
  end.

(** The prefixes of [p] that end in a separator: [p]'s ancestors, and [p]
    itself when it ends in one.  [pre] is the prefix read so far, reversed. *)
Fixpoint dir_prefixes (pre p : string) : list string :=
  match p with
  | EmptyString => []
  | String c p' =>
      let pre' := String c pre in
      if Ascii.eqb c OsPath.sep
      then String.rev pre' :: dir_prefixes pre' p'
      else dir_prefixes pre' p'
  end.

(** [os.path.exists(d)] for a directory path [d]. *)
Definition path_exists (d : string) : M bool :=
  fun s => (inr (bool_decide (d ∈ dirs s)), s).

(** [os.makedirs(d)]: creates [d] and the ancestors that are missing. *)
Definition makedirs (d : string) : M unit :=
  fun s => (inr tt, mk_state (list_to_set (dir_prefixes "" d) ∪ dirs s) (files s)
                             (trace s ++ [EvMakedirs d])).

(** [cv2.imwrite(path, img)]: writes the file, replacing an existing one. *)
Definition imwrite (path : string) (img : Image) : M unit :=
  fun s => (inr tt, mk_state (dirs s) (<[path := img]> (files s))
                             (trace s ++ [EvImwrite path img])).

Definition logging_info (m : string) : M unit := emit (EvLogInfo m).
Definition logging_error (m : string) : M unit := emit (EvLogError m).
Definition print (m : string) : M unit := emit (EvPrint m).

(** ** The program *)

Definition BAG_FILE_EXTENSION : string := ".bag".
Definition DESTINATION_LOCAL_BAG : string := "/data1/s3".
Definition SOURCE_PREFIX : string := "bg/".
Definition DESTINATION_LOCAL_PICTURES : string := "/data1/s3/pictures".

Definition DATA_TYPES : list string :=
  ["sensor_msgs/Image"; "sensor_msgs/CompressedImage"].
Definition TOPICS : list string :=
  ["/realsense_gripper/aligned_depth_to_color/image_raw";
   "/realsense_gripper/color/image_raw/compressed"].

Definition MIN_FILTER_TIME : string := "2023-08-22 18:33:48".
Definition MAX_FILTER_TIME : string := "2023-08-22 18:33:52".

Definition DEBUG_MODE : bool := true.

Definition get_file_extension (file_name : string) : string :=
  let '(_, f_extension) := OsPath.splitext file_name in
  Py.lower f_extension.

Definition get_file_name (file_name : string) : string :=
  let '(f_name, _) := OsPath.splitext file_name in
  Py.lower f_name.

Definition filter_image_msgs (topic datatype md5sum msg_def : string)
    (header : list (string * string)) : bool :=
  if Py.contains datatype DATA_TYPES then true else false.

(** [datetime.utcfromtimestamp(int(secs)).strftime('%Y-%m-%d_%H-%M-%S')] *)
Definition utc_date_str (secs : Z) : Py.result string :=
  match Datetime.utcfromtimestamp secs with
  | inl e => Py.raise e
  | inr dt => Py.ok (Datetime.strftime_ymd_hms dt)
  end.

(** The locals of [process_bag_message]. *)

Definition base_file_name (file_name : string) : string :=
  get_file_name (OsPath.basename file_name).

Definition time_str (time_stamp : Time.t) : Py.result string :=
  let nanosecs := Py.str_of_int (Time.nsecs time_stamp) in
  match utc_date_str (Time.secs time_stamp) with
  | inl e => Py.raise e
  | inr d => Py.ok (d +:+ "-" +:+ nanosecs)
  end.

Definition topic_str (topic : string) : string :=
  Py.replace_char "/" "_" (Py.slice_from 1 topic).

Definition out_file_name (time_str file_name : string) : string :=
  time_str +:+ "(" +:+ base_file_name file_name +:+ ")".

Definition out_dir_name (topic datatype folder_name_suffix : string) : string :=
  DESTINATION_LOCAL_PICTURES +:+ "/" +:+ topic_str topic +:+ "/" +:+
  datatype +:+ "/" +:+ folder_name_suffix +:+ "/".

Definition process_bag_message (env : Env) (file_name topic : string)
    (message : Rosbag.Msg) (datatype : string) (time_stamp : Time.t)
    (folder_name_suffix : string) : M unit :=
  time_str ← lift (time_str time_stamp);
  let out_file_name := out_file_name time_str file_name in
  let out_dir_name := out_dir_name topic datatype folder_name_suffix in
  (* [img] is bound by the two branches only *)
  img ← (if String.eqb datatype "Image" then
           emit (EvDecodeRaw message);;
           i ← lift (message_to_cvimage env message); mret (Some i)
         else if String.eqb datatype "CompressedImage" then
           emit (EvDecodeCompressed message);;
           i ← lift (compressed_image_to_cvimage env message); mret (Some i)
         else mret None);
  present ← path_exists out_dir_name;
  (if negb present then makedirs out_dir_name else mret tt);;
  match img with
  | None => throw (Py.UnboundLocalError "img")
  | Some img => imwrite (out_dir_name +:+ out_file_name +:+ ".png") img
  end;;
  logging_info ("Written file: " +:+ out_file_name);;
  if DEBUG_MODE then print out_file_name;; print out_dir_name else mret tt.

(** [(str(type(msg)).split('__')[1])[:-2]] *)
Definition short_type_name (msg : Rosbag.Msg) : Py.result string :=
  match Py.index (Py.split "__" (Rosbag.msg_class msg)) 1 with
  | inl e => Py.raise e
  | inr piece => Py.ok (Py.drop_last 2 piece)
  end.

(** [folder_name_suffix] of [process_bag_file]. *)
Definition folder_name_suffix (start_time end_time : Time.t) : Py.result string :=
  match utc_date_str (Time.secs start_time) with
  | inl e => Py.raise e
  | inr folder_name_suffix_start =>
      match utc_date_str (Time.secs end_time) with
      | inl e => Py.raise e
      | inr folder_name_suffix_end =>
          Py.ok (folder_name_suffix_start +:+ "_" +:+ folder_name_suffix_end)
      end
  end.

(** The body of the loop of [process_bag_file]: the reader deserializes
    the next selected message, then the record is processed. *)
Definition process_entry (env : Env) (file_name folder_name_suffix : string)
    (e : Rosbag.Entry) : M unit :=
  msg ← lift (Rosbag.e_msg e);
  datatype ← lift (short_type_name msg);
  process_bag_message env file_name (Rosbag.c_topic (Rosbag.e_conn e)) msg datatype
                      (Rosbag.e_time e) folder_name_suffix.

Definition process_bag_file (env : Env) (file_name : string)
    (topics : option (list string)) (start_time end_time : Time.t) : M unit :=
  logging_info ("Processing file: " +:+ file_name);;
  (if DEBUG_MODE then print ("Processing file: " +:+ file_name) else mret tt);;
  folder_name_suffix ← lift (folder_name_suffix start_time end_time);
  emit (EvOpen file_name);;
  bag ← lift (bag_open env file_name);
  for_each (Rosbag.read_messages bag topics (Some start_time) (Some end_time)
                                 (Some filter_image_msgs))
           (process_entry env file_name folder_name_suffix);;
  emit (EvClose file_name).

(** [f"{x}"] for a string or None. *)
Definition fmt_opt (x : option string) : string :=
  match x with Some s => s | None => "None" end.

(** The window of [process_bag_files]: both bounds are parsed, then both
    are turned into times. *)
Definition parse_window (start_time end_time : option string)
  : Py.result (Time.t * Time.t) :=
  let epoch_start := "1980-01-01" in
  let epoch_end := "2900-12-31" in
  match
    match start_time with
    | None => Strptime.strptime_date epoch_start
    | Some s => Strptime.strptime_datetime s
    end
  with
  | inl e => Py.raise e
  | inr start_time_t =>
      match
        match end_time with
        | None => Strptime.strptime_date epoch_end
        | Some s => Strptime.strptime_datetime s
        end
      with
      | inl e => Py.raise e
      | inr end_time_t =>
          match Time.from_sec (Datetime.utc_timestamp start_time_t) with
          | inl e => Py.raise e
          | inr start_timestamp =>
              match Time.from_sec (Datetime.utc_timestamp end_time_t) with
              | inl e => Py.raise e
              | inr end_timestamp => Py.ok (start_timestamp, end_timestamp)
              end
          end
      end
  end.

Definition is_bag_file (fl : string) : bool :=
  String.eqb (get_file_extension fl) BAG_FILE_EXTENSION.

(** [lst_files] of [process_bag_files]. *)
Definition lst_files (path_to_files : string) (names : list string) : list string :=
  Py.sorted (map (String.append path_to_files) (List.filter is_bag_file names)).

Definition process_bag_files (env : Env) (path_to_files : string)
    (topics : option (list string)) (start_time end_time : option string) : M unit :=
  emit (EvLogStarted path_to_files topics start_time end_time);;
  '(start_timestamp, end_timestamp) ← lift (parse_window start_time end_time);
  if Time.gtb start_timestamp end_timestamp then
    logging_error ("Start filter time=" +:+ fmt_opt start_time +:+
                   " is greater than End filter time=" +:+ fmt_opt end_time);;
    (if DEBUG_MODE
     then print "Error: End filter time is greater than Start filter time"
     else mret tt)
  else
    names ← lift (listdir env path_to_files);
    let lst_files := lst_files path_to_files names in
    (if DEBUG_MODE
     then print (Time.str start_timestamp +:+ " " +:+ Time.str end_timestamp)
     else mret tt);;
    for_each lst_files
             (fun fl => process_bag_file env fl topics start_timestamp end_timestamp).

(** ** Observations on traces and the behaviour of the pipeline *)

(** The files that a trace opened, the images that it wrote and the
    messages that it passed to a decoder, in order. *)
Definition opened (tr : list Event) : list string :=
  omap (fun e => match e with EvOpen f => Some f | _ => None end) tr.

Definition written (tr : list Event) : list (string * Image) :=
  omap (fun e => match e with EvImwrite p i => Some (p, i) | _ => None end) tr.

Definition decoded (tr : list Event) : list Rosbag.Msg :=
  omap (fun e => match e with
                 | EvDecodeRaw m | EvDecodeCompressed m => Some m
                 | _ => None
                 end) tr.

(** The calls to the reader, the decoders and the writer; logging, console
    output and directory creation are left out. *)
Definition is_call (e : Event) : bool :=
  match e with
  | EvOpen _ | EvClose _ | EvDecodeRaw _ | EvDecodeCompressed _ | EvImwrite _ _ => true
  | _ => false
  end.

Definition calls (tr : list Event) : list Event := List.filter is_call tr.

(** Writing a sequence of files into a file system. *)
Definition apply_writes (ws : list (string * Image)) (fs : gmap string Image)
  : gmap string Image :=
  foldl (fun fs w => <[w.1 := w.2]> fs) fs ws.

(** Appending events to the trace of a state. *)
Definition emits (evs : list Event) (s : State) : State :=
  mk_state (dirs s) (files s) (trace s ++ evs).

(** A behaviour: how a computation ends, and the calls it makes. *)
Definition Behaviour : Type := Py.result unit * list Event.

(** A computation has the behaviour [(r, C)] when, from every state, it
    ends with [r], adds exactly the calls [C] and leaves the file system
    with the files of [C] written into it. *)
Definition effect {A} (m : M A) (r : Py.result A) (C : list Event) : Prop :=
  forall s,
    fst (m s) = r
    /\ calls (trace (snd (m s))) = calls (trace s) ++ C
    /\ files (snd (m s)) = apply_writes (written C) (files s).

Definition then_behaviour (b : Behaviour) (k : Behaviour) : Behaviour :=
  match fst b with
  | inl e => (inl e, snd b)
  | inr _ => (fst k, snd b ++ snd k)
  end.

(** The path that [process_bag_message] writes. *)
Definition out_path (file_name topic datatype time_str folder_name_suffix : string)
  : string :=
  out_dir_name topic datatype folder_name_suffix
  +:+ out_file_name time_str file_name +:+ ".png".

Definition message_behaviour (env : Env) (file_name topic : string)
    (message : Rosbag.Msg) (datatype : string) (time_stamp : Time.t)
    (folder_name_suffix : string) : Behaviour :=
  match time_str time_stamp with
  | inl ex => (inl ex, [])
  | inr ts =>
      let path := out_path file_name topic datatype ts folder_name_suffix in
      if String.eqb datatype "Image" then
        match message_to_cvimage env message with
        | inl ex => (inl ex, [EvDecodeRaw message])
        | inr img => (inr tt, [EvDecodeRaw message; EvImwrite path img])
        end
      else if String.eqb datatype "CompressedImage" then
        match compressed_image_to_cvimage env message with
        | inl ex => (inl ex, [EvDecodeCompressed message])
        | inr img => (inr tt, [EvDecodeCompressed message; EvImwrite path img])
        end
      else (inl (Py.UnboundLocalError "img"), [])
  end.

Definition entry_behaviour (env : Env) (file_name folder_name_suffix : string)
    (e : Rosbag.Entry) : Behaviour :=
  match Rosbag.e_msg e with
  | inl ex => (inl ex, [])
  | inr msg =>
      match short_type_name msg with
      | inl ex => (inl ex, [])
      | inr datatype =>
          message_behaviour env file_name (Rosbag.c_topic (Rosbag.e_conn e)) msg
                            datatype (Rosbag.e_time e) folder_name_suffix
      end
  end.

(** A loop stops at the first iteration that raises. *)
Fixpoint loop_behaviour {A} (body : A -> Behaviour) (l : list A) : Behaviour :=
  match l with
  | [] => (inr tt, [])
  | x :: l' => then_behaviour (body x) (loop_behaviour body l')
  end.

Definition file_behaviour (env : Env) (file_name : string)
    (topics : option (list string)) (start_time end_time : Time.t) : Behaviour :=
  match folder_name_suffix start_time end_time with
  | inl ex => (inl ex, [])
  | inr suffix =>
      match bag_open env file_name with
      | inl ex => (inl ex, [EvOpen file_name])
      | inr bag =>
          then_behaviour
            (inr tt, [EvOpen file_name])
            (then_behaviour
               (loop_behaviour (entry_behaviour env file_name suffix)
                  (Rosbag.read_messages bag topics (Some start_time) (Some end_time)
                                        (Some filter_image_msgs)))
               (inr tt, [EvClose file_name]))
      end
  end.

Definition batch_behaviour (env : Env) (path_to_files : string)
    (topics : option (list string)) (start_time end_time : option string) : Behaviour :=
  match parse_window start_time end_time with
  | inl ex => (inl ex, [])
  | inr (start_timestamp, end_timestamp) =>
      if Time.gtb start_timestamp end_timestamp then (inr tt, [])
      else
        match listdir env path_to_files with
        | inl ex => (inl ex, [])
        | inr names =>
            loop_behaviour
              (fun fl => file_behaviour env fl topics start_timestamp end_timestamp)
              (lst_files path_to_files names)
        end
  end.

(** The short type name under which a record is processed, and the
    environment in which one container has a given content. *)
Definition record_type (e : Rosbag.Entry) : string :=
  match Rosbag.e_msg e with
  | inr msg => match short_type_name msg with inr d => d | inl _ => "" end
  | inl _ => ""
  end.

Definition set_bag (env : Env) (file_name : string) (content : Py.result Rosbag.Bag)
  : Env :=
  mk_env (listdir env)
         (fun f => if String.eqb f file_name then content else bag_open env f)
         (message_to_cvimage env)
         (compressed_image_to_cvimage env).

(** The image that the decoder for [datatype] yields, if there is one. *)
Definition decode_image (env : Env) (datatype : string) (message : Rosbag.Msg)
  : option (Py.result Image) :=
  if String.eqb datatype "Image" then Some (message_to_cvimage env message)
  else if String.eqb datatype "CompressedImage"
       then Some (compressed_image_to_cvimage env message)
       else None.

(** No two consecutive underscores. *)
Fixpoint no_double_underscore (s : string) : bool :=
  match s with
  | String a ((String b _) as s') =>
      negb (Ascii.eqb a "_" && Ascii.eqb b "_") && no_double_underscore s'
  | _ => true
  end.

(** The path of a record, as a function of the naming inputs alone. *)
Definition record_path (file_name topic datatype : string) (time_stamp : Time.t)
    (folder_name_suffix : string) : string :=
  match time_str time_stamp with
  | inr ts => out_path file_name topic datatype ts folder_name_suffix
  | inl _ => ""
  end.

(** The image that the record step writes for a record, if it gets that
    far: the message is read, a type name is derived from its class, the
    time is formatted, and the decoder for the type name returns. *)
Definition record_image (env : Env) (e : Rosbag.Entry) : option Image :=
  match Rosbag.e_msg e with
  | inr msg =>
      match short_type_name msg, time_str (Rosbag.e_time e) with
      | inr datatype, inr _ =>
          match decode_image env datatype msg with
          | Some (inr img) => Some img
          | _ => None
          end
      | _, _ => None
      end
  | inl _ => None
  end.

(** The records that the reader selects in a container, none when the
    container cannot be opened. *)
Definition file_records (env : Env) (file_name : string) (topics : option (list string))
    (start_time end_time : Time.t) : list Rosbag.Entry :=
  match bag_open env file_name with
  | inr bag => Rosbag.read_messages bag topics (Some start_time) (Some end_time)
                                    (Some filter_image_msgs)
  | inl _ => []
  end.

(** What the record step writes for a record that it processes: the image
    of the decoder, under the path of the record. *)
Definition written_for (env : Env) (file_name suffix : string)
    (x : Rosbag.Entry) (w : string * Image) : Prop :=
  record_image env x = Some w.2
  /\ w.1 = record_path file_name (Rosbag.c_topic (Rosbag.e_conn x)) (record_type x)
                        (Rosbag.e_time x) suffix.

(** What the driver writes for a container that it processes to its end. *)
Definition written_for_file (env : Env) (topics : option (list string))
    (t1 t2 : Time.t) (fl : string) (ws : list (string * Image)) : Prop :=
  exists suffix,
    folder_name_suffix t1 t2 = inr suffix
    /\ Forall2 (written_for env fl suffix) (file_records env fl topics t1 t2) ws.

(** ** A small world for examples *)

Module Demo.

Definition conn (topic datatype : string) : Rosbag.Connection :=
  Rosbag.mk_connection topic datatype "060021388200f6f0f447d0fcd9c64743" "" [].

Definition image_msg (data : string) : Rosbag.Msg :=
  Rosbag.mk_msg (Rosbag.dyn_class_repr "tmpk3j_x2a1" "sensor_msgs" "Image") data.

Definition compressed_msg (data : string) : Rosbag.Msg :=
  Rosbag.mk_msg (Rosbag.dyn_class_repr "tmpk3j_x2a1" "sensor_msgs" "CompressedImage") data.

(** A raw-image record on [topic] at [secs.nsecs]. *)
Definition record (topic : string) (secs nsecs : Z) (data : string) : Rosbag.Entry :=
  Rosbag.mk_entry (conn topic "sensor_msgs/Image") (Time.mk secs nsecs)
                  (inr (image_msg data)).

(** A record of a type that is not an image. *)
Definition imu_record (topic : string) (secs nsecs : Z) : Rosbag.Entry :=
  Rosbag.mk_entry (conn topic "sensor_msgs/Imu") (Time.mk secs nsecs)
                  (inl (Py.ExternalError "not read")).

(** The window of [MIN_FILTER_TIME] and [MAX_FILTER_TIME]. *)
Definition window_start : Time.t := Time.mk 1692729228 0.
Definition window_end : Time.t := Time.mk 1692729232 0.

(** Records before, inside and after the window. *)
Definition before : Rosbag.Entry := record "/cam/image_raw" 1692729220 5 "before".
Definition inside : Rosbag.Entry := record "/cam/image_raw" 1692729230 0 "inside".
Definition after : Rosbag.Entry := record "/cam/image_raw" 1692729240 7 "after".

Definition bag : Rosbag.Bag := [before; inside; after].

(** The decoders fail on the payload ["bad"]. *)
Definition decode_raw (m : Rosbag.Msg) : Py.result Image :=
  if String.eqb (Rosbag.msg_data m) "bad"
  then inl (Py.ExternalError "malformed payload")
  else inr ("raw:" +:+ Rosbag.msg_data m).

Definition decode_compressed (m : Rosbag.Msg) : Py.result Image :=
  if String.eqb (Rosbag.msg_data m) "bad"
  then inl (Py.ExternalError "malformed payload")
  else inr ("png:" +:+ Rosbag.msg_data m).

(** Three containers with the same records; the listing is not sorted. *)
Definition env : Env :=
  mk_env (fun _ => inr ["b.bag"; "a.bag"; "notes.txt"; "c.bag"])
         (fun _ => inr bag)
         decode_raw decode_compressed.

(** The same, but [b.bag] is truncated. *)
Definition env_corrupt : Env :=
  set_bag env "/in/b.bag" (inl (Py.ExternalError "truncated container")).

Definition init : State := mk_state ∅ ∅ [].

End Demo.

(** ** The naming scheme in the words of the specification *)

Module Spec.

(** Decimal numbers, zero-padded to two and to four digits. *)
Definition two_digits (n : Z) : string :=
  if n <? 10 then "0" +:+ Py.str_of_int n else Py.str_of_int n.

Definition four_digits (n : Z) : string :=
  if n <? 10 then "000" +:+ Py.str_of_int n
  else if n <? 100 then "00" +:+ Py.str_of_int n
  else if n <? 1000 then "0" +:+ Py.str_of_int n
  else Py.str_of_int n.

(** [YYYY-MM-DD_HH-MM-SS] for the UTC calendar time [secs] seconds after
    the epoch. *)
Definition dateToken (secs : Z) : string :=
  let '(y, m, d) := Datetime.civil_from_days (secs / 86400) in
  let rem := secs mod 86400 in
  four_digits y +:+ "-" +:+ two_digits m +:+ "-" +:+ two_digits d +:+ "_" +:+
  two_digits (rem / 3600) +:+ "-" +:+ two_digits (rem mod 3600 / 60) +:+ "-" +:+
  two_digits (rem mod 60).

(** The source file name without directory and without extension, in lower
    case. *)
Definition baseFileName (sourceFile : string) : string :=
  Py.lower (fst (OsPath.splitext (OsPath.basename sourceFile))).

(** The whole seconds as a date, a dash, the sub-second remainder as a plain
    integer. *)
Definition timeToken (timestamp : Time.t) : string :=
  dateToken (Time.secs timestamp) +:+ "-" +:+ Py.str_of_int (Time.nsecs timestamp).

(** The channel with its leading path separator stripped. *)
Definition stripLeadingSeparator (channel : string) : string :=
  match channel with
  | String c rest => if Ascii.eqb c "/" then rest else channel
  | EmptyString => EmptyString
  end.

(** ... and all remaining path separators replaced by underscore. *)
Definition channelToken (channel : string) : string :=
  Py.replace_char "/" "_" (stripLeadingSeparator channel).

Definition windowSuffix (windowStart windowEnd : Time.t) : string :=
  dateToken (Time.secs windowStart) +:+ "_" +:+ dateToken (Time.secs windowEnd).

Definition outputPath (outputRoot sourceFile channel declaredType : string)
    (timestamp windowStart windowEnd : Time.t) : string :=
  outputRoot +:+ "/" +:+ channelToken channel +:+ "/" +:+ declaredType +:+ "/" +:+
  windowSuffix windowStart windowEnd +:+ "/" +:+
  timeToken timestamp +:+ "(" +:+ baseFileName sourceFile +:+ ").png".

End Spec.

(** ** Further observations *)

(** The string [s] holds no character [c]. *)
Fixpoint no_char (c : ascii) (s : string) : bool :=
  match s with
  | EmptyString => true
  | String a s' => negb (Ascii.eqb a c) && no_char c s'
  end.

(** The directories for which a trace called [os.makedirs], and the
    containers that it closed. *)
Definition made (tr : list Event) : list string :=
  omap (fun e => match e with EvMakedirs d => Some d | _ => None end) tr.

Definition closed (tr : list Event) : list string :=
  omap (fun e => match e with EvClose f => Some f | _ => None end) tr.

(** The image of the last write to [path] in a sequence of writes. *)
Fixpoint last_write (path : string) (ws : list (string * Image)) : option Image :=
  match ws with
  | [] => None
  | w :: ws' =>
      match last_write path ws' with
      | Some i => Some i
      | None => if String.eqb w.1 path then Some w.2 else None
      end
  end.

(** ** The upload of the output tree

    [upload_file_to_s3] and [store_files_to_s3].  The object store and
    [os.walk] are external: a client gives the outcome of each call.  A
    bucket maps the key of an object to the local file whose content was
    uploaded under it. *)

Module Store.

(** [s.endswith(c)] for one character. *)
Fixpoint ends_with (c : ascii) (s : string) : bool :=
  match s with
  | EmptyString => false
  | String a EmptyString => Ascii.eqb a c
  | String _ s' => ends_with c s'
  end.

(** [os.path.join(a, b)] *)
Definition path_join (a b : string) : string :=
  if Py.startswith "/" b then b
  else if String.eqb a "" || ends_with "/" a then a +:+ b
  else a +:+ "/" +:+ b.

(** [new.join(pieces)] *)
Fixpoint str_join (new : string) (pieces : list string) : string :=
  match pieces with
  | [] => EmptyString
  | [p] => p
  | p :: ps => p +:+ new +:+ str_join new ps
  end.

(** [s.replace(old, new)] for a non-empty [old]: every occurrence, found
    from the left and not overlapping, is replaced. *)
Definition str_replace (old new s : string) : string :=
  str_join new (Py.split old s).

(** How a call of the client's [upload_file] ends: the object is stored,
    or [botocore.exceptions.ClientError] is raised, or another exception. *)
Inductive UploadOutcome : Type :=
| Uploaded
| ClientError (msg : string)
| OtherFailure (e : Py.exn).

Record Client := mk_client
  { walk : string -> list (string * list string * list string);
    delete_objects : string -> Py.result unit;
    upload_file : string -> string -> string -> UploadOutcome }.

Inductive StoreEvent : Type :=
| SLogInfo (m : string)
| SLogError (m : string)
| SPrint (m : string)
| SDeleteAll (bucket : string)
| SUpload (file_name bucket object_name : string).

Record StoreState := mk_store
  { buckets : gmap string (gmap string string);
    store_trace : list StoreEvent }.

Definition SM (A : Type) : Type := StoreState -> Py.result A * StoreState.

#[global] Instance SM_ret : MRet SM := fun A a s => (inr a, s).

#[global] Instance SM_bind : MBind SM := fun A B f m s =>
  match m s with
  | (inl e, s') => (inl e, s')
  | (inr a, s') => f a s'
  end.

Definition s_lift {A} (r : Py.result A) : SM A := fun s => (r, s).

Definition s_emit (e : StoreEvent) : SM unit :=
  fun s => (inr tt, mk_store (buckets s) (store_trace s ++ [e])).

(** The objects of a bucket. *)
Definition objects (s : StoreState) (bucket : string) : gmap string string :=
  default ∅ (buckets s !! bucket).

Definition put_object (bucket object_name file_name : string) : SM unit :=
  fun s => (inr tt,
            mk_store (<[bucket := <[object_name := file_name]> (objects s bucket)]> (buckets s))
                     (store_trace s)).

Definition clear_bucket (bucket : string) : SM unit :=
  fun s => (inr tt, mk_store (<[bucket := ∅]> (buckets s)) (store_trace s)).

Definition upload_file_to_s3 (b3_client : Client) (file_name bucket : string)
    (object_name : option string) : SM bool :=
  let object_name := match object_name with None => file_name | Some n => n end in
  s_emit (SUpload file_name bucket object_name);;
  match upload_file b3_client file_name bucket object_name with
  | Uploaded => put_object bucket object_name file_name;; mret true
  | ClientError error => s_emit (SLogError error);; mret false
  | OtherFailure e => s_lift (Py.raise e)
  end.

(** A loop that carries the counter [num_files]. *)
Fixpoint for_each_counting {A} (l : list A) (body : A -> Z -> SM Z) (num_files : Z) : SM Z :=
  match l with
  | [] => mret num_files
  | x :: l' => n ← body x num_files; for_each_counting l' body n
  end.

Definition store_file (b3_client : Client) (destination_bucket root file : string)
    (num_files : Z) : SM Z :=
  let file_to_store := path_join root file in
  let object_to_store :=
    str_replace (DESTINATION_LOCAL_PICTURES +:+ "/") "" file_to_store in
  stored ← upload_file_to_s3 b3_client file_to_store destination_bucket (Some object_to_store);
  if stored : bool then
    s_emit (SLogInfo ("File " +:+ file +:+ " stored"));;
    (if DEBUG_MODE then s_emit (SPrint ("File " +:+ file +:+ " stored")) else mret tt);;
    mret (num_files + 1)
  else mret num_files.

Definition store_files_to_s3 (b3_client : Client) (destination_bucket : string) : SM unit :=
  s_emit (SLogInfo "Storing files to s3 store started");;
  s_emit (SDeleteAll destination_bucket);;
  s_lift (delete_objects b3_client destination_bucket);;
  clear_bucket destination_bucket;;
  num_files ←
    for_each_counting (walk b3_client DESTINATION_LOCAL_PICTURES)
      (fun '(root, subdirs, files) num_files =>
         match files with
         | [] => mret num_files
         | _ => for_each_counting files (store_file b3_client destination_bucket root)
                                  num_files
         end) 0;
  s_emit (SLogInfo ("Stored " +:+ Py.str_of_int num_files +:+ " files"));;
  if DEBUG_MODE
  then s_emit (SPrint ("Stored " +:+ Py.str_of_int num_files +:+ " files"))
  else mret tt.

(** The uploads that a trace attempted: file, bucket and key. *)
Definition uploads (tr : list StoreEvent) : list (string * string * string) :=
  omap (fun e => match e with SUpload f b k => Some (f, b, k) | _ => None end) tr.

(** The files of a walk, each with the directory in which it was found,
    and the local path and the key under which a file is stored. *)
Definition walk_pairs (b3_client : Client) : list (string * string) :=
  flat_map (fun '(root, subdirs, files) => map (pair root) files)
           (walk b3_client DESTINATION_LOCAL_PICTURES).

Definition stored_as (rf : string * string) : string * string :=
  (path_join rf.1 rf.2,
   str_replace (DESTINATION_LOCAL_PICTURES +:+ "/") "" (path_join rf.1 rf.2)).

Definition outcome (b3_client : Client) (bucket : string) (rf : string * string)
  : UploadOutcome :=
  upload_file b3_client (stored_as rf).1 bucket (stored_as rf).2.

Definition is_uploaded (o : UploadOutcome) : bool :=
  match o with Uploaded => true | _ => false end.

Definition is_other_failure (o : UploadOutcome) : bool :=
  match o with OtherFailure _ => true | _ => false end.

(** The files, in local path and key, whose upload succeeds. *)
Definition uploaded_of (b3_client : Client) (bucket : string) (l : list (string * string))
  : list (string * string) :=
  map stored_as (List.filter (fun rf => is_uploaded (outcome b3_client bucket rf)) l).

(** Storing a sequence of files under their keys. *)
Definition put_all (l : list (string * string)) (m : gmap string string)
  : gmap string string :=
  foldl (fun m fk => <[fk.2 := fk.1]> m) m l.

(** The number of files whose upload succeeds. *)
Definition count_uploaded (c : Client) (bucket : string) (l : list (string * string)) : Z :=
  Z.of_nat (length (uploaded_of c bucket l)).

End Store.

(** The text [old] starts at no position of [s]. *)
Fixpoint occurs_nowhere (old s : string) : bool :=
  match s with
  | EmptyString => true
  | String _ s' => negb (Py.startswith old s) && occurs_nowhere old s'
  end.

(** A small output tree and two clients for examples. *)
Module StoreDemo.
Import Store.

Definition tree (top : string) : list (string * list string * list string) :=
  [(top, ["cam"], []);
   (top +:+ "/cam", ["Image"], []);
   (top +:+ "/cam/Image", [], ["a.png"; "b.png"; "c.png"])].

(** The upload of [b.png] is refused with a ClientError. *)
Definition client : Client :=
  mk_client tree (fun _ => inr tt)
            (fun file_name bucket object_name =>
               if String.eqb object_name "cam/Image/b.png"
               then ClientError "AccessDenied" else Uploaded).

(** The upload of [b.png] fails with another exception. *)
Definition broken_client : Client :=
  mk_client tree (fun _ => inr tt)
            (fun file_name bucket object_name =>
               if String.eqb object_name "cam/Image/b.png"
               then OtherFailure (Py.ExternalError "S3UploadFailedError") else Uploaded).

(** A store whose bucket [out] holds an object of an earlier run. *)
Definition init : StoreState :=
  mk_store {[ "out" := {[ "old/x.png" := "/data1/s3/pictures/old/x.png" ]} ]} [].

End StoreDemo.

(** ** The download stage *)

Module Download.
Import Store.

Definition SOURCE_BUCKET : string := "test-task-01".

(** [posixpath.splitroot(p)] without the (empty) drive: the root is [//]
    for exactly two leading separators and [/] for one or for three and
    more. *)
Definition splitroot (p : string) : string * string :=
  match p with
  | String "/" (String "/" (String "/" r)) => ("/", String "/" (String "/" r))
  | String "/" (String "/" r) => ("//", r)
  | String "/" r => ("/", r)
  | _ => ("", p)
  end.

(** [str(PurePath(a, b))] on POSIX: the segments are joined as by
    [os.path.join], the root is split off, empty components and [.] are
    dropped, and a path without root and components is written [.]. *)
Definition purepath (a b : string) : string :=
  let '(root, rel) := splitroot (path_join a b) in
  let tail := List.filter (fun x => negb (String.eqb x "") && negb (String.eqb x "."))
                          (Py.split "/" rel) in
  let s := root +:+ str_join "/" tail in
  if String.eqb s "" then "." else s.

(** The S3 client of the download: [download_file(Bucket, Key, Filename)]
    returns or raises. *)
Record Source := mk_source
  { download_file : string -> string -> string -> option Py.exn }.

Inductive DownloadEvent : Type :=
| DLogInfo (m : string)
| DPrint (m : string)
| DDownloadFile (bucket key file_name : string).

(** [download_object]: the result and the events in order. *)
Definition download_object (s3_client : Source) (file_name : string)
  : Py.result string * list DownloadEvent :=
  let download_path := purepath DESTINATION_LOCAL_BAG file_name in
  let line := "Downloading " +:+ file_name +:+ " to " +:+ download_path in
  let events := [DLogInfo line]
                ++ (if DEBUG_MODE then [DPrint line] else [])
                ++ [DDownloadFile SOURCE_BUCKET file_name download_path] in
  match download_file s3_client SOURCE_BUCKET file_name download_path with
  | Some e => (Py.raise e, events)
  | None => (Py.ok "Success", events)
  end.

(** An entry of [Contents] in the listing of the source bucket. *)
Record S3Object := mk_object { Key : string; Size : Z }.

(** The condition of the comprehension of [download_parallel_multithreading]
    and the objects for which a download task is submitted, in the order of
    the listing. *)
Definition is_submitted (obj : S3Object) : bool :=
  String.eqb (get_file_extension (Key obj)) BAG_FILE_EXTENSION.

Definition submitted (contents : list S3Object) : list S3Object :=
  List.filter is_submitted contents.

End Download.

Import Rosbag.
Import Store.
Import Download.

(** * Properties *)

(** ** The library models on examples *)

Example str_of_int_ex : Py.str_of_int 5 = "5" /\ Py.str_of_int 0 = "0"
  /\ Py.str_of_int 123456789 = "123456789".
Proof. repeat split; reflexivity. Qed.

Example lower_ex : Py.lower "Run1.BAG" = "run1.bag".
Proof. reflexivity. Qed.

(** Beyond ASCII: the capital A with grave (192) has the lower case 224;
    the multiplication sign (215), the sharp s (223) and the micro sign
    (181) are their own lower case. *)
Example lower_latin1_ex :
  map (fun n => nat_of_ascii (Py.lower_char (ascii_of_nat n)))
      [64; 65; 90; 91; 181; 191; 192; 214; 215; 216; 222; 223; 224; 255]%nat
  = [64; 97; 122; 91; 181; 191; 224; 246; 215; 248; 254; 223; 224; 255]%nat.
Proof. reflexivity. Qed.

Example split_ex :
  Py.split "__" "<class 'tmpx._sensor_msgs__Image'>"
  = ["<class 'tmpx._sensor_msgs"; "Image'>"].
Proof. reflexivity. Qed.

Example split_ex3 : Py.split "__" "a___b____" = ["a"; "_b"; ""; ""].
Proof. reflexivity. Qed.

Example sorted_ex : Py.sorted ["b.bag"; "a.bag"; "c.bag"] = ["a.bag"; "b.bag"; "c.bag"].
Proof. vm_compute. reflexivity. Qed.

Example basename_ex : OsPath.basename "/data1/s3/bg/Run1.bag" = "Run1.bag".
Proof. reflexivity. Qed.

Example splitext_ex :
  OsPath.splitext "Run1.tar.BAG" = ("Run1.tar", ".BAG")
  /\ OsPath.splitext ".bag" = (".bag", "")
  /\ OsPath.splitext "..bag" = ("..bag", "")
  /\ OsPath.splitext "a.d/file" = ("a.d/file", "")
  /\ OsPath.splitext "/x/.a.bag" = ("/x/.a", ".bag").
Proof. repeat split; reflexivity. Qed.

Example utcfromtimestamp_ex :
  Datetime.utcfromtimestamp 1692729228
  = Py.ok (Datetime.mk_datetime 2023 8 22 18 33 48).
Proof. reflexivity. Qed.

Example strftime_ex :
  Datetime.strftime_ymd_hms (Datetime.mk_datetime 2023 8 22 18 33 48)
  = "2023-08-22_18-33-48".
Proof. reflexivity. Qed.

Example utc_timestamp_ex :
  Datetime.utc_timestamp (Datetime.mk_datetime 2023 8 22 18 33 48) = 1692729228
  /\ Datetime.utc_timestamp (Datetime.mk_datetime 1 1 1 0 0 0) = Datetime.min_timestamp
  /\ Datetime.utc_timestamp (Datetime.mk_datetime 9999 12 31 23 59 59) = Datetime.max_timestamp
  /\ Datetime.utcfromtimestamp 951782400 = Py.ok (Datetime.mk_datetime 2000 2 29 0 0 0)
  /\ Datetime.utcfromtimestamp (-1) = Py.ok (Datetime.mk_datetime 1969 12 31 23 59 59).
Proof. repeat split; reflexivity. Qed.

Example strptime_ex :
  Strptime.strptime_datetime "2023-08-22 18:33:48"
  = Py.ok (Datetime.mk_datetime 2023 8 22 18 33 48)
  /\ Strptime.strptime_datetime "2023-8-2   7:3:9"
     = Py.ok (Datetime.mk_datetime 2023 8 2 7 3 9)
  /\ Strptime.strptime_date "1980-01-01" = Py.ok (Datetime.mk_datetime 1980 1 1 0 0 0)
  /\ Strptime.strptime_date "2900-12-31" = Py.ok (Datetime.mk_datetime 2900 12 31 0 0 0)
  /\ Py.is_ok (Strptime.strptime_datetime "2023-02-30 00:00:00") = false
  /\ Py.is_ok (Strptime.strptime_datetime "2023-13-01 00:00:00") = false
  /\ Py.is_ok (Strptime.strptime_datetime "2023-08-22 18:33:48Z") = false
  /\ Py.is_ok (Strptime.strptime_datetime "2023-08-22") = false.
Proof. repeat split; reflexivity. Qed.

(** ** The behaviour of each function *)

Lemma calls_app tr1 tr2 : calls (tr1 ++ tr2) = calls tr1 ++ calls tr2.
Proof. apply List.filter_app. Qed.

Lemma written_app tr1 tr2 : written (tr1 ++ tr2) = written tr1 ++ written tr2.
Proof. apply omap_app. Qed.

Lemma opened_app tr1 tr2 : opened (tr1 ++ tr2) = opened tr1 ++ opened tr2.
Proof. apply omap_app. Qed.

Lemma decoded_app tr1 tr2 : decoded (tr1 ++ tr2) = decoded tr1 ++ decoded tr2.
Proof. apply omap_app. Qed.

Lemma apply_writes_app ws1 ws2 fs :
  apply_writes (ws1 ++ ws2) fs = apply_writes ws2 (apply_writes ws1 fs).
Proof. apply foldl_app. Qed.

Lemma effect_ret {A} (a : A) : effect (mret a) (inr a) [].
Proof. intros s. cbn. rewrite app_nil_r. auto. Qed.

Lemma effect_lift {A} (r : Py.result A) : effect (lift r) r [].
Proof. intros s. cbn. rewrite app_nil_r. auto. Qed.

Lemma effect_emit e :
  written [e] = [] ->
  effect (emit e) (inr tt) (if is_call e then [e] else []).
Proof.
  intros He s. cbn. rewrite calls_app. cbn.
  destruct e; cbn; rewrite ?app_nil_r; auto; discriminate.
Qed.

Lemma effect_imwrite p i : effect (imwrite p i) (inr tt) [EvImwrite p i].
Proof. intros s. cbn. rewrite calls_app. auto. Qed.

Lemma effect_bind {A B} (m : M A) (f : A -> M B) r1 C1 r2 C2 :
  effect m r1 C1 ->
  (forall a, r1 = inr a -> effect (f a) r2 C2) ->
  effect (m ≫= f)
         (match r1 with inl e => inl e | inr _ => r2 end)
         (match r1 with inl _ => C1 | inr _ => C1 ++ C2 end).
Proof.
  intros Hm Hf s. unfold mbind, M_bind.
  destruct (Hm s) as (Hr & Hc & Hfs).
  destruct (m s) as [[e|a] s1]; cbn in *; subst r1; cbn.
  - auto.
  - destruct (Hf a eq_refl s1) as (Hr2 & Hc2 & Hfs2).
    rewrite Hr2, Hc2, Hfs2, Hc, Hfs, written_app, apply_writes_app, app_assoc. auto.
Qed.

Lemma effect_eq {A} (m : M A) r C r' C' :
  effect m r C -> r = r' -> C = C' -> effect m r' C'.
Proof. intros; subst; auto. Qed.

Lemma effect_path_exists {A} d (f : bool -> M A) r C :
  (forall b, effect (f b) r C) -> effect (path_exists d ≫= f) r C.
Proof. intros Hf s. unfold mbind, M_bind, path_exists. apply Hf. Qed.

Lemma effect_makedirs d : effect (makedirs d) (inr tt) [].
Proof. intros s. cbn. rewrite calls_app, app_nil_r. cbn. rewrite app_nil_r. auto. Qed.

Lemma effect_for_each {A} (body : A -> M unit) (B : A -> Behaviour) l :
  (forall x, effect (body x) (fst (B x)) (snd (B x))) ->
  effect (for_each l body) (fst (loop_behaviour B l)) (snd (loop_behaviour B l)).
Proof.
  intros Hb. induction l as [|x l IH]; cbn [for_each loop_behaviour].
  - apply effect_ret.
  - eapply effect_eq; [eapply effect_bind; [apply Hb | intros; apply IH] | |];
      unfold then_behaviour; destruct (fst (B x)) as [e|[]]; reflexivity.
Qed.


Lemma effect_bind_ok {A B} (m : M A) (f : A -> M B) a C1 r C2 C :
  effect m (inr a) C1 -> effect (f a) r C2 -> C = C1 ++ C2 -> effect (m ≫= f) r C.
Proof.
  intros Hm Hf ->. eapply effect_eq.
  - eapply effect_bind; [exact Hm|]. intros a' [= <-]. exact Hf.
  - reflexivity.
  - reflexivity.
Qed.

Lemma effect_bind_err {A B} (m : M A) (f : A -> M B) e C :
  effect m (inl e) C -> effect (m ≫= f) (inl e) C.
Proof.
  intros Hm. eapply effect_eq.
  - eapply (effect_bind m f _ _ (inl e) []); [exact Hm|]. intros a [=].
  - reflexivity.
  - reflexivity.
Qed.

Ltac effect_tac :=
  lazy beta iota delta [negb];
  first
    [ apply effect_ret
    | apply effect_lift
    | apply effect_imwrite
    | apply effect_makedirs
    | apply effect_emit; reflexivity
    | apply effect_path_exists; intros []; effect_tac
    | eapply effect_bind_ok; [effect_tac | effect_tac | reflexivity]
    | eapply effect_bind_err; effect_tac ].

Ltac effect_auto := eapply effect_eq; [effect_tac | reflexivity..].

Lemma effect_process_bag_message env file_name topic message datatype time_stamp suffix :
  let b := message_behaviour env file_name topic message datatype time_stamp suffix in
  effect (process_bag_message env file_name topic message datatype time_stamp suffix)
         (fst b) (snd b).
Proof.
  unfold message_behaviour, process_bag_message, logging_info, print, throw, DEBUG_MODE.
  cbn zeta.
  destruct (time_str time_stamp) as [ex|ts].
  { effect_auto. }
  destruct (String.eqb datatype "Image").
  { destruct (message_to_cvimage env message) as [ex|img].
    - effect_auto.
    - effect_auto. }
  destruct (String.eqb datatype "CompressedImage").
  { destruct (compressed_image_to_cvimage env message) as [ex|img].
    - effect_auto.
    - effect_auto. }
  effect_auto.
Qed.


Lemma effect_process_entry env file_name suffix e :
  let b := entry_behaviour env file_name suffix e in
  effect (process_entry env file_name suffix e) (fst b) (snd b).
Proof.
  unfold entry_behaviour, process_entry. cbn zeta.
  destruct (e_msg e) as [ex|msg]; [effect_auto|].
  eapply effect_bind_ok; [apply effect_lift | | reflexivity]. lazy beta.
  destruct (short_type_name msg) as [ex|datatype]; [effect_auto|].
  eapply effect_bind_ok; [apply effect_lift | | reflexivity].
  apply effect_process_bag_message.
Qed.

Lemma effect_process_bag_file env file_name topics start_time end_time :
  let b := file_behaviour env file_name topics start_time end_time in
  effect (process_bag_file env file_name topics start_time end_time) (fst b) (snd b).
Proof.
  unfold file_behaviour, process_bag_file, logging_info, print, DEBUG_MODE. cbn zeta.
  destruct (folder_name_suffix start_time end_time) as [ex|suffix]; [effect_auto|].
  destruct (bag_open env file_name) as [ex|bag]; [effect_auto|].
  set (l := read_messages _ _ _ _ _).
  pose proof (effect_for_each (process_entry env file_name suffix)
                (entry_behaviour env file_name suffix) l
                (effect_process_entry env file_name suffix)) as Hloop.
  destruct (loop_behaviour _ l) as [[ex|[]] C]; cbn [fst snd] in Hloop.
  - eapply effect_eq.
    + do 5 (eapply effect_bind_ok; [effect_tac | | reflexivity]).
      eapply effect_bind_err. exact Hloop.
    + reflexivity.
    + reflexivity.
  - eapply effect_eq.
    + do 5 (eapply effect_bind_ok; [effect_tac | | reflexivity]).
      eapply effect_bind_ok; [exact Hloop | effect_tac | reflexivity].
    + reflexivity.
    + reflexivity.
Qed.

Lemma effect_process_bag_files env path topics start_time end_time :
  let b := batch_behaviour env path topics start_time end_time in
  effect (process_bag_files env path topics start_time end_time) (fst b) (snd b).
Proof.
  unfold batch_behaviour, process_bag_files, logging_error, print, DEBUG_MODE. cbn zeta.
  destruct (parse_window start_time end_time) as [ex|[t1 t2]]; [effect_auto|].
  do 2 (eapply effect_bind_ok; [effect_tac | | reflexivity]). lazy beta iota.
  destruct (Time.gtb t1 t2); [effect_auto|].
  destruct (listdir env path) as [ex|names]; [effect_auto|].
  do 2 (eapply effect_bind_ok; [effect_tac | | reflexivity]).
  apply (effect_for_each _ (fun fl => file_behaviour env fl topics t1 t2)).
  intros fl. apply effect_process_bag_file.
Qed.

Lemma written_calls tr : written (calls tr) = written tr.
Proof.
  unfold written, calls.
  induction tr as [|ev tr IH]; [reflexivity|].
  destruct ev; cbn; rewrite ?IH; reflexivity.
Qed.

Lemma opened_calls tr : opened (calls tr) = opened tr.
Proof.
  unfold opened, calls.
  induction tr as [|ev tr IH]; [reflexivity|].
  destruct ev; cbn; rewrite ?IH; reflexivity.
Qed.

Lemma decoded_calls tr : decoded (calls tr) = decoded tr.
Proof.
  unfold decoded, calls.
  induction tr as [|ev tr IH]; [reflexivity|].
  destruct ev; cbn; rewrite ?IH; reflexivity.
Qed.

(** What a run from a state [s] yields, given the behaviour. *)
Lemma effect_run {A} (m : M A) r C s :
  effect m r C ->
  (m s).1 = r
  /\ opened (trace (m s).2) = opened (trace s) ++ opened C
  /\ decoded (trace (m s).2) = decoded (trace s) ++ decoded C
  /\ written (trace (m s).2) = written (trace s) ++ written C
  /\ files (m s).2 = apply_writes (written C) (files s).
Proof.
  intros H. destruct (H s) as (Hr & Hc & Hf).
  repeat split; try assumption.
  - rewrite <- opened_calls, Hc, opened_app, opened_calls. reflexivity.
  - rewrite <- decoded_calls, Hc, decoded_app, decoded_calls. reflexivity.
  - rewrite <- written_calls, Hc, written_app, written_calls. reflexivity.
Qed.

Lemma loop_behaviour_ok {A} (B : A -> Behaviour) l :
  (loop_behaviour B l).1 = inr tt ->
  Forall (fun x => (B x).1 = inr tt) l
  /\ (loop_behaviour B l).2 = concat (map (fun x => (B x).2) l).
Proof.
  induction l as [|x l IH]; cbn [loop_behaviour]; [auto|].
  unfold then_behaviour. destruct (B x) as [[ex|[]] C] eqn:E; cbn; [discriminate|].
  intros H. destruct (IH H) as [Hall Hc]. split.
  - constructor; [rewrite E; reflexivity | exact Hall].
  - rewrite Hc. cbn. rewrite E. reflexivity.
Qed.

Lemma loop_behaviour_all_ok {A} (B : A -> Behaviour) l :
  Forall (fun x => (B x).1 = inr tt) l ->
  loop_behaviour B l = (inr tt, concat (map (fun x => (B x).2) l)).
Proof.
  induction 1 as [|x l Hx _ IH]; cbn [loop_behaviour]; [reflexivity|].
  unfold then_behaviour. rewrite Hx, IH. reflexivity.
Qed.

(** A loop ends at its first failing iteration: nothing happens for the
    elements behind it. *)
Lemma loop_behaviour_stops {A} (B : A -> Behaviour) l1 x l2 ex :
  Forall (fun y => (B y).1 = inr tt) l1 ->
  (B x).1 = inl ex ->
  loop_behaviour B (l1 ++ x :: l2)
  = (inl ex, concat (map (fun y => (B y).2) l1) ++ (B x).2).
Proof.
  intros Hall Hx. induction Hall as [|y l1 Hy _ IH]; cbn [loop_behaviour app].
  - unfold then_behaviour. rewrite Hx. reflexivity.
  - unfold then_behaviour. rewrite Hy, IH. cbn. rewrite app_assoc. reflexivity.
Qed.

(** ** Records that the reader does not select *)

Lemma read_messages_remove topics a b f l1 e l2 :
  selected topics a b f e = false ->
  read_messages (l1 ++ e :: l2) topics a b f = read_messages (l1 ++ l2) topics a b f.
Proof.
  intros H. unfold read_messages. rewrite !List.filter_app. cbn. rewrite H. reflexivity.
Qed.

Lemma bag_open_set_bag env file_name content :
  bag_open (set_bag env file_name content) file_name = content.
Proof. cbn. rewrite String.eqb_refl. reflexivity. Qed.

Lemma process_bag_file_set_bag env file_name content topics start_time end_time s :
  process_bag_file (set_bag env file_name content) file_name topics start_time end_time s
  = (logging_info ("Processing file: " +:+ file_name);;
     (if DEBUG_MODE then print ("Processing file: " +:+ file_name) else mret tt);;
     folder_name_suffix ← lift (folder_name_suffix start_time end_time);
     emit (EvOpen file_name);;
     bag ← lift content;
     for_each (read_messages bag topics (Some start_time) (Some end_time)
                             (Some filter_image_msgs))
              (process_entry env file_name folder_name_suffix);;
     emit (EvClose file_name)) s.
Proof.
  unfold process_bag_file. rewrite bag_open_set_bag. reflexivity.
Qed.

Lemma process_bag_file_remove env file_name topics start_time end_time l1 e l2 s :
  selected topics (Some start_time) (Some end_time) (Some filter_image_msgs) e = false ->
  process_bag_file (set_bag env file_name (inr (l1 ++ e :: l2))) file_name
                   topics start_time end_time s
  = process_bag_file (set_bag env file_name (inr (l1 ++ l2))) file_name
                     topics start_time end_time s.
Proof.
  intros H. rewrite !process_bag_file_set_bag.
  unfold mbind, M_bind, lift. cbv beta iota.
  rewrite (read_messages_remove _ _ _ _ _ _ _ H). reflexivity.
Qed.

(** ** The connection filter and the channel token *)

Lemma contains_In x l : Py.contains x l = true <-> In x l.
Proof.
  unfold Py.contains. rewrite existsb_exists. split.
  - intros (y & Hy & E). apply String.eqb_eq in E. subst. exact Hy.
  - intros H. exists x. split; [exact H | apply String.eqb_refl].
Qed.

Lemma filter_image_msgs_spec topic datatype md5sum msg_def header :
  filter_image_msgs topic datatype md5sum msg_def header = true
  <-> In datatype DATA_TYPES.
Proof.
  unfold filter_image_msgs. rewrite <- contains_In.
  destruct (Py.contains datatype DATA_TYPES); intuition congruence.
Qed.

(** C4: the connection filter admits a record exactly when its declared
    type is one of the two configured type tags; a record of any other type
    leaves no trace: processing the container with it is processing the
    container without it, so nothing is decoded or written for it and no
    exception comes from it. *)
Theorem type_filtering env file_name topics start_time end_time l1 e l2 s :
  ~ In (c_datatype (e_conn e)) DATA_TYPES ->
  (forall topic datatype md5sum msg_def header,
      filter_image_msgs topic datatype md5sum msg_def header = true
      <-> datatype = "sensor_msgs/Image" \/ datatype = "sensor_msgs/CompressedImage")
  /\ process_bag_file (set_bag env file_name (inr (l1 ++ e :: l2))) file_name
                      topics start_time end_time s
     = process_bag_file (set_bag env file_name (inr (l1 ++ l2))) file_name
                        topics start_time end_time s.
Proof.
  intros Hnot. split.
  - intros. rewrite filter_image_msgs_spec. cbn. intuition congruence.
  - apply process_bag_file_remove. unfold selected.
    assert (connection_selected (Some filter_image_msgs) (e_conn e) = false) as ->.
    { cbn. destruct (filter_image_msgs _ _ _ _ _) eqn:E; [|reflexivity].
      apply filter_image_msgs_spec in E. contradiction. }
    rewrite andb_false_r. reflexivity.
Qed.

Lemma type_filtering_witness :
  let with_e := set_bag Demo.env "/in/a.bag"
                  (inr ([Demo.inside] ++ Demo.imu_record "/imu/data" 1692729230 0 :: [])) in
  let without_e := set_bag Demo.env "/in/a.bag" (inr ([Demo.inside] ++ [])) in
  (forall topic datatype md5sum msg_def header,
      filter_image_msgs topic datatype md5sum msg_def header = true
      <-> datatype = "sensor_msgs/Image" \/ datatype = "sensor_msgs/CompressedImage")
  /\ process_bag_file with_e "/in/a.bag" None Demo.window_start Demo.window_end Demo.init
     = process_bag_file without_e "/in/a.bag" None Demo.window_start Demo.window_end
                        Demo.init.
Proof.
  apply (type_filtering Demo.env "/in/a.bag" None Demo.window_start Demo.window_end
           [Demo.inside] (Demo.imu_record "/imu/data" 1692729230 0) [] Demo.init).
  cbn. intros [H|[H|[]]]; discriminate H.
Defined.

Lemma outside_window_not_selected topics start_time end_time f e :
  Time.ltb (e_time e) start_time = true \/ Time.gtb (e_time e) end_time = true ->
  selected topics (Some start_time) (Some end_time) f e = false.
Proof.
  intros H. unfold selected, in_time_range.
  assert (Time.leb start_time (e_time e) && Time.leb (e_time e) end_time = false) as ->.
  { unfold Time.ltb, Time.gtb, Time.leb in *. destruct H as [H|H]; lia. }
  apply andb_false_r.
Qed.

(** C10: the channel token is the channel without its first character,
    whatever that character is, with the remaining separators replaced by
    underscores.  For a channel that begins with the separator this is the
    token of the specification; for any other channel the token of the
    specification keeps the first character, which the program drops from
    the directory name. *)
Theorem topic_str_drops_first_character c rest datatype suffix :
  topic_str (String c rest) = Py.replace_char "/" "_" rest
  /\ out_dir_name (String c rest) datatype suffix
     = DESTINATION_LOCAL_PICTURES +:+ "/" +:+ Py.replace_char "/" "_" rest +:+ "/" +:+
       datatype +:+ "/" +:+ suffix +:+ "/"
  /\ topic_str (String "/" rest) = Spec.channelToken (String "/" rest)
  /\ (c <> "/"%char ->
      Spec.channelToken (String c rest) = String c (topic_str (String c rest))).
Proof.
  repeat split.
  intros Hc. unfold Spec.channelToken, Spec.stripLeadingSeparator, topic_str.
  destruct (Ascii.eqb_spec c "/") as [->|_]; [contradiction|].
  cbn. destruct (Ascii.eqb_spec c "/") as [->|_]; [contradiction|]. reflexivity.
Qed.

Lemma topic_str_drops_first_character_witness :
  topic_str "cam/image_raw" = "am_image_raw"
  /\ Spec.channelToken "cam/image_raw" = String "c" (topic_str "cam/image_raw").
Proof.
  split; [reflexivity|].
  apply (topic_str_drops_first_character "c" "am/image_raw" "Image" "").
  discriminate.
Defined.

(** ** Short type names of generated message classes *)

Lemma app_String c a b : String c a +:+ b = String c (a +:+ b).
Proof. reflexivity. Qed.

Lemma split_go_tail sep s : forall k cur cur',
  tail (Py.split_go sep s k cur) = tail (Py.split_go sep s k cur').
Proof.
  induction s as [|c s IH]; intros k cur cur'; cbn [Py.split_go]; [reflexivity|].
  destruct k as [|k]; [|apply IH].
  destruct (Py.startswith sep (String c s)); [reflexivity | apply IH].
Qed.

Lemma startswith_double_underscore c s :
  Py.startswith "__" (String c s)
  = Ascii.eqb "_" c && match s with String b _ => Ascii.eqb "_" b | EmptyString => false end.
Proof.
  cbn [Py.startswith]. destruct s; [reflexivity|]. rewrite andb_true_r. reflexivity.
Qed.

(** Scanning a text without double underscore that is followed by a
    character other than an underscore finds no separator in it. *)
Lemma split_go_skip m : forall r rest cur,
  no_double_underscore m = true ->
  r <> "_"%char ->
  tail (Py.split_go "__" (m +:+ String r rest) 0 cur)
  = tail (Py.split_go "__" (String r rest) 0 cur).
Proof.
  induction m as [|c m IH]; intros r rest cur Hm Hr; [reflexivity|].
  rewrite app_String. cbn [Py.split_go].
  assert (Py.startswith "__" (String c (m +:+ String r rest)) = false) as ->.
  { rewrite startswith_double_underscore.
    destruct (Ascii.eqb_spec "_" c) as [Hc|]; [|reflexivity]. subst c.
    destruct m as [|b m].
    - change ("" +:+ String r rest) with (String r rest).
      apply andb_false_iff. right. apply Ascii.eqb_neq. congruence.
    - rewrite app_String. apply andb_false_iff. right.
      cbn [no_double_underscore] in Hm. apply andb_true_iff in Hm as [Hm _].
      rewrite (Ascii.eqb_sym "_" b). change (Ascii.eqb "_" "_") with true in Hm.
      destruct (Ascii.eqb b "_"); [discriminate Hm | reflexivity]. }
  rewrite (split_go_tail _ _ _ _ cur). apply IH; [|exact Hr].
  destruct m as [|b m]; [reflexivity|]. cbn [no_double_underscore] in Hm.
  apply andb_true_iff in Hm as [_ Hm]. exact Hm.
Qed.

Lemma short_type_name_generated modname base data :
  no_double_underscore modname = true ->
  base = "Image" \/ base = "CompressedImage" ->
  short_type_name (mk_msg (dyn_class_repr modname "sensor_msgs" base) data) = inr base.
Proof.
  intros Hm Hb. unfold short_type_name, Py.index, dyn_class_repr, Py.split. cbn [msg_class].
  assert (forall l : list string, l !! 1%nat = head (tail l)) as E by (intros [|? [|? ?]]; reflexivity).
  rewrite E. clear E.
  assert (tail (Py.split_go "__" ("<class '" +:+ modname +:+ "._" +:+ "sensor_msgs" +:+ "__" +:+ base +:+ "'>") 0 "")
          = [base +:+ "'>"]) as ->.
  { rewrite !app_String. cbn [Py.split_go Py.startswith Ascii.eqb Bool.eqb andb].
    change ("" +:+ ?x) with x.
    rewrite split_go_skip by (assumption || discriminate).
    destruct Hb as [-> | ->]; reflexivity. }
  cbn. destruct Hb as [-> | ->]; reflexivity.
Qed.

(** ** Records that are processed *)

Lemma message_behaviour_decode env file_name topic message datatype time_stamp suffix ts :
  time_str time_stamp = inr ts ->
  match decode_image env datatype message with
  | None =>
      message_behaviour env file_name topic message datatype time_stamp suffix
      = (inl (Py.UnboundLocalError "img"), [])
  | Some (inl ex) =>
      (message_behaviour env file_name topic message datatype time_stamp suffix).1 = inl ex
      /\ written (message_behaviour env file_name topic message datatype time_stamp suffix).2 = []
      /\ decoded (message_behaviour env file_name topic message datatype time_stamp suffix).2 = [message]
  | Some (inr img) =>
      (message_behaviour env file_name topic message datatype time_stamp suffix).1 = inr tt
      /\ written (message_behaviour env file_name topic message datatype time_stamp suffix).2
         = [(out_path file_name topic datatype ts suffix, img)]
      /\ decoded (message_behaviour env file_name topic message datatype time_stamp suffix).2 = [message]
      /\ opened (message_behaviour env file_name topic message datatype time_stamp suffix).2 = []
  end.
Proof.
  intros Hts. unfold message_behaviour, decode_image. rewrite Hts.
  destruct (String.eqb datatype "Image").
  { destruct (message_to_cvimage env message); cbn; auto. }
  destruct (String.eqb datatype "CompressedImage").
  { destruct (compressed_image_to_cvimage env message); cbn; auto. }
  reflexivity.
Qed.

Lemma message_behaviour_ok_inv env file_name topic message datatype time_stamp suffix :
  (message_behaviour env file_name topic message datatype time_stamp suffix).1 = inr tt ->
  exists ts img,
    time_str time_stamp = inr ts
    /\ decode_image env datatype message = Some (inr img)
    /\ written (message_behaviour env file_name topic message datatype time_stamp suffix).2
       = [(out_path file_name topic datatype ts suffix, img)]
    /\ decoded (message_behaviour env file_name topic message datatype time_stamp suffix).2
       = [message]
    /\ opened (message_behaviour env file_name topic message datatype time_stamp suffix).2 = [].
Proof.
  intros Hok. destruct (time_str time_stamp) as [ex|ts] eqn:Hts.
  { unfold message_behaviour in Hok. rewrite Hts in Hok. discriminate. }
  pose proof (message_behaviour_decode env file_name topic message datatype
                time_stamp suffix ts Hts) as H.
  destruct (decode_image env datatype message) as [[ex|img]|].
  - destruct H as [H _]. congruence.
  - exists ts, img. tauto.
  - rewrite H in Hok. discriminate.
Qed.

Lemma entry_behaviour_ok_inv env file_name suffix e :
  (entry_behaviour env file_name suffix e).1 = inr tt ->
  exists msg ts img,
    e_msg e = inr msg
    /\ short_type_name msg = inr (record_type e)
    /\ time_str (e_time e) = inr ts
    /\ decode_image env (record_type e) msg = Some (inr img)
    /\ written (entry_behaviour env file_name suffix e).2
       = [(out_path file_name (c_topic (e_conn e)) (record_type e) ts suffix, img)]
    /\ decoded (entry_behaviour env file_name suffix e).2 = [msg]
    /\ opened (entry_behaviour env file_name suffix e).2 = [].
Proof.
  unfold entry_behaviour, record_type.
  destruct (e_msg e) as [ex|msg]; [discriminate|].
  destruct (short_type_name msg) as [ex|datatype] eqn:Hd; [discriminate|].
  intros Hok. apply message_behaviour_ok_inv in Hok as (ts & img & H).
  exists msg, ts, img. split; [reflexivity|]. split; [exact Hd|]. exact H.
Qed.

(** ** The written path and the specified layout *)

Lemma string_app_assoc (a b c : string) : (a +:+ b) +:+ c = a +:+ b +:+ c.
Proof.
  induction a as [|x a IH]; [reflexivity|].
  change (String x ((a +:+ b) +:+ c) = String x (a +:+ b +:+ c)).
  rewrite IH. reflexivity.
Qed.

Lemma civil_from_days_bounds z y m d :
  0 <= z <= 2932896 ->
  Datetime.civil_from_days z = (y, m, d) ->
  1970 <= y <= 9999 /\ 1 <= m <= 12 /\ 1 <= d <= 31.
Proof.
  intros Hz. unfold Datetime.civil_from_days.
  intros [= <- <- <-].
  repeat match goal with |- context [if ?c then _ else _] => destruct c eqn:? end;
  Z.to_euclidean_division_equations; lia.
Qed.

Lemma four_digits_year y : 1000 <= y -> Spec.four_digits y = Py.str_of_int y.
Proof.
  intros Hy. unfold Spec.four_digits.
  repeat match goal with |- context [if ?c then _ else _] => destruct c eqn:? end;
    try reflexivity; lia.
Qed.

(** From the epoch on, the date that the program prints is the
    zero-padded [YYYY-MM-DD_HH-MM-SS]. *)
Lemma utc_date_str_spec secs d :
  0 <= secs ->
  utc_date_str secs = inr d ->
  d = Spec.dateToken secs.
Proof.
  intros Hs. unfold utc_date_str, Datetime.utcfromtimestamp, Spec.dateToken.
  destruct ((secs <? Datetime.min_timestamp) || (Datetime.max_timestamp <? secs)) eqn:Hr;
    [discriminate|].
  destruct (Datetime.civil_from_days (secs / 86400)) as [[y m] dd] eqn:Hc.
  intros [= <-]. unfold Datetime.strftime_ymd_hms. cbn [Datetime.year Datetime.month
    Datetime.day Datetime.hour Datetime.minute Datetime.second].
  apply civil_from_days_bounds in Hc as (Hy & _).
  - rewrite four_digits_year by lia. reflexivity.
  - unfold Datetime.max_timestamp, Datetime.min_timestamp in Hr.
    Z.to_euclidean_division_equations; lia.
Qed.

Lemma time_str_spec time_stamp ts :
  0 <= Time.secs time_stamp ->
  time_str time_stamp = inr ts ->
  ts = Spec.timeToken time_stamp.
Proof.
  intros Hs. unfold time_str, Spec.timeToken.
  destruct (utc_date_str (Time.secs time_stamp)) as [ex|d] eqn:Hd; [discriminate|].
  intros [= <-]. rewrite (utc_date_str_spec _ _ Hs Hd). reflexivity.
Qed.

Lemma folder_name_suffix_spec start_time end_time suffix :
  0 <= Time.secs start_time ->
  0 <= Time.secs end_time ->
  folder_name_suffix start_time end_time = inr suffix ->
  suffix = Spec.windowSuffix start_time end_time.
Proof.
  intros Ha Hb. unfold folder_name_suffix, Spec.windowSuffix.
  destruct (utc_date_str (Time.secs start_time)) as [ex|a] eqn:Ea; [discriminate|].
  destruct (utc_date_str (Time.secs end_time)) as [ex|b] eqn:Eb; [discriminate|].
  intros [= <-].
  rewrite (utc_date_str_spec _ _ Ha Ea), (utc_date_str_spec _ _ Hb Eb). reflexivity.
Qed.

Lemma out_path_spec file_name rest datatype time_stamp start_time end_time ts suffix :
  0 <= Time.secs time_stamp ->
  0 <= Time.secs start_time ->
  0 <= Time.secs end_time ->
  time_str time_stamp = inr ts ->
  folder_name_suffix start_time end_time = inr suffix ->
  out_path file_name (String "/" rest) datatype ts suffix
  = Spec.outputPath DESTINATION_LOCAL_PICTURES file_name (String "/" rest) datatype
                    time_stamp start_time end_time.
Proof.
  intros H1 H2 H3 Hts Hsuf.
  rewrite (time_str_spec _ _ H1 Hts), (folder_name_suffix_spec _ _ _ H2 H3 Hsuf).
  unfold out_path, out_dir_name, out_file_name, Spec.outputPath, base_file_name,
    get_file_name, Spec.baseFileName.
  destruct (OsPath.splitext (OsPath.basename file_name)) as [f_name ext].
  change (topic_str (String "/" rest)) with (Spec.channelToken (String "/" rest)).
  cbn [fst]. rewrite !string_app_assoc. reflexivity.
Qed.

Lemma decoded_entries env file_name suffix l :
  Forall (fun e => (entry_behaviour env file_name suffix e).1 = inr tt) l ->
  map inr (decoded (concat (map (fun e => (entry_behaviour env file_name suffix e).2) l)))
  = map e_msg l
  /\ length (written (concat (map (fun e => (entry_behaviour env file_name suffix e).2) l)))
     = length l.
Proof.
  induction 1 as [|e l He _ [IH1 IH2]]; [split; reflexivity|].
  cbn [map concat]. rewrite decoded_app, written_app, map_app, length_app, IH1, IH2.
  apply entry_behaviour_ok_inv in He as (msg & ts & img & Hm & _ & _ & _ & Hw & Hd & _).
  rewrite Hw, Hd, Hm. split; reflexivity.
Qed.

(** A run of [process_bag_file] that returns, in terms of its behaviour. *)
Lemma process_bag_file_run env file_name topics start_time end_time s :
  let out := process_bag_file env file_name topics start_time end_time s in
  let b := file_behaviour env file_name topics start_time end_time in
  out.1 = b.1
  /\ opened (trace out.2) = opened (trace s) ++ opened b.2
  /\ decoded (trace out.2) = decoded (trace s) ++ decoded b.2
  /\ written (trace out.2) = written (trace s) ++ written b.2
  /\ files out.2 = apply_writes (written b.2) (files s).
Proof. apply effect_run, effect_process_bag_file. Qed.



Lemma read_messages_unfold bag topics start_time end_time :
  read_messages bag topics (Some start_time) (Some end_time) (Some filter_image_msgs)
  = List.filter (fun x => topic_selected topics (e_conn x)
                          && Py.contains (c_datatype (e_conn x)) DATA_TYPES
                          && (Time.leb start_time (e_time x)
                              && Time.leb (e_time x) end_time)) bag.
Proof.
  unfold read_messages. apply List.filter_ext. intros x.
  unfold selected, connection_selected, filter_image_msgs, in_time_range.
  destruct (Py.contains _ DATA_TYPES); reflexivity.
Qed.


Lemma apply_writes_union ws : forall fs : gmap string Image,
  apply_writes ws fs = apply_writes ws ∅ ∪ fs.
Proof.
  unfold apply_writes. induction ws as [|[p i] ws IH]; intros fs; cbn [foldl fst snd].
  - rewrite (left_id_L ∅ (∪)). reflexivity.
  - rewrite IH, (IH (<[p:=i]> ∅)).
    rewrite <- (assoc_L (∪)). f_equal.
    rewrite insert_union_singleton_l. rewrite <- insert_union_singleton_l.
    rewrite <- insert_union_l, (left_id_L ∅ (∪)). reflexivity.
Qed.

(** Writing the same files a second time changes nothing. *)
Lemma apply_writes_idem ws (fs : gmap string Image) :
  apply_writes ws (apply_writes ws fs) = apply_writes ws fs.
Proof.
  rewrite (apply_writes_union ws (apply_writes ws fs)), (apply_writes_union ws fs).
  rewrite (assoc_L (∪)), (idemp_L (∪)). reflexivity.
Qed.

Lemma process_bag_files_run env path topics start_time end_time s :
  let out := process_bag_files env path topics start_time end_time s in
  let b := batch_behaviour env path topics start_time end_time in
  out.1 = b.1
  /\ opened (trace out.2) = opened (trace s) ++ opened b.2
  /\ decoded (trace out.2) = decoded (trace s) ++ decoded b.2
  /\ written (trace out.2) = written (trace s) ++ written b.2
  /\ files out.2 = apply_writes (written b.2) (files s).
Proof. apply effect_run, effect_process_bag_files. Qed.

Lemma process_bag_message_run env file_name topic message datatype time_stamp suffix s :
  let out := process_bag_message env file_name topic message datatype time_stamp suffix s in
  let b := message_behaviour env file_name topic message datatype time_stamp suffix in
  out.1 = b.1
  /\ opened (trace out.2) = opened (trace s) ++ opened b.2
  /\ decoded (trace out.2) = decoded (trace s) ++ decoded b.2
  /\ written (trace out.2) = written (trace s) ++ written b.2
  /\ files out.2 = apply_writes (written b.2) (files s).
Proof. apply effect_run, effect_process_bag_message. Qed.



(** C3 (amended): when both bounds of the window parse, the end is not
    before 1970-01-01 00:00:00 UTC and the start lies after the end, the
    driver logs the error and returns; no container is opened, no record is
    decoded, nothing is written. *)
Theorem window_validation env path topics start_time end_time dt1 dt2 s :
  let out := process_bag_files env path topics start_time end_time s in
  match start_time with
  | None => Strptime.strptime_date "1980-01-01"
  | Some t => Strptime.strptime_datetime t
  end = inr dt1 ->
  match end_time with
  | None => Strptime.strptime_date "2900-12-31"
  | Some t => Strptime.strptime_datetime t
  end = inr dt2 ->
  0 <= Datetime.utc_timestamp dt2 ->
  Datetime.utc_timestamp dt2 < Datetime.utc_timestamp dt1 ->
  out = (inr tt,
         emits [EvLogStarted path topics start_time end_time;
                EvLogError ("Start filter time=" +:+ fmt_opt start_time +:+
                            " is greater than End filter time=" +:+ fmt_opt end_time);
                EvPrint "Error: End filter time is greater than Start filter time"] s)
  /\ opened (trace out.2) = opened (trace s)
  /\ decoded (trace out.2) = decoded (trace s)
  /\ written (trace out.2) = written (trace s)
  /\ files out.2 = files s
  /\ dirs out.2 = dirs s.
Proof.
  intros out H1 H2 Hpos Hgt.
  assert (parse_window start_time end_time
          = inr (Time.mk (Datetime.utc_timestamp dt1) 0,
                 Time.mk (Datetime.utc_timestamp dt2) 0)) as Hw.
  { unfold parse_window. rewrite H1, H2. unfold Time.from_sec.
    destruct (Z.ltb_spec (Datetime.utc_timestamp dt1) 0); [lia|].
    destruct (Z.ltb_spec (Datetime.utc_timestamp dt2) 0); [lia|]. reflexivity. }
  assert (Time.gtb (Time.mk (Datetime.utc_timestamp dt1) 0)
                   (Time.mk (Datetime.utc_timestamp dt2) 0) = true) as Hcmp.
  { unfold Time.gtb, Time.to_nsec. cbn [Time.secs Time.nsecs]. lia. }
  assert (out = (inr tt,
         emits [EvLogStarted path topics start_time end_time;
                EvLogError ("Start filter time=" +:+ fmt_opt start_time +:+
                            " is greater than End filter time=" +:+ fmt_opt end_time);
                EvPrint "Error: End filter time is greater than Start filter time"] s)) as ->.
  { unfold out, process_bag_files, mbind, M_bind, lift. cbn [emit].
    rewrite Hw, Hcmp.
    unfold logging_error, print, emit, DEBUG_MODE, emits. cbn [dirs files trace].
    rewrite <- !app_assoc. reflexivity. }
  unfold emits. cbn [fst snd trace files dirs].
  rewrite opened_app, decoded_app, written_app. cbn. rewrite !app_nil_r.
  repeat split; reflexivity.
Qed.

Lemma window_validation_witness :
  let out := process_bag_files Demo.env "/in/" None
               (Some "2023-08-22 18:33:52") (Some "2023-08-22 18:33:48") Demo.init in
  out = (inr tt,
         emits [EvLogStarted "/in/" None
                  (Some "2023-08-22 18:33:52") (Some "2023-08-22 18:33:48");
                EvLogError ("Start filter time=" +:+ fmt_opt (Some "2023-08-22 18:33:52") +:+
                            " is greater than End filter time=" +:+
                            fmt_opt (Some "2023-08-22 18:33:48"));
                EvPrint "Error: End filter time is greater than Start filter time"]
               Demo.init)
  /\ opened (trace out.2) = opened (trace Demo.init)
  /\ decoded (trace out.2) = decoded (trace Demo.init)
  /\ written (trace out.2) = written (trace Demo.init)
  /\ files out.2 = files Demo.init
  /\ dirs out.2 = dirs Demo.init.
Proof.
  apply (window_validation Demo.env "/in/" None
           (Some "2023-08-22 18:33:52") (Some "2023-08-22 18:33:48")
           (Datetime.mk_datetime 2023 8 22 18 33 52)
           (Datetime.mk_datetime 2023 8 22 18 33 48) Demo.init).
  - vm_compute. reflexivity.
  - vm_compute. reflexivity.
  - vm_compute. discriminate.
  - vm_compute. reflexivity.
Defined.

(** C3 as stated fails: with an end bound before 1970 the conversion of the
    bound to a time raises TypeError before the bounds are compared; the
    driver ends with that exception and reports no error about the
    window. *)
Lemma window_validation_counterexample :
  let start_time := "2023-08-22 18:33:52" in
  let end_time := "1969-12-31 23:59:59" in
  let out := process_bag_files Demo.env "/in/" None (Some start_time) (Some end_time)
                               Demo.init in
  Strptime.strptime_datetime start_time = inr (Datetime.mk_datetime 2023 8 22 18 33 52)
  /\ Strptime.strptime_datetime end_time = inr (Datetime.mk_datetime 1969 12 31 23 59 59)
  /\ Datetime.utc_timestamp (Datetime.mk_datetime 1969 12 31 23 59 59)
     < Datetime.utc_timestamp (Datetime.mk_datetime 2023 8 22 18 33 52)
  /\ out.1 = inl (Py.TypeError "time values must be positive")
  /\ trace out.2 = [EvLogStarted "/in/" None (Some start_time) (Some end_time)].
Proof. vm_compute. repeat split. Qed.

(** *** Opened containers *)

Lemma opened_message_behaviour env file_name topic message datatype time_stamp suffix :
  opened (message_behaviour env file_name topic message datatype time_stamp suffix).2 = [].
Proof.
  unfold message_behaviour.
  repeat match goal with |- context [match ?x with _ => _ end] => destruct x end;
    reflexivity.
Qed.

Lemma opened_entry_behaviour env file_name suffix e :
  opened (entry_behaviour env file_name suffix e).2 = [].
Proof.
  unfold entry_behaviour.
  destruct (e_msg e); [reflexivity|].
  destruct (short_type_name _); [reflexivity|].
  apply opened_message_behaviour.
Qed.

Lemma opened_entries env file_name suffix l :
  opened (loop_behaviour (entry_behaviour env file_name suffix) l).2 = [].
Proof.
  induction l as [|e l IH]; [reflexivity|].
  cbn [loop_behaviour]. unfold then_behaviour.
  pose proof (opened_entry_behaviour env file_name suffix e) as He.
  destruct (entry_behaviour env file_name suffix e) as [[ex|[]] C]; cbn [fst snd] in *.
  - exact He.
  - rewrite opened_app, He, IH. reflexivity.
Qed.

(** A container is opened at most once, and once when it is processed to
    its end. *)
Lemma opened_file_behaviour env file_name topics start_time end_time :
  let b := file_behaviour env file_name topics start_time end_time in
  (opened b.2 = [] \/ opened b.2 = [file_name])
  /\ (b.1 = inr tt -> opened b.2 = [file_name]).
Proof.
  unfold file_behaviour.
  destruct (folder_name_suffix start_time end_time) as [ex|suffix];
    [split; [left; reflexivity | discriminate]|].
  destruct (bag_open env file_name) as [ex|bag];
    [split; [right; reflexivity | discriminate]|].
  set (l := read_messages _ _ _ _ _).
  pose proof (opened_entries env file_name suffix l) as Hl.
  unfold then_behaviour. cbn [fst snd].
  destruct (loop_behaviour (entry_behaviour env file_name suffix) l) as [[ex|[]] C];
    cbn [fst snd] in *; rewrite ?opened_app, ?Hl; cbn; auto.
Qed.

Lemma lst_files_sorted path names : Sorted String.le (lst_files path names).
Proof. apply Sorted_merge_sort. apply _. Qed.

Lemma lst_files_perm path names :
  lst_files path names ≡ₚ map (String.append path) (List.filter is_bag_file names).
Proof. apply merge_sort_Permutation. Qed.

(** *** Closed containers *)

Lemma closed_app tr1 tr2 : closed (tr1 ++ tr2) = closed tr1 ++ closed tr2.
Proof. apply omap_app. Qed.

Lemma closed_calls tr : closed (calls tr) = closed tr.
Proof.
  unfold closed, calls.
  induction tr as [|ev tr IH]; [reflexivity|].
  destruct ev; cbn; rewrite ?IH; reflexivity.
Qed.

Lemma closed_message_behaviour env file_name topic message datatype time_stamp suffix :
  closed (message_behaviour env file_name topic message datatype time_stamp suffix).2 = [].
Proof.
  unfold message_behaviour.
  repeat match goal with |- context [match ?x with _ => _ end] => destruct x end;
    reflexivity.
Qed.

Lemma closed_entries env file_name suffix l :
  closed (loop_behaviour (entry_behaviour env file_name suffix) l).2 = [].
Proof.
  induction l as [|e l IH]; [reflexivity|].
  cbn [loop_behaviour]. unfold then_behaviour.
  assert (closed (entry_behaviour env file_name suffix e).2 = []) as He.
  { unfold entry_behaviour. destruct (e_msg e); [reflexivity|].
    destruct (short_type_name _); [reflexivity|]. apply closed_message_behaviour. }
  destruct (entry_behaviour env file_name suffix e) as [[ex|[]] C]; cbn [fst snd] in *.
  - exact He.
  - rewrite closed_app, He, IH. reflexivity.
Qed.

(** ** Runs record by record and container by container *)

(** A loop processes a prefix of its list: all of it, or the elements
    before the first one that raises. *)
Lemma loop_behaviour_split {A} (B : A -> Behaviour) l :
  exists done rest,
    l = done ++ rest
    /\ Forall (fun x => (B x).1 = inr tt) done
    /\ match rest with
       | [] => loop_behaviour B l = (inr tt, concat (map (fun x => (B x).2) done))
       | x :: _ =>
           exists ex, (B x).1 = inl ex
                      /\ loop_behaviour B l
                         = (inl ex, concat (map (fun y => (B y).2) done) ++ (B x).2)
       end.
Proof.
  assert (exists done rest, l = done ++ rest
            /\ Forall (fun x => (B x).1 = inr tt) done
            /\ match rest with [] => True | x :: _ => exists ex, (B x).1 = inl ex end)
    as (done & rest & -> & Hdone & Hrest).
  { induction l as [|x l (done & rest & -> & Hdone & Hrest)].
    - exists [], []. repeat split. constructor.
    - destruct ((B x).1) as [ex|[]] eqn:E.
      + exists [], (x :: done ++ rest). repeat split; [constructor | eauto].
      + exists (x :: done), rest. repeat split; [constructor; assumption | exact Hrest]. }
  exists done, rest. split; [reflexivity|]. split; [exact Hdone|].
  destruct rest as [|x rest].
  - rewrite app_nil_r. apply loop_behaviour_all_ok. exact Hdone.
  - destruct Hrest as [ex Hex]. exists ex. split; [exact Hex|].
    apply loop_behaviour_stops; assumption.
Qed.

Lemma record_path_out_path file_name topic datatype time_stamp suffix ts :
  time_str time_stamp = inr ts ->
  record_path file_name topic datatype time_stamp suffix
  = out_path file_name topic datatype ts suffix.
Proof. intros H. unfold record_path. rewrite H. reflexivity. Qed.

(** A record whose step returns: one decoder call, one write. *)
Lemma entry_behaviour_ok env file_name suffix e :
  (entry_behaviour env file_name suffix e).1 = inr tt ->
  exists img,
    record_image env e = Some img
    /\ written (entry_behaviour env file_name suffix e).2
       = [(record_path file_name (c_topic (e_conn e)) (record_type e) (e_time e) suffix, img)]
    /\ map inr (decoded (entry_behaviour env file_name suffix e).2) = [e_msg e]
    /\ opened (entry_behaviour env file_name suffix e).2 = []
    /\ closed (entry_behaviour env file_name suffix e).2 = [].
Proof.
  intros H.
  destruct (entry_behaviour_ok_inv _ _ _ _ H)
    as (msg & ts & img & Hm & Hty & Hts & Hdec & Hw & Hd & Ho).
  exists img. repeat split.
  - unfold record_image. rewrite Hm, Hty, Hts, Hdec. reflexivity.
  - rewrite Hw, (record_path_out_path _ _ _ _ _ _ Hts). reflexivity.
  - rewrite Hd, Hm. reflexivity.
  - exact Ho.
  - unfold entry_behaviour. rewrite Hm, Hty. apply closed_message_behaviour.
Qed.

(** A record whose step raises: nothing is written, and at most the
    decoder was called. *)
Lemma entry_behaviour_err env file_name suffix e ex :
  (entry_behaviour env file_name suffix e).1 = inl ex ->
  record_image env e = None
  /\ written (entry_behaviour env file_name suffix e).2 = []
  /\ (decoded (entry_behaviour env file_name suffix e).2 = []
      \/ map inr (decoded (entry_behaviour env file_name suffix e).2) = [e_msg e])
  /\ opened (entry_behaviour env file_name suffix e).2 = []
  /\ closed (entry_behaviour env file_name suffix e).2 = [].
Proof.
  unfold entry_behaviour, record_image.
  destruct (e_msg e) as [ex0|msg]; [cbn; auto 10|].
  destruct (short_type_name msg) as [ex0|datatype]; [cbn; auto 10|].
  unfold message_behaviour, decode_image.
  destruct (time_str (e_time e)) as [ex0|ts]; [cbn; auto 10|].
  destruct (String.eqb datatype "Image").
  { destruct (message_to_cvimage env msg); [cbn; auto 10 | discriminate]. }
  destruct (String.eqb datatype "CompressedImage").
  { destruct (compressed_image_to_cvimage env msg); [cbn; auto 10 | discriminate]. }
  cbn; auto 10.
Qed.


Lemma entries_done env file_name suffix done :
  Forall (fun x => (entry_behaviour env file_name suffix x).1 = inr tt) done ->
  let C := concat (map (fun x => (entry_behaviour env file_name suffix x).2) done) in
  Forall2 (written_for env file_name suffix) done (written C)
  /\ map inr (decoded C) = map e_msg done
  /\ opened C = []
  /\ closed C = [].
Proof.
  induction 1 as [|x done Hx _ (IHw & IHd & IHo & IHc)]; cbn zeta.
  - repeat split. constructor.
  - cbn [map concat].
    rewrite written_app, decoded_app, opened_app, closed_app, map_app.
    destruct (entry_behaviour_ok _ _ _ _ Hx) as (img & Hi & Hw & Hd & Ho & Hc).
    rewrite Hw, Hd, Ho, Hc, IHd, IHo, IHc. repeat split.
    constructor; [|exact IHw]. split; [exact Hi | reflexivity].
Qed.

(** The loop over the records of a container. *)
Lemma entries_split env file_name suffix l :
  let b := loop_behaviour (entry_behaviour env file_name suffix) l in
  exists done rest tried,
    l = done ++ rest
    /\ Forall2 (written_for env file_name suffix) done (written b.2)
    /\ (tried = [] \/ tried = take 1 rest)
    /\ map inr (decoded b.2) = map e_msg (done ++ tried)
    /\ opened b.2 = []
    /\ closed b.2 = []
    /\ match rest with
       | [] => b.1 = inr tt
       | x :: _ => record_image env x = None /\ exists ex, b.1 = inl ex
       end.
Proof.
  intros b. subst b.
  destruct (loop_behaviour_split (entry_behaviour env file_name suffix) l)
    as (done & rest & -> & Hdone & Hrest).
  destruct (entries_done env file_name suffix done Hdone) as (Hw & Hd & Ho & Hc).
  cbv zeta in Hw, Hd, Ho, Hc.
  destruct rest as [|x rest].
  - rewrite Hrest. exists done, [], []. cbn [fst snd].
    rewrite !app_nil_r. repeat split; auto.
  - destruct Hrest as (ex & Hex & ->). cbn [fst snd].
    destruct (entry_behaviour_err _ _ _ _ _ Hex) as (Hi & Hwx & Hdx & Hox & Hcx).
    destruct Hdx as [Hdx|Hdx].
    + exists done, (x :: rest), [].
      rewrite written_app, decoded_app, opened_app, closed_app, map_app,
        Hwx, Hdx, Hox, Hcx, Hd, Ho, Hc, !app_nil_r.
      repeat split; eauto.
    + exists done, (x :: rest), [x].
      rewrite written_app, decoded_app, opened_app, closed_app, !map_app,
        Hwx, Hdx, Hox, Hcx, Hd, Ho, Hc, !app_nil_r.
      repeat split; eauto.
Qed.

Lemma effect_run_closed {A} (m : M A) r C s :
  effect m r C -> closed (trace (m s).2) = closed (trace s) ++ closed C.
Proof.
  intros H. destruct (H s) as (_ & Hc & _).
  rewrite <- closed_calls, Hc, closed_app, closed_calls. reflexivity.
Qed.

(** The calls of a container that is opened, in terms of its records. *)
Lemma file_behaviour_split env file_name topics start_time end_time suffix bag :
  let b := file_behaviour env file_name topics start_time end_time in
  let records := read_messages bag topics (Some start_time) (Some end_time)
                               (Some filter_image_msgs) in
  folder_name_suffix start_time end_time = inr suffix ->
  bag_open env file_name = inr bag ->
  exists done rest tried,
    records = done ++ rest
    /\ Forall2 (written_for env file_name suffix) done (written b.2)
    /\ (tried = [] \/ tried = take 1 rest)
    /\ map inr (decoded b.2) = map e_msg (done ++ tried)
    /\ opened b.2 = [file_name]
    /\ match rest with
       | [] => b.1 = inr tt /\ closed b.2 = [file_name]
       | x :: _ => record_image env x = None /\ (exists ex, b.1 = inl ex) /\ closed b.2 = []
       end.
Proof.
  intros b records Hsuf Hbag. subst b. unfold file_behaviour. rewrite Hsuf, Hbag.
  fold records.
  destruct (entries_split env file_name suffix records)
    as (done & rest & tried & Hsplit & Hw & Htried & Hd & Ho & Hc & Hrest).
  cbv zeta in Hw, Hd, Ho, Hc, Hrest.
  exists done, rest, tried. split; [exact Hsplit|].
  unfold then_behaviour. cbn [fst snd].
  destruct (loop_behaviour (entry_behaviour env file_name suffix) records) as [[ex|[]] C];
    cbn [fst snd] in *.
  - change ([EvOpen file_name] ++ C) with (EvOpen file_name :: C).
    change (written (EvOpen file_name :: C)) with (written C).
    change (decoded (EvOpen file_name :: C)) with (decoded C).
    change (opened (EvOpen file_name :: C)) with (file_name :: opened C).
    change (closed (EvOpen file_name :: C)) with (closed C).
    rewrite Ho, Hc. repeat split; auto.
    destruct rest; [discriminate Hrest|]. destruct Hrest as [Hi _]. eauto.
  - change ([EvOpen file_name] ++ C ++ [EvClose file_name])
      with (EvOpen file_name :: (C ++ [EvClose file_name])).
    change (written (EvOpen file_name :: ?x)) with (written x).
    change (decoded (EvOpen file_name :: ?x)) with (decoded x).
    change (opened (EvOpen file_name :: ?x)) with (file_name :: opened x).
    change (closed (EvOpen file_name :: ?x)) with (closed x).
    rewrite written_app, decoded_app, opened_app, closed_app, Ho, Hc.
    cbn [written decoded opened closed omap app]. rewrite !app_nil_r.
    repeat split; auto.
    destruct rest; [auto|]. destruct Hrest as [_ [ex Hex]]. discriminate Hex.
Qed.

Lemma process_bag_file_run_closed env file_name topics start_time end_time s :
  let out := process_bag_file env file_name topics start_time end_time s in
  let b := file_behaviour env file_name topics start_time end_time in
  closed (trace out.2) = closed (trace s) ++ closed b.2.
Proof.
  apply (effect_run_closed _ (file_behaviour env file_name topics start_time end_time).1),
    effect_process_bag_file.
Qed.

(** A run of [process_bag_file] on a container that is opened: the
    records that the reader selects are processed in their order, up to the
    first one whose step raises. *)
Lemma process_bag_file_records env file_name topics start_time end_time suffix bag s :
  let out := process_bag_file env file_name topics start_time end_time s in
  let records := read_messages bag topics (Some start_time) (Some end_time)
                               (Some filter_image_msgs) in
  folder_name_suffix start_time end_time = inr suffix ->
  bag_open env file_name = inr bag ->
  exists done rest ws tried,
    records = done ++ rest
    /\ written (trace out.2) = written (trace s) ++ ws
    /\ files out.2 = apply_writes ws (files s)
    /\ Forall2 (written_for env file_name suffix) done ws
    /\ (tried = [] \/ tried = take 1 rest)
    /\ map inr (decoded (trace out.2))
       = map inr (decoded (trace s)) ++ map e_msg (done ++ tried)
    /\ opened (trace out.2) = opened (trace s) ++ [file_name]
    /\ match rest with
       | [] => out.1 = inr tt /\ closed (trace out.2) = closed (trace s) ++ [file_name]
       | x :: _ => record_image env x = None /\ (exists ex, out.1 = inl ex)
                   /\ closed (trace out.2) = closed (trace s)
       end.
Proof.
  intros out records Hsuf Hbag.
  destruct (process_bag_file_run env file_name topics start_time end_time s)
    as (Hr & Ho & Hd & Hw & Hf).
  pose proof (process_bag_file_run_closed env file_name topics start_time end_time s) as Hc.
  fold out in Hr, Ho, Hd, Hw, Hf, Hc. cbv zeta in Hr, Ho, Hd, Hw, Hf, Hc.
  destruct (file_behaviour_split env file_name topics start_time end_time suffix bag
              Hsuf Hbag) as (done & rest & tried & Hsplit & Hbw & Htried & Hbd & Hbo & Hrest).
  exists done, rest, (written (file_behaviour env file_name topics start_time end_time).2),
    tried.
  rewrite Hd, map_app, Hbd, Ho, Hbo.
  repeat split; auto.
  destruct rest as [|x rest].
  - destruct Hrest as [Hb1 Hbc]. rewrite Hr, Hc, Hbc. auto.
  - destruct Hrest as (Hi & [ex Hex] & Hbc). rewrite Hr, Hc, Hbc, app_nil_r. eauto.
Qed.

Lemma record_image_time env e img :
  record_image env e = Some img -> exists ts, time_str (e_time e) = inr ts.
Proof.
  unfold record_image. destruct (e_msg e); [discriminate|].
  destruct (short_type_name _); [discriminate|].
  destruct (time_str (e_time e)) as [|ts]; [discriminate|]. eauto.
Qed.

Lemma written_for_spec env file_name suffix start_time end_time e w :
  0 <= Time.secs start_time ->
  0 <= Time.secs end_time ->
  folder_name_suffix start_time end_time = inr suffix ->
  written_for env file_name suffix e w ->
  Py.startswith "/" (c_topic (e_conn e)) = true ->
  0 <= Time.secs (e_time e) ->
  w.1 = Spec.outputPath DESTINATION_LOCAL_PICTURES file_name (c_topic (e_conn e))
                        (record_type e) (e_time e) start_time end_time.
Proof.
  intros Ha Hb Hsuf [Hi Hp] Htopic Hsecs.
  destruct (record_image_time _ _ _ Hi) as [ts Hts].
  rewrite Hp, (record_path_out_path _ _ _ _ _ _ Hts).
  destruct (c_topic (e_conn e)) as [|c rest]; [discriminate|].
  cbn [Py.startswith] in Htopic.
  destruct (Ascii.eqb_spec "/" c) as [Hc|]; [subst c|discriminate].
  apply out_path_spec; assumption.
Qed.



Example output_path_layout_mixed_container :
  let bag := [Demo.record "cam/image_raw" 1692729229 0 "x";
              Demo.inside;
              Demo.record "/cam/image_raw" 1692729231 0 "bad";
              Demo.record "/cam/image_raw" 1692729232 0 "y"] in
  let out := process_bag_file (set_bag Demo.env "/in/run1.bag" (inr bag)) "/in/run1.bag" None
                              Demo.window_start Demo.window_end Demo.init in
  out.1 = inl (Py.ExternalError "malformed payload")
  /\ (written (trace out.2)).*1
     = ["/data1/s3/pictures/am_image_raw/Image/2023-08-22_18-33-48_2023-08-22_18-33-52/2023-08-22_18-33-49-0(run1).png";
        Spec.outputPath DESTINATION_LOCAL_PICTURES "/in/run1.bag" "/cam/image_raw" "Image"
                        (Time.mk 1692729230 0) Demo.window_start Demo.window_end]
  /\ Spec.outputPath DESTINATION_LOCAL_PICTURES "/in/run1.bag" "/cam/image_raw" "Image"
                     (Time.mk 1692729230 0) Demo.window_start Demo.window_end
     = "/data1/s3/pictures/cam_image_raw/Image/2023-08-22_18-33-48_2023-08-22_18-33-52/2023-08-22_18-33-50-0(run1).png".
Proof. vm_compute. repeat split. Qed.

Example demo_written_path :
  let out := process_bag_file Demo.env "/in/a.bag" None
                              Demo.window_start Demo.window_end Demo.init in
  (written (trace out.2)).*1
  = ["/data1/s3/pictures/cam_image_raw/Image/2023-08-22_18-33-48_2023-08-22_18-33-52/2023-08-22_18-33-50-0(a).png"].
Proof. vm_compute. reflexivity. Qed.





(** A container that is processed to its end: every record that the
    reader selects in it is decoded and written. *)
Lemma file_behaviour_done env fl topics t1 t2 :
  let b := file_behaviour env fl topics t1 t2 in
  b.1 = inr tt ->
  exists suffix,
    folder_name_suffix t1 t2 = inr suffix
    /\ Forall2 (written_for env fl suffix) (file_records env fl topics t1 t2) (written b.2)
    /\ map inr (decoded b.2) = map e_msg (file_records env fl topics t1 t2)
    /\ opened b.2 = [fl]
    /\ closed b.2 = [fl].
Proof.
  intros b Hok.
  destruct (folder_name_suffix t1 t2) as [ex|suffix] eqn:Hsuf.
  { unfold b, file_behaviour in Hok. rewrite Hsuf in Hok. discriminate. }
  destruct (bag_open env fl) as [ex|bag] eqn:Hbag.
  { unfold b, file_behaviour in Hok. rewrite Hsuf, Hbag in Hok. discriminate. }
  destruct (file_behaviour_split env fl topics t1 t2 suffix bag Hsuf Hbag)
    as (done & rest & tried & Hsplit & Hw & Htried & Hd & Ho & Hrest).
  fold b in Hw, Hd, Ho, Hrest.
  destruct rest as [|x rest].
  - assert (tried = []) as -> by (destruct Htried; assumption).
    rewrite !app_nil_r in *. unfold file_records. rewrite Hbag, Hsplit.
    exists suffix. destruct Hrest as [_ Hc]. auto.
  - destruct Hrest as (_ & [ex Hex] & _). congruence.
Qed.

(** A container on which [process_bag_file] raises is not closed. *)
Lemma file_behaviour_failed env fl topics t1 t2 ex :
  let b := file_behaviour env fl topics t1 t2 in
  b.1 = inl ex ->
  (opened b.2 = [] \/ opened b.2 = [fl]) /\ closed b.2 = [].
Proof.
  intros b Hex. split; [apply opened_file_behaviour|].
  unfold b in *. unfold file_behaviour in *.
  destruct (folder_name_suffix t1 t2) as [ex0|suffix]; [reflexivity|].
  destruct (bag_open env fl) as [ex0|bag]; [reflexivity|].
  set (l := read_messages _ _ _ _ _) in *.
  pose proof (closed_entries env fl suffix l) as Hl.
  unfold then_behaviour in *. cbn [fst snd] in *.
  destruct (loop_behaviour (entry_behaviour env fl suffix) l) as [[ex0|[]] C];
    cbn [fst snd] in *; [|discriminate].
  change ([EvOpen fl] ++ C) with (EvOpen fl :: C). exact Hl.
Qed.


Lemma files_done env topics t1 t2 done :
  Forall (fun fl => (file_behaviour env fl topics t1 t2).1 = inr tt) done ->
  let C := concat (map (fun fl => (file_behaviour env fl topics t1 t2).2) done) in
  exists wss,
    written C = concat wss
    /\ Forall2 (written_for_file env topics t1 t2) done wss
    /\ map inr (decoded C)
       = concat (map (fun fl => map e_msg (file_records env fl topics t1 t2)) done)
    /\ opened C = done
    /\ closed C = done.
Proof.
  induction 1 as [|fl done Hfl _ (wss & IHw & IHall & IHd & IHo & IHc)]; cbn zeta.
  - exists []. repeat split. constructor.
  - destruct (file_behaviour_done env fl topics t1 t2 Hfl)
      as (suffix & Hsuf & Hw & Hd & Ho & Hc).
    exists (written (file_behaviour env fl topics t1 t2).2 :: wss).
    cbn [map concat].
    rewrite written_app, decoded_app, opened_app, closed_app, map_app,
      IHw, IHd, IHo, IHc, Hd, Ho, Hc.
    repeat split. constructor; [|exact IHall]. exists suffix. auto.
Qed.

Lemma process_bag_files_run_closed env path topics start_time end_time s :
  let out := process_bag_files env path topics start_time end_time s in
  let b := batch_behaviour env path topics start_time end_time in
  closed (trace out.2) = closed (trace s) ++ closed b.2.
Proof.
  apply (effect_run_closed _ (batch_behaviour env path topics start_time end_time).1),
    effect_process_bag_files.
Qed.



Example sorted_processing_order_example :
  let out := process_bag_files Demo.env "/in/" None
               (Some MIN_FILTER_TIME) (Some MAX_FILTER_TIME) Demo.init in
  lst_files "/in/" ["b.bag"; "a.bag"; "notes.txt"; "c.bag"]
  = ["/in/a.bag"; "/in/b.bag"; "/in/c.bag"]
  /\ out.1 = inr tt
  /\ opened (trace out.2) = ["/in/a.bag"; "/in/b.bag"; "/in/c.bag"]
  /\ closed (trace out.2) = ["/in/a.bag"; "/in/b.bag"; "/in/c.bag"]
  /\ decoded (trace out.2)
     = [Demo.image_msg "inside"; Demo.image_msg "inside"; Demo.image_msg "inside"]
  /\ written (trace out.2)
     = [("/data1/s3/pictures/cam_image_raw/Image/2023-08-22_18-33-48_2023-08-22_18-33-52/2023-08-22_18-33-50-0(a).png", "raw:inside");
        ("/data1/s3/pictures/cam_image_raw/Image/2023-08-22_18-33-48_2023-08-22_18-33-52/2023-08-22_18-33-50-0(b).png", "raw:inside");
        ("/data1/s3/pictures/cam_image_raw/Image/2023-08-22_18-33-48_2023-08-22_18-33-52/2023-08-22_18-33-50-0(c).png", "raw:inside")].
Proof. vm_compute. repeat split. Qed.


Lemma process_entry_run env file_name suffix e s :
  let out := process_entry env file_name suffix e s in
  let b := entry_behaviour env file_name suffix e in
  out.1 = b.1
  /\ opened (trace out.2) = opened (trace s) ++ opened b.2
  /\ decoded (trace out.2) = decoded (trace s) ++ decoded b.2
  /\ written (trace out.2) = written (trace s) ++ written b.2
  /\ files out.2 = apply_writes (written b.2) (files s).
Proof. apply effect_run, effect_process_entry. Qed.

Lemma opened_files_all env topics start_time end_time l :
  Forall (fun fl => (file_behaviour env fl topics start_time end_time).1 = inr tt) l ->
  opened (concat (map (fun fl => (file_behaviour env fl topics start_time end_time).2) l))
  = l.
Proof.
  induction 1 as [|fl l Hfl _ IH]; [reflexivity|].
  cbn [map concat]. rewrite opened_app, IH.
  destruct (opened_file_behaviour env fl topics start_time end_time) as [_ H].
  rewrite (H Hfl). reflexivity.
Qed.

Lemma opened_file_behaviour_call env file_name topics start_time end_time suffix :
  folder_name_suffix start_time end_time = inr suffix ->
  opened (file_behaviour env file_name topics start_time end_time).2 = [file_name].
Proof.
  intros Hsuf. unfold file_behaviour. rewrite Hsuf.
  destruct (bag_open env file_name) as [ex|bag]; [reflexivity|].
  set (l := read_messages _ _ _ _ _).
  pose proof (opened_entries env file_name suffix l) as Hl.
  unfold then_behaviour. cbn [fst snd].
  destruct (loop_behaviour (entry_behaviour env file_name suffix) l) as [[ex|[]] C];
    cbn [fst snd] in *; rewrite ?opened_app, ?Hl; reflexivity.
Qed.







Lemma image_base_name base :
  In ("sensor_msgs/" +:+ base) DATA_TYPES ->
  base = "Image" \/ base = "CompressedImage".
Proof.
  intros [H|[H|[]]]; [left|right];
    apply (String.app_inj "sensor_msgs/"); symmetry; exact H.
Qed.

(** The record step binds the image in the branches for the type names
    [Image] and [CompressedImage] only.  With any other type name no decoder
    is called and the write raises on the unbound variable; with one of the
    two names the step ends as the decoder ends.  The type name that
    [process_bag_file] derives from a message of an admitted wire type, whose
    class genpy generated in a module whose name holds no double
    underscore, is one of the two names. *)
Theorem unbound_image_branch env file_name topic message datatype time_stamp suffix ts s :
  let out := process_bag_message env file_name topic message datatype time_stamp suffix s in
  time_str time_stamp = inr ts ->
  (datatype = "Image" ->
     out.1 = match message_to_cvimage env message with
             | inl ex => inl ex
             | inr _ => inr tt
             end)
  /\ (datatype = "CompressedImage" ->
        out.1 = match compressed_image_to_cvimage env message with
                | inl ex => inl ex
                | inr _ => inr tt
                end)
  /\ (datatype <> "Image" -> datatype <> "CompressedImage" ->
        out.1 = inl (Py.UnboundLocalError "img")
        /\ decoded (trace out.2) = decoded (trace s)
        /\ written (trace out.2) = written (trace s)
        /\ files out.2 = files s)
  /\ (forall modname base data,
        In ("sensor_msgs/" +:+ base) DATA_TYPES ->
        no_double_underscore modname = true ->
        message = mk_msg (dyn_class_repr modname "sensor_msgs" base) data ->
        short_type_name message = inr datatype ->
        datatype = "Image" \/ datatype = "CompressedImage").
Proof.
  intros out Hts.
  destruct (process_bag_message_run env file_name topic message datatype time_stamp
              suffix s) as (Hr & _ & Hd & Hw & Hf).
  fold out in Hr, Hd, Hw, Hf. cbv zeta in Hr, Hd, Hw, Hf.
  unfold message_behaviour in Hr, Hd, Hw, Hf. rewrite Hts in Hr, Hd, Hw, Hf.
  repeat split.
  - intros ->. cbn in Hr. rewrite Hr.
    destruct (message_to_cvimage env message); reflexivity.
  - intros ->. cbn in Hr. rewrite Hr.
    destruct (compressed_image_to_cvimage env message); reflexivity.
  - apply String.eqb_neq in H, H0. rewrite H, H0 in Hr. exact Hr.
  - apply String.eqb_neq in H, H0. rewrite H, H0 in Hd. rewrite Hd. apply app_nil_r.
  - apply String.eqb_neq in H, H0. rewrite H, H0 in Hw. rewrite Hw. apply app_nil_r.
  - apply String.eqb_neq in H, H0. rewrite H, H0 in Hf. exact Hf.
  - intros modname base data Hin Hmod -> Hty.
    apply image_base_name in Hin.
    rewrite (short_type_name_generated modname base data Hmod Hin) in Hty.
    injection Hty as <-. exact Hin.
Qed.

Lemma unbound_image_branch_witness :
  let out := process_bag_message Demo.env "/in/a.bag" "/imu/data"
               (mk_msg (dyn_class_repr "tmpk3j_x2a1" "sensor_msgs" "Imu") "x")
               "Imu" (Time.mk 1692729230 0)
               "2023-08-22_18-33-48_2023-08-22_18-33-52" Demo.init in
  out.1 = inl (Py.UnboundLocalError "img")
  /\ decoded (trace out.2) = decoded (trace Demo.init)
  /\ written (trace out.2) = written (trace Demo.init)
  /\ files out.2 = files Demo.init.
Proof.
  apply (unbound_image_branch Demo.env "/in/a.bag" "/imu/data"
           (mk_msg (dyn_class_repr "tmpk3j_x2a1" "sensor_msgs" "Imu") "x")
           "Imu" (Time.mk 1692729230 0)
           "2023-08-22_18-33-48_2023-08-22_18-33-52" "2023-08-22_18-33-50-0" Demo.init).
  - vm_compute. reflexivity.
  - discriminate.
  - discriminate.
Defined.

Example unbound_image_makes_directory :
  let out := process_bag_message Demo.env "/in/a.bag" "/imu/data"
               (mk_msg (dyn_class_repr "tmpk3j_x2a1" "sensor_msgs" "Imu") "x")
               "Imu" (Time.mk 1692729230 0)
               "2023-08-22_18-33-48_2023-08-22_18-33-52" Demo.init in
  out.1 = inl (Py.UnboundLocalError "img")
  /\ trace out.2
     = [EvMakedirs "/data1/s3/pictures/imu_data/Imu/2023-08-22_18-33-48_2023-08-22_18-33-52/"].
Proof. vm_compute. split; reflexivity. Qed.

Example short_type_name_examples :
  short_type_name (Demo.image_msg "x") = inr "Image"
  /\ short_type_name (Demo.compressed_msg "x") = inr "CompressedImage"
  /\ short_type_name (mk_msg (dyn_class_repr "tmp__a" "sensor_msgs" "Image") "x")
     = inr "a._sensor_ms".
Proof. repeat split; reflexivity. Qed.

(** C9: the failure branch is reached by an admitted record.  genpy names
    the module of a generated class after a temporary file, and such a name
    can hold a double underscore; the second piece of the printed class
    between double underscores is then a part of the module name, the type
    name is neither [Image] nor [CompressedImage], no decoder is called,
    and after the directory was created the write raises on the unbound
    variable.  The container is left open. *)
Theorem unbound_image_branch_reached :
  let message :=
    mk_msg (dyn_class_repr "tmpab__cdef" "sensor_msgs" "CompressedImage") "jpeg" in
  let e := mk_entry (Demo.conn "/cam/image_raw/compressed" "sensor_msgs/CompressedImage")
                    (Time.mk 1692729230 0) (inr message) in
  let env := set_bag Demo.env "/in/a.bag" (inr [e]) in
  let out := process_bag_file env "/in/a.bag" None Demo.window_start Demo.window_end
                              Demo.init in
  msg_class message = "<class 'tmpab__cdef._sensor_msgs__CompressedImage'>"
  /\ filter_image_msgs (c_topic (e_conn e)) (c_datatype (e_conn e)) (c_md5sum (e_conn e))
                       (c_msg_def (e_conn e)) (c_header (e_conn e)) = true
  /\ read_messages [e] None (Some Demo.window_start) (Some Demo.window_end)
                   (Some filter_image_msgs) = [e]
  /\ short_type_name message = inr "cdef._sensor_ms"
  /\ compressed_image_to_cvimage env message = inr "png:jpeg"
  /\ out.1 = inl (Py.UnboundLocalError "img")
  /\ decoded (trace out.2) = []
  /\ written (trace out.2) = []
  /\ made (trace out.2)
     = ["/data1/s3/pictures/cam_image_raw_compressed/cdef._sensor_ms/2023-08-22_18-33-48_2023-08-22_18-33-52/"]
  /\ closed (trace out.2) = [].
Proof. vm_compute. repeat split. Qed.

(** * Further properties of the code *)

(** ** File names *)

Lemma slice_to_from n s : Py.slice_to n s +:+ Py.slice_from n s = s.
Proof.
  revert s. induction n as [|n IH]; intros [|c s]; try reflexivity.
  cbn [Py.slice_to Py.slice_from]. rewrite app_String, IH. reflexivity.
Qed.

Lemma lower_app a b : Py.lower (a +:+ b) = Py.lower a +:+ Py.lower b.
Proof.
  induction a as [|c a IH]; [reflexivity|].
  rewrite app_String. cbn [Py.lower]. rewrite IH. reflexivity.
Qed.

Lemma splitext_app p : (OsPath.splitext p).1 +:+ (OsPath.splitext p).2 = p.
Proof.
  unfold OsPath.splitext.
  destruct (_ && _); cbn [fst snd].
  - apply slice_to_from.
  - induction p as [|c p IH]; [reflexivity|]. rewrite app_String, IH. reflexivity.
Qed.

(** X1: for a file name whose characters have codes from 0 to 255 (the
    strings of this model), the name and the extension that [get_file_name]
    and [get_file_extension] return make up the lower-cased file name. *)
Theorem file_name_extension_roundtrip file_name :
  get_file_name file_name +:+ get_file_extension file_name = Py.lower file_name.
Proof.
  unfold get_file_name, get_file_extension.
  pose proof (splitext_app file_name) as H.
  destruct (OsPath.splitext file_name) as [a b]. cbn [fst snd] in H.
  rewrite <- lower_app, H. reflexivity.
Qed.

Lemma lower_char_idem a : Py.lower_char (Py.lower_char a) = Py.lower_char a.
Proof. destruct a as [[] [] [] [] [] [] [] []]; reflexivity. Qed.

Lemma lower_idem s : Py.lower (Py.lower s) = Py.lower s.
Proof.
  induction s as [|c s IH]; [reflexivity|].
  cbn [Py.lower]. rewrite lower_char_idem, IH. reflexivity.
Qed.

Lemma lower_char_sep a : Ascii.eqb (Py.lower_char a) "/" = Ascii.eqb a "/".
Proof. destruct a as [[] [] [] [] [] [] [] []]; reflexivity. Qed.

Lemma lower_char_dot a : Ascii.eqb (Py.lower_char a) "." = Ascii.eqb a ".".
Proof. destruct a as [[] [] [] [] [] [] [] []]; reflexivity. Qed.

Lemma rfind_from_lower c s : forall i f,
  (forall a, Ascii.eqb (Py.lower_char a) c = Ascii.eqb a c) ->
  Py.rfind_from c (Py.lower s) i f = Py.rfind_from c s i f.
Proof.
  induction s as [|a s IH]; intros i f Hc; [reflexivity|].
  cbn [Py.lower Py.rfind_from]. rewrite Hc. apply IH. exact Hc.
Qed.

Lemma slice_to_lower n s : Py.slice_to n (Py.lower s) = Py.lower (Py.slice_to n s).
Proof.
  revert s. induction n as [|n IH]; intros [|c s]; try reflexivity.
  cbn [Py.slice_to Py.lower]. rewrite IH. reflexivity.
Qed.

Lemma slice_from_lower n s : Py.slice_from n (Py.lower s) = Py.lower (Py.slice_from n s).
Proof.
  revert s. induction n as [|n IH]; intros [|c s]; try reflexivity.
  cbn [Py.slice_from Py.lower]. apply IH.
Qed.

Lemma existsb_not_dot_lower s :
  existsb (fun c => negb (Ascii.eqb c OsPath.extsep)) (list_ascii_of_string (Py.lower s))
  = existsb (fun c => negb (Ascii.eqb c OsPath.extsep)) (list_ascii_of_string s).
Proof.
  induction s as [|a s IH]; [reflexivity|].
  cbn [Py.lower list_ascii_of_string existsb]. unfold OsPath.extsep at 1 3.
  rewrite lower_char_dot, IH. reflexivity.
Qed.

Lemma splitext_lower p :
  OsPath.splitext (Py.lower p)
  = (Py.lower (OsPath.splitext p).1, Py.lower (OsPath.splitext p).2).
Proof.
  unfold OsPath.splitext, Py.rfind, OsPath.chars_between.
  rewrite !rfind_from_lower by (apply lower_char_sep || apply lower_char_dot).
  rewrite slice_to_lower, slice_from_lower, existsb_not_dot_lower.
  destruct (_ && _); cbn [fst snd]; rewrite ?slice_to_lower, ?slice_from_lower; reflexivity.
Qed.

Lemma basename_lower p : OsPath.basename (Py.lower p) = Py.lower (OsPath.basename p).
Proof.
  unfold OsPath.basename, Py.rfind.
  rewrite rfind_from_lower by apply lower_char_sep. apply slice_from_lower.
Qed.

(** X2: for a file name whose characters have codes from 0 to 255 (the
    strings of this model), the extension, the container test and the name
    of the output file do not depend on the letter case of the file name,
    so [Run1.bag] and [run1.BAG] of one directory are written under the
    same file names. *)
Theorem file_names_are_case_insensitive file_name ts :
  get_file_extension (Py.lower file_name) = get_file_extension file_name
  /\ is_bag_file (Py.lower file_name) = is_bag_file file_name
  /\ base_file_name (Py.lower file_name) = base_file_name file_name
  /\ out_file_name ts (Py.lower file_name) = out_file_name ts file_name.
Proof.
  assert (get_file_extension (Py.lower file_name) = get_file_extension file_name) as He.
  { unfold get_file_extension. rewrite splitext_lower.
    destruct (OsPath.splitext file_name). cbn [fst snd]. apply lower_idem. }
  assert (base_file_name (Py.lower file_name) = base_file_name file_name) as Hb.
  { unfold base_file_name, get_file_name. rewrite basename_lower, splitext_lower.
    destruct (OsPath.splitext (OsPath.basename file_name)). cbn [fst snd]. apply lower_idem. }
  repeat split.
  - exact He.
  - unfold is_bag_file. rewrite He. reflexivity.
  - exact Hb.
  - unfold out_file_name. rewrite Hb. reflexivity.
Qed.

(** ** The channel directory and the file name *)

Lemma no_char_app c a b : no_char c (a +:+ b) = no_char c a && no_char c b.
Proof.
  induction a as [|x a IH]; [reflexivity|].
  rewrite app_String. cbn [no_char]. rewrite IH, andb_assoc. reflexivity.
Qed.

Lemma no_char_replace a b s : a <> b -> no_char a (Py.replace_char a b s) = true.
Proof.
  intros Hab. induction s as [|c s IH]; [reflexivity|].
  cbn [Py.replace_char no_char]. rewrite IH, andb_true_r.
  destruct (Ascii.eqb_spec c a) as [->|Hc].
  - apply negb_true_iff, Ascii.eqb_neq. congruence.
  - apply negb_true_iff, Ascii.eqb_neq. exact Hc.
Qed.

Lemma length_replace a b s : String.length (Py.replace_char a b s) = String.length s.
Proof. induction s as [|c s IH]; [reflexivity|]. cbn. rewrite IH. reflexivity. Qed.

Lemma replace_char_idem a b s :
  a <> b -> Py.replace_char a b (Py.replace_char a b s) = Py.replace_char a b s.
Proof.
  intros Hab. induction s as [|c s IH]; [reflexivity|].
  cbn [Py.replace_char]. rewrite IH. f_equal.
  destruct (Ascii.eqb_spec c a) as [->|Hc].
  - destruct (Ascii.eqb_spec b a); congruence.
  - destruct (Ascii.eqb_spec c a); congruence.
Qed.


(** X4: channels that differ only in their first character, or in a
    separator against an underscore, are written to the same directory. *)
Theorem topic_str_collisions c c' rest datatype suffix :
  topic_str (String c rest) = topic_str (String c' (Py.replace_char "/" "_" rest))
  /\ out_dir_name (String c rest) datatype suffix
     = out_dir_name (String c' (Py.replace_char "/" "_" rest)) datatype suffix.
Proof.
  assert (topic_str (String c rest) = topic_str (String c' (Py.replace_char "/" "_" rest))) as H.
  { unfold topic_str. cbn [Py.slice_from]. rewrite replace_char_idem by discriminate. reflexivity. }
  split; [exact H|]. unfold out_dir_name. rewrite H. reflexivity.
Qed.

(** *** The last path component *)

Lemma rfind_from_app c a : forall b i f,
  Py.rfind_from c (a +:+ b) i f
  = Py.rfind_from c b (i + Z.of_nat (String.length a)) (Py.rfind_from c a i f).
Proof.
  induction a as [|x a IH]; intros b i f.
  - cbn. rewrite Z.add_0_r. reflexivity.
  - rewrite app_String. cbn [Py.rfind_from String.length]. rewrite IH.
    f_equal. lia.
Qed.

Lemma rfind_from_no_char c s : forall i f,
  no_char c s = true -> Py.rfind_from c s i f = f.
Proof.
  induction s as [|a s IH]; intros i f H; [reflexivity|].
  cbn [no_char] in H. apply andb_true_iff in H as [Ha Hs].
  cbn [Py.rfind_from]. apply negb_true_iff in Ha. rewrite Ha. apply IH. exact Hs.
Qed.

Lemma slice_from_app_length a b : Py.slice_from (String.length a) (a +:+ b) = b.
Proof. induction a as [|x a IH]; [reflexivity|]. rewrite app_String. exact IH. Qed.

Lemma string_length_app a b :
  String.length (a +:+ b) = (String.length a + String.length b)%nat.
Proof. induction a as [|x a IH]; [reflexivity|]. rewrite app_String. cbn. rewrite IH. reflexivity. Qed.

(** The last component of [d/name] is [name] when [name] holds no
    separator. *)
Lemma basename_join d name :
  no_char "/" name = true ->
  OsPath.basename (d +:+ "/" +:+ name) = name.
Proof.
  intros Hn. unfold OsPath.basename, Py.rfind, OsPath.sep.
  rewrite rfind_from_app, rfind_from_app.
  rewrite (rfind_from_no_char _ name) by exact Hn.
  cbn [Py.rfind_from Ascii.eqb Bool.eqb String.length].
  change (if Ascii.eqb "/" "/" then ?x else ?y) with x.
  replace (Z.to_nat (0 + Z.of_nat (String.length d) + 1))
    with (String.length (d +:+ "/")) by (rewrite string_length_app; cbn; lia).
  rewrite <- string_app_assoc. apply slice_from_app_length.
Qed.

Lemma no_char_slice_from_rfind c s : forall i f,
  let r := Py.rfind_from c s i f in
  (r = f /\ no_char c s = true)
  \/ (i <= r /\ no_char c (Py.slice_from (Z.to_nat (r - i + 1)) s) = true).
Proof.
  induction s as [|a s IH]; intros i f; cbn zeta.
  - left. split; reflexivity.
  - cbn [Py.rfind_from].
    destruct (IH (i + 1) (if Ascii.eqb a c then i else f)) as [[Hr Hs] | [Hr Hs]].
    + rewrite Hr. destruct (Ascii.eqb a c) eqn:Hac.
      * right. split; [lia|]. replace (i - i + 1) with 1 by lia. exact Hs.
      * left. split; [reflexivity|]. cbn [no_char]. rewrite Hac, Hs. reflexivity.
    + right. split; [lia|].
      replace (Z.to_nat (Py.rfind_from c s (i + 1) (if Ascii.eqb a c then i else f) - i + 1))
        with (S (Z.to_nat (Py.rfind_from c s (i + 1) (if Ascii.eqb a c then i else f) - (i + 1) + 1)))
        by lia.
      exact Hs.
Qed.

Lemma no_char_basename p : no_char "/" (OsPath.basename p) = true.
Proof.
  unfold OsPath.basename, Py.rfind, OsPath.sep.
  destruct (no_char_slice_from_rfind "/" p 0 (-1)) as [[Hr Hs] | [Hr Hs]]; cbn zeta in *.
  - rewrite Hr. exact Hs.
  - rewrite Z.sub_0_r in Hs. exact Hs.
Qed.

Lemma no_char_slice_to c n s : no_char c s = true -> no_char c (Py.slice_to n s) = true.
Proof.
  revert s. induction n as [|n IH]; intros [|a s] H; try reflexivity.
  cbn [no_char Py.slice_to] in *. apply andb_true_iff in H as [-> H]. rewrite IH; auto.
Qed.

Lemma no_char_lower_sep s : no_char "/" (Py.lower s) = no_char "/" s.
Proof.
  induction s as [|a s IH]; [reflexivity|].
  cbn [Py.lower no_char]. rewrite lower_char_sep, IH. reflexivity.
Qed.

Lemma no_char_base_file_name file_name : no_char "/" (base_file_name file_name) = true.
Proof.
  unfold base_file_name, get_file_name, OsPath.splitext.
  pose proof (no_char_basename file_name) as H.
  destruct (_ && _); rewrite no_char_lower_sep; [apply no_char_slice_to|]; exact H.
Qed.

Lemma no_char_uint d : no_char "/" (NilEmpty.string_of_uint d) = true.
Proof. induction d; cbn; auto. Qed.

Lemma no_char_str_of_int n : no_char "/" (Py.str_of_int n) = true.
Proof.
  assert (forall d, no_char "/" (NilZero.string_of_uint d) = true) as H.
  { intros d. unfold NilZero.string_of_uint. destruct d; try reflexivity; apply no_char_uint. }
  unfold Py.str_of_int, NilZero.string_of_int.
  destruct (Z.to_int n) as [d|d]; [apply H|]. cbn [no_char]. apply H.
Qed.

Lemma no_char_pad2 n : no_char "/" (Datetime.pad2 n) = true.
Proof.
  unfold Datetime.pad2. destruct (n <? 10); [|apply no_char_str_of_int].
  rewrite no_char_app, no_char_str_of_int. reflexivity.
Qed.

Lemma no_char_time_str time_stamp ts :
  time_str time_stamp = inr ts -> no_char "/" ts = true.
Proof.
  unfold time_str, utc_date_str.
  destruct (Datetime.utcfromtimestamp (Time.secs time_stamp)) as [ex|dt]; [discriminate|].
  intros [= <-]. unfold Datetime.strftime_ymd_hms.
  rewrite !no_char_app, !no_char_pad2, !no_char_str_of_int. reflexivity.
Qed.

Lemma no_char_written_file file_name time_stamp ts :
  time_str time_stamp = inr ts ->
  no_char "/" (out_file_name ts file_name +:+ ".png") = true.
Proof.
  intros Hts. unfold out_file_name.
  rewrite !no_char_app, (no_char_time_str _ _ Hts), no_char_base_file_name. reflexivity.
Qed.

(** X5: the name of the written file holds no separator: the written path
    is [out_dir_name] followed by a single component, its last one. *)
Theorem written_file_lies_in_out_dir file_name topic datatype time_stamp suffix ts :
  time_str time_stamp = inr ts ->
  no_char "/" (out_file_name ts file_name +:+ ".png") = true
  /\ OsPath.basename (out_path file_name topic datatype ts suffix)
     = out_file_name ts file_name +:+ ".png".
Proof.
  intros Hts.
  pose proof (no_char_written_file file_name time_stamp ts Hts) as Hn.
  split; [exact Hn|].
  unfold out_path, out_dir_name.
  replace (((DESTINATION_LOCAL_PICTURES +:+ "/" +:+ topic_str topic +:+ "/" +:+
             datatype +:+ "/" +:+ suffix +:+ "/") +:+ out_file_name ts file_name +:+ ".png"))
    with ((DESTINATION_LOCAL_PICTURES +:+ "/" +:+ topic_str topic +:+ "/" +:+
             datatype +:+ "/" +:+ suffix) +:+ "/" +:+ (out_file_name ts file_name +:+ ".png"))
    by (rewrite !string_app_assoc; reflexivity).
  apply basename_join. exact Hn.
Qed.

Lemma written_file_lies_in_out_dir_witness :
  no_char "/" (out_file_name "2023-08-22_18-33-50-0" "/in/a.bag" +:+ ".png") = true
  /\ OsPath.basename (out_path "/in/a.bag" "/cam/image_raw" "Image" "2023-08-22_18-33-50-0"
                               "2023-08-22_18-33-48_2023-08-22_18-33-52")
     = out_file_name "2023-08-22_18-33-50-0" "/in/a.bag" +:+ ".png".
Proof.
  apply (written_file_lies_in_out_dir "/in/a.bag" "/cam/image_raw" "Image"
           (Time.mk 1692729230 0)).
  vm_compute. reflexivity.
Defined.

(** ** Directories and files *)

Lemma rev_app_app a : forall b c, String.rev_app a b +:+ c = String.rev_app a (b +:+ c).
Proof.
  induction a as [|x a IH]; intros b c; [reflexivity|].
  cbn [String.rev_app]. rewrite IH. reflexivity.
Qed.

Lemma rev_String c pre x : String.rev (String c pre) +:+ x = String.rev pre +:+ String c x.
Proof. unfold String.rev. cbn [String.rev_app]. rewrite !rev_app_app. reflexivity. Qed.

Lemma dir_prefixes_self q : forall pre,
  In (String.rev pre +:+ q +:+ "/") (dir_prefixes pre (q +:+ "/")).
Proof.
  induction q as [|c q IH]; intros pre.
  - change ("" +:+ "/") with "/". cbn [dir_prefixes].
    change (Ascii.eqb "/" OsPath.sep) with true. cbv iota. left.
    rewrite <- (rev_String "/" pre ""). unfold String.rev.
    rewrite rev_app_app. reflexivity.
  - rewrite app_String. cbn [dir_prefixes].
    assert (In (String.rev pre +:+ String c (q +:+ "/"))
               (dir_prefixes (String c pre) (q +:+ "/"))) as H.
    { rewrite <- rev_String. apply IH. }
    destruct (Ascii.eqb c OsPath.sep); [right|]; exact H.
Qed.

Lemma out_dir_name_in_prefixes topic datatype suffix :
  In (out_dir_name topic datatype suffix)
     (dir_prefixes "" (out_dir_name topic datatype suffix)).
Proof.
  unfold out_dir_name.
  replace (DESTINATION_LOCAL_PICTURES +:+ "/" +:+ topic_str topic +:+ "/" +:+
           datatype +:+ "/" +:+ suffix +:+ "/")
    with ((DESTINATION_LOCAL_PICTURES +:+ "/" +:+ topic_str topic +:+ "/" +:+
           datatype +:+ "/" +:+ suffix) +:+ "/")
    by (rewrite !string_app_assoc; reflexivity).
  apply (dir_prefixes_self _ "").
Qed.

Lemma made_app tr1 tr2 : made (tr1 ++ tr2) = made tr1 ++ made tr2.
Proof. apply omap_app. Qed.

(** The state after a record step that wrote its image. *)
Lemma process_bag_message_wrote env file_name topic message datatype time_stamp suffix
    ts img s :
  time_str time_stamp = inr ts ->
  decode_image env datatype message = Some (inr img) ->
  let d := out_dir_name topic datatype suffix in
  let out := process_bag_message env file_name topic message datatype time_stamp suffix s in
  out.1 = inr tt
  /\ dirs out.2 = (if bool_decide (d ∈ dirs s) then dirs s
                   else list_to_set (dir_prefixes "" d) ∪ dirs s)
  /\ made (trace out.2) = made (trace s) ++ (if bool_decide (d ∈ dirs s) then [] else [d])
  /\ files out.2 = <[out_path file_name topic datatype ts suffix := img]> (files s).
Proof.
  intros Hts Hdec d out. subst out.
  unfold process_bag_message, decode_image in *.
  unfold mbind, M_bind, lift, path_exists, logging_info, print, DEBUG_MODE.
  rewrite Hts. cbv beta iota. fold d.
  destruct (String.eqb datatype "Image").
  - injection Hdec as Hdec. cbn [emit]. rewrite Hdec. cbn [mret M_ret fst snd dirs].
    destruct (bool_decide (d ∈ dirs s)); cbn;
      rewrite ?made_app; cbn; rewrite ?app_nil_r; auto.
  - destruct (String.eqb datatype "CompressedImage"); [|discriminate].
    injection Hdec as Hdec. cbn [emit]. rewrite Hdec. cbn [mret M_ret fst snd dirs].
    destruct (bool_decide (d ∈ dirs s)); cbn;
      rewrite ?made_app; cbn; rewrite ?app_nil_r; auto.
Qed.

(** X6: when the record step returns, the directory of the written file
    exists, no directory was removed, and [os.makedirs] was called exactly
    when the directory did not exist before. *)
Theorem output_directory_exists env file_name topic message datatype time_stamp suffix s :
  let d := out_dir_name topic datatype suffix in
  let out := process_bag_message env file_name topic message datatype time_stamp suffix s in
  out.1 = inr tt ->
  d ∈ dirs out.2
  /\ dirs s ⊆ dirs out.2
  /\ made (trace out.2) = made (trace s) ++ (if bool_decide (d ∈ dirs s) then [] else [d]).
Proof.
  intros d out Hok.
  destruct (process_bag_message_run env file_name topic message datatype time_stamp
              suffix s) as (Hr & _).
  fold out in Hr. cbv zeta in Hr. rewrite Hok in Hr. symmetry in Hr.
  apply message_behaviour_ok_inv in Hr as (ts & img & Hts & Hdec & _).
  destruct (process_bag_message_wrote env file_name topic message datatype time_stamp
              suffix ts img s Hts Hdec) as (_ & Hd & Hm & _).
  fold d out in Hd, Hm. rewrite Hd. split; [|split; [|exact Hm]].
  - destruct (bool_decide_reflect (d ∈ dirs s)) as [Hin|Hnin]; [exact Hin|].
    apply elem_of_union_l, elem_of_list_to_set, list_elem_of_In.
    apply out_dir_name_in_prefixes.
  - destruct (bool_decide (d ∈ dirs s)); [reflexivity|]. apply union_subseteq_r.
Qed.

Lemma output_directory_exists_witness :
  let d := out_dir_name "/cam/image_raw" "Image" "2023-08-22_18-33-48_2023-08-22_18-33-52" in
  let out := process_bag_message Demo.env "/in/a.bag" "/cam/image_raw"
               (Demo.image_msg "x") "Image" (Time.mk 1692729230 0)
               "2023-08-22_18-33-48_2023-08-22_18-33-52" Demo.init in
  d ∈ dirs out.2
  /\ dirs Demo.init ⊆ dirs out.2
  /\ made (trace out.2)
     = made (trace Demo.init) ++ (if bool_decide (d ∈ dirs Demo.init) then [] else [d]).
Proof.
  apply (output_directory_exists Demo.env "/in/a.bag" "/cam/image_raw"
           (Demo.image_msg "x") "Image" (Time.mk 1692729230 0)
           "2023-08-22_18-33-48_2023-08-22_18-33-52" Demo.init).
  vm_compute. reflexivity.
Defined.

(** *** The file system after a run *)

Lemma lookup_apply_writes ws : forall (fs : gmap string Image) path,
  apply_writes ws fs !! path
  = match last_write path ws with
    | Some i => Some i
    | None => fs !! path
    end.
Proof.
  unfold apply_writes. induction ws as [|[p i] ws IH]; intros fs path; [reflexivity|].
  cbn [foldl last_write fst snd]. rewrite IH.
  destruct (last_write path ws); [reflexivity|].
  destruct (String.eqb_spec p path) as [->|Hne].
  - apply lookup_insert_eq.
  - apply lookup_insert_ne. exact Hne.
Qed.

(** X7: in every run of the driver, also one that ends in an exception, the
    file system that it leaves is the one it found with the writes of the
    trace applied in their order: the last write to a path decides its
    content, every other file keeps its content, and no file is removed. *)
Theorem files_after_run env path topics start_time end_time s :
  let out := process_bag_files env path topics start_time end_time s in
  exists ws,
    written (trace out.2) = written (trace s) ++ ws
    /\ (forall p, files out.2 !! p
                  = match last_write p ws with
                    | Some i => Some i
                    | None => files s !! p
                    end)
    /\ dom (files s) ⊆ dom (files out.2).
Proof.
  intros out.
  destruct (process_bag_files_run env path topics start_time end_time s)
    as (_ & _ & _ & Hw & Hf).
  fold out in Hw, Hf. cbv zeta in Hw, Hf.
  exists (written (batch_behaviour env path topics start_time end_time).2).
  split; [exact Hw|].
  assert (forall p, files out.2 !! p
                  = match last_write p (written (batch_behaviour env path topics start_time end_time).2) with
                    | Some i => Some i
                    | None => files s !! p
                    end) as Hl.
  { intros p. rewrite Hf. apply lookup_apply_writes. }
  split; [exact Hl|].
  intros p Hp. apply elem_of_dom in Hp as [i Hi]. apply elem_of_dom.
  rewrite Hl. destruct (last_write p _); [eauto|]. rewrite Hi. eauto.
Qed.

(** ** Containers *)


(** X8: [process_bag_file] closes the container exactly when it returns;
    when it ends in an exception, also one raised before the container was
    opened or while its records were processed, the container is not
    closed. *)
Theorem container_closed_iff_returns env file_name topics start_time end_time s :
  let out := process_bag_file env file_name topics start_time end_time s in
  closed (trace out.2)
  = closed (trace s) ++ (if Py.is_ok out.1 then [file_name] else []).
Proof.
  intros out.
  destruct (effect_process_bag_file env file_name topics start_time end_time s)
    as (Hr & Hc & _).
  fold out in Hr, Hc.
  rewrite <- closed_calls, Hc, closed_app, closed_calls, Hr. f_equal.
  unfold file_behaviour.
  destruct (folder_name_suffix start_time end_time) as [ex|suffix]; [reflexivity|].
  destruct (bag_open env file_name) as [ex|bag]; [reflexivity|].
  set (l := read_messages _ _ _ _ _).
  pose proof (closed_entries env file_name suffix l) as Hl.
  unfold then_behaviour. cbn [fst snd].
  destruct (loop_behaviour (entry_behaviour env file_name suffix) l) as [[ex|[]] C];
    cbn [fst snd Py.is_ok] in *.
  - change ([EvOpen file_name] ++ C) with (EvOpen file_name :: C). exact Hl.
  - change ([EvOpen file_name] ++ C ++ [EvClose file_name])
      with (EvOpen file_name :: (C ++ [EvClose file_name])).
    change (closed (EvOpen file_name :: ?x)) with (closed x).
    rewrite closed_app, Hl. reflexivity.
Qed.

(** X9: a container in which the reader selects no record is opened and
    closed; nothing is decoded or written and no directory is created. *)
Theorem container_without_selected_records env file_name topics start_time end_time
    suffix bag s :
  let out := process_bag_file env file_name topics start_time end_time s in
  folder_name_suffix start_time end_time = inr suffix ->
  bag_open env file_name = inr bag ->
  read_messages bag topics (Some start_time) (Some end_time) (Some filter_image_msgs) = [] ->
  out = (inr tt,
         emits [EvLogInfo ("Processing file: " +:+ file_name);
                EvPrint ("Processing file: " +:+ file_name);
                EvOpen file_name; EvClose file_name] s).
Proof.
  intros out Hsuf Hbag Hsel. subst out.
  unfold process_bag_file, mbind, M_bind, lift, logging_info, print, DEBUG_MODE.
  cbn [emit]. rewrite Hsuf. cbv beta iota. rewrite Hbag. cbv beta iota. rewrite Hsel.
  unfold emits, emit. cbn. rewrite <- !app_assoc. reflexivity.
Qed.

Lemma container_without_selected_records_witness :
  let out := process_bag_file (set_bag Demo.env "/in/a.bag" (inr [Demo.before; Demo.after]))
               "/in/a.bag" None Demo.window_start Demo.window_end Demo.init in
  out = (inr tt,
         emits [EvLogInfo ("Processing file: " +:+ "/in/a.bag");
                EvPrint ("Processing file: " +:+ "/in/a.bag");
                EvOpen "/in/a.bag"; EvClose "/in/a.bag"] Demo.init).
Proof.
  apply (container_without_selected_records
           (set_bag Demo.env "/in/a.bag" (inr [Demo.before; Demo.after]))
           "/in/a.bag" None Demo.window_start Demo.window_end
           "2023-08-22_18-33-48_2023-08-22_18-33-52" [Demo.before; Demo.after] Demo.init).
  - vm_compute. reflexivity.
  - reflexivity.
  - vm_compute. reflexivity.
Defined.

(** *** The window *)

Lemma parse_window_whole_seconds start_time end_time start_timestamp end_timestamp :
  parse_window start_time end_time = inr (start_timestamp, end_timestamp) ->
  Time.nsecs start_timestamp = 0 /\ Time.nsecs end_timestamp = 0
  /\ 0 <= Time.secs start_timestamp /\ 0 <= Time.secs end_timestamp.
Proof.
  unfold parse_window.
  destruct (match start_time with Some _ => _ | None => _ end) as [ex|dt1]; [discriminate|].
  destruct (match end_time with Some _ => _ | None => _ end) as [ex|dt2]; [discriminate|].
  unfold Time.from_sec.
  destruct (Datetime.utc_timestamp dt1 <? 0) eqn:H1; [discriminate|].
  destruct (Datetime.utc_timestamp dt2 <? 0) eqn:H2; [discriminate|].
  intros [= <- <-]. cbn. lia.
Qed.

(** X10: the bounds of the window are whole seconds, and the reader compares
    at the resolution of nanoseconds: a record in the last second of the
    window with a sub-second part is outside the window and leaves no trace,
    while any record in the first second is not before the window. *)
Theorem window_end_is_a_whole_second env file_name topics start_time end_time
    start_timestamp end_timestamp l1 e l2 s :
  parse_window start_time end_time = inr (start_timestamp, end_timestamp) ->
  Time.secs (e_time e) = Time.secs end_timestamp ->
  0 < Time.nsecs (e_time e) ->
  Time.nsecs end_timestamp = 0
  /\ Time.gtb (e_time e) end_timestamp = true
  /\ process_bag_file (set_bag env file_name (inr (l1 ++ e :: l2))) file_name
                      topics start_timestamp end_timestamp s
     = process_bag_file (set_bag env file_name (inr (l1 ++ l2))) file_name
                        topics start_timestamp end_timestamp s
  /\ (forall e', Time.secs (e_time e') = Time.secs start_timestamp ->
                 0 <= Time.nsecs (e_time e') ->
                 Time.leb start_timestamp (e_time e') = true).
Proof.
  intros Hw Hs Hn.
  destruct (parse_window_whole_seconds _ _ _ _ Hw) as (Ha & Hb & _).
  assert (Time.gtb (e_time e) end_timestamp = true) as Hgt.
  { unfold Time.gtb, Time.to_nsec. rewrite Hs, Hb. lia. }
  split; [exact Hb|]. split; [exact Hgt|]. split.
  - apply process_bag_file_remove, outside_window_not_selected. right. exact Hgt.
  - intros e' Hs' Hn'. unfold Time.leb, Time.to_nsec. rewrite Hs', Ha. lia.
Qed.

Lemma window_end_is_a_whole_second_witness :
  let e := Demo.record "/cam/image_raw" 1692729232 500000000 "late" in
  Time.nsecs Demo.window_end = 0
  /\ Time.gtb (e_time e) Demo.window_end = true
  /\ process_bag_file (set_bag Demo.env "/in/a.bag" (inr ([Demo.inside] ++ e :: [])))
                      "/in/a.bag" None Demo.window_start Demo.window_end Demo.init
     = process_bag_file (set_bag Demo.env "/in/a.bag" (inr ([Demo.inside] ++ [])))
                        "/in/a.bag" None Demo.window_start Demo.window_end Demo.init
  /\ (forall e', Time.secs (e_time e') = Time.secs Demo.window_start ->
                 0 <= Time.nsecs (e_time e') ->
                 Time.leb Demo.window_start (e_time e') = true).
Proof.
  intros e.
  apply (window_end_is_a_whole_second Demo.env "/in/a.bag" None
           (Some MIN_FILTER_TIME) (Some MAX_FILTER_TIME)
           Demo.window_start Demo.window_end [Demo.inside] e [] Demo.init).
  - vm_compute. reflexivity.
  - reflexivity.
  - vm_compute. reflexivity.
Defined.

(** ** Errors and edge cases of the driver *)

Lemma process_bag_files_window_error env path topics start_time end_time ex s :
  parse_window start_time end_time = inl ex ->
  process_bag_files env path topics start_time end_time s
  = (inl ex, emits [EvLogStarted path topics start_time end_time] s).
Proof.
  intros H. unfold process_bag_files, mbind, M_bind, lift. cbn [emit]. rewrite H.
  reflexivity.
Qed.

(** X11: a bound of the window that does not match [%Y-%m-%d %H:%M:%S] ends
    the driver with the ValueError of [strptime], after the first log line
    and before the directory is listed: for the start bound whatever the end
    bound is, for the end bound when the start bound parses. *)
Theorem unparsable_window_bound env path topics start_text end_text start_time end_time
    ex dt s :
  (Strptime.strptime_datetime start_text = inl ex ->
   process_bag_files env path topics (Some start_text) end_time s
   = (inl ex, emits [EvLogStarted path topics (Some start_text) end_time] s))
  /\ (match start_time with
      | None => Strptime.strptime_date "1980-01-01"
      | Some t => Strptime.strptime_datetime t
      end = inr dt ->
      Strptime.strptime_datetime end_text = inl ex ->
      process_bag_files env path topics start_time (Some end_text) s
      = (inl ex, emits [EvLogStarted path topics start_time (Some end_text)] s)).
Proof.
  split.
  - intros H. apply process_bag_files_window_error. unfold parse_window. rewrite H.
    reflexivity.
  - intros H1 H2. apply process_bag_files_window_error. unfold parse_window.
    rewrite H1, H2. reflexivity.
Qed.

Lemma unparsable_window_bound_witness :
  process_bag_files Demo.env "/in/" None (Some "22.08.2023 18:33") None Demo.init
  = (inl (Py.ValueError "time data does not match format"),
     emits [EvLogStarted "/in/" None (Some "22.08.2023 18:33") None] Demo.init)
  /\ process_bag_files Demo.env "/in/" None None (Some "2023-08-22 18:33:52.5") Demo.init
     = (inl (Py.ValueError "unconverted data remains"),
        emits [EvLogStarted "/in/" None None (Some "2023-08-22 18:33:52.5")] Demo.init).
Proof.
  split.
  - apply (unparsable_window_bound Demo.env "/in/" None "22.08.2023 18:33" "" None None
             (Py.ValueError "time data does not match format")
             (Datetime.mk_datetime 1980 1 1 0 0 0) Demo.init).
    vm_compute. reflexivity.
  - apply (unparsable_window_bound Demo.env "/in/" None "" "2023-08-22 18:33:52.5" None None
             (Py.ValueError "unconverted data remains")
             (Datetime.mk_datetime 1980 1 1 0 0 0) Demo.init).
    + vm_compute. reflexivity.
    + vm_compute. reflexivity.
Defined.

(** X12: a start bound before 1970-01-01 00:00:00 parses, but [rospy.Time]
    refuses its negative seconds: when the end bound parses too, the driver
    ends with a TypeError after the first log line, not with the report of
    an invalid window, and nothing is processed. *)
Theorem window_bound_before_epoch env path topics start_text end_time dt1 dt2 s :
  Strptime.strptime_datetime start_text = inr dt1 ->
  match end_time with
  | None => Strptime.strptime_date "2900-12-31"
  | Some t => Strptime.strptime_datetime t
  end = inr dt2 ->
  Datetime.utc_timestamp dt1 < 0 ->
  process_bag_files env path topics (Some start_text) end_time s
  = (inl (Py.TypeError "time values must be positive"),
     emits [EvLogStarted path topics (Some start_text) end_time] s).
Proof.
  intros H1 H2 Hneg. apply process_bag_files_window_error. unfold parse_window.
  rewrite H1, H2. unfold Time.from_sec.
  destruct (Z.ltb_spec (Datetime.utc_timestamp dt1) 0); [reflexivity | lia].
Qed.

Lemma window_bound_before_epoch_witness :
  process_bag_files Demo.env "/in/" None (Some "1969-12-31 23:59:59") None Demo.init
  = (inl (Py.TypeError "time values must be positive"),
     emits [EvLogStarted "/in/" None (Some "1969-12-31 23:59:59") None] Demo.init).
Proof.
  apply (window_bound_before_epoch Demo.env "/in/" None "1969-12-31 23:59:59" None
           (Datetime.mk_datetime 1969 12 31 23 59 59)
           (Datetime.mk_datetime 2900 12 31 0 0 0) Demo.init).
  - vm_compute. reflexivity.
  - vm_compute. reflexivity.
  - vm_compute. reflexivity.
Defined.

Lemma filter_none {A} (f : A -> bool) l :
  Forall (fun x => f x = false) l -> List.filter f l = [].
Proof.
  induction 1 as [|x l Hx _ IH]; [reflexivity|]. cbn. rewrite Hx. exact IH.
Qed.

(** X13: with a valid window, a directory that holds no entry with the
    container extension (an empty one, too) makes the driver return after
    two lines of output; a directory that cannot be listed makes it end with
    the exception of [os.listdir] after the first.  In both cases nothing
    is opened. *)
Theorem directory_without_containers env path topics start_time end_time
    start_timestamp end_timestamp s :
  parse_window start_time end_time = inr (start_timestamp, end_timestamp) ->
  Time.gtb start_timestamp end_timestamp = false ->
  (forall names,
      listdir env path = inr names ->
      Forall (fun fl => is_bag_file fl = false) names ->
      process_bag_files env path topics start_time end_time s
      = (inr tt,
         emits [EvLogStarted path topics start_time end_time;
                EvPrint (Time.str start_timestamp +:+ " " +:+ Time.str end_timestamp)] s))
  /\ (forall ex,
         listdir env path = inl ex ->
         process_bag_files env path topics start_time end_time s
         = (inl ex, emits [EvLogStarted path topics start_time end_time] s)).
Proof.
  intros Hw Hgt. split.
  - intros names Hls Hnone.
    unfold process_bag_files, mbind, M_bind, lift. cbn [emit]. rewrite Hw.
    cbv beta iota. rewrite Hgt, Hls. cbv beta iota zeta.
    unfold lst_files. rewrite (filter_none _ _ Hnone).
    unfold print, DEBUG_MODE, emit, emits. cbn. rewrite <- !app_assoc. reflexivity.
  - intros ex Hls.
    unfold process_bag_files, mbind, M_bind, lift. cbn [emit]. rewrite Hw.
    cbv beta iota. rewrite Hgt, Hls. reflexivity.
Qed.

Lemma directory_without_containers_witness :
  let env := mk_env (fun _ => inr ["notes.txt"; ".bag"; "bag"; "a.bag.tmp"])
                    (bag_open Demo.env) Demo.decode_raw Demo.decode_compressed in
  process_bag_files env "/in/" None (Some MIN_FILTER_TIME) (Some MAX_FILTER_TIME) Demo.init
  = (inr tt,
     emits [EvLogStarted "/in/" None (Some MIN_FILTER_TIME) (Some MAX_FILTER_TIME);
            EvPrint (Time.str Demo.window_start +:+ " " +:+ Time.str Demo.window_end)]
           Demo.init).
Proof.
  intros env.
  apply (directory_without_containers env "/in/" None
           (Some MIN_FILTER_TIME) (Some MAX_FILTER_TIME)
           Demo.window_start Demo.window_end Demo.init)
    with (names := ["notes.txt"; ".bag"; "bag"; "a.bag.tmp"]).
  - vm_compute. reflexivity.
  - vm_compute. reflexivity.
  - reflexivity.
  - repeat constructor.
Defined.

(** ** The upload of the output tree *)

Lemma uploads_app tr1 tr2 : uploads (tr1 ++ tr2) = uploads tr1 ++ uploads tr2.
Proof. apply omap_app. Qed.

Lemma objects_insert st bucket m tr :
  objects (mk_store (<[bucket := m]> (buckets st)) tr) bucket = m.
Proof. unfold objects. cbn. rewrite lookup_insert_eq. reflexivity. Qed.

Lemma objects_insert_ne st bucket bucket' m tr :
  bucket <> bucket' ->
  objects (mk_store (<[bucket := m]> (buckets st)) tr) bucket' = objects st bucket'.
Proof. intros H. unfold objects. cbn. rewrite lookup_insert_ne by exact H. reflexivity. Qed.

(** One file of the walk: what [store_file] returns and leaves. *)
Lemma store_file_spec c bucket root file n st :
  let fk := stored_as (root, file) in
  let out := store_file c bucket root file n st in
  uploads (store_trace out.2) = uploads (store_trace st) ++ [(fk.1, bucket, fk.2)]
  /\ (forall b', bucket <> b' -> objects out.2 b' = objects st b')
  /\ match outcome c bucket (root, file) with
     | Uploaded =>
         out.1 = inr (n + 1) /\ objects out.2 bucket = <[fk.2 := fk.1]> (objects st bucket)
     | ClientError msg =>
         out.1 = inr n /\ buckets out.2 = buckets st
     | OtherFailure e =>
         out.1 = inl e /\ buckets out.2 = buckets st
     end.
Proof.
  intros fk out. subst fk out. unfold outcome, store_file, upload_file_to_s3, stored_as.
  cbn [fst snd]. unfold mbind, SM_bind. cbn [s_emit].
  destruct (upload_file c _ bucket _) as [|msg|e];
    cbn; rewrite ?uploads_app; cbn; rewrite ?app_nil_r.
  - split; [reflexivity|]. split.
    + intros b' Hb. apply objects_insert_ne. exact Hb.
    + split; [reflexivity|]. apply objects_insert.
  - repeat split.
  - repeat split.
Qed.

Lemma for_each_counting_app {A} (l1 l2 : list A) body n st :
  for_each_counting (l1 ++ l2) body n st
  = match for_each_counting l1 body n st with
    | (inl e, st') => (inl e, st')
    | (inr n', st') => for_each_counting l2 body n' st'
    end.
Proof.
  revert n st. induction l1 as [|x l1 IH]; intros n st; [reflexivity|].
  cbn [for_each_counting app]. unfold mbind, SM_bind.
  destruct (body x n st) as [[e|n'] st']; [reflexivity|]. apply IH.
Qed.

Lemma for_each_counting_map {A B} (g : A -> B) (l : list A) body n st :
  for_each_counting (map g l) body n st
  = for_each_counting l (fun x => body (g x)) n st.
Proof.
  revert n st. induction l as [|x l IH]; intros n st; [reflexivity|].
  cbn [for_each_counting map]. unfold mbind, SM_bind.
  destruct (body (g x) n st) as [[e|n'] st']; [reflexivity|]. apply IH.
Qed.

(** The two nested loops of [store_files_to_s3] are one loop over the files
    of the walk. *)
Lemma walk_loop_flat c bucket (w : list (string * list string * list string)) n st :
  for_each_counting w
    (fun '(root, subdirs, files) num_files =>
       match files with
       | [] => mret num_files
       | _ => for_each_counting files (store_file c bucket root) num_files
       end) n st
  = for_each_counting
      (flat_map (fun '(root, subdirs, files) => map (pair root) files) w)
      (fun rf => store_file c bucket rf.1 rf.2) n st.
Proof.
  revert n st. induction w as [|[[root subdirs] files] w IH]; intros n st; [reflexivity|].
  cbn [for_each_counting flat_map]. rewrite for_each_counting_app, for_each_counting_map.
  cbn [fst snd]. unfold mbind, SM_bind.
  destruct files as [|file files].
  - cbn. apply IH.
  - set (r := for_each_counting (file :: files) _ n st).
    destruct r as [[e|n'] st']; [reflexivity|]. apply IH.
Qed.

Lemma put_all_app l1 l2 m : put_all (l1 ++ l2) m = put_all l2 (put_all l1 m).
Proof. apply foldl_app. Qed.

(** The loop over files none of which fails with another exception than
    ClientError. *)
Lemma store_loop_ok c bucket l : forall n st,
  Forall (fun rf => is_other_failure (outcome c bucket rf) = false) l ->
  let out := for_each_counting l (fun rf => store_file c bucket rf.1 rf.2) n st in
  out.1 = inr (n + count_uploaded c bucket l)
  /\ uploads (store_trace out.2)
     = uploads (store_trace st) ++ map (fun rf => ((stored_as rf).1, bucket, (stored_as rf).2)) l
  /\ objects out.2 bucket = put_all (uploaded_of c bucket l) (objects st bucket)
  /\ (forall b', bucket <> b' -> objects out.2 b' = objects st b').
Proof.
  induction l as [|[root file] l IH]; intros n st Hok; cbn zeta.
  - cbn. unfold count_uploaded. cbn. rewrite Z.add_0_r, app_nil_r. auto.
  - inversion Hok as [|? ? Hrf Hl]; subst.
    cbn [for_each_counting fst snd]. unfold mbind, SM_bind.
    destruct (store_file_spec c bucket root file n st) as (Hu & Hb & Ho).
    cbv zeta in Hu, Hb, Ho.
    destruct (store_file c bucket root file n st) as [r st1]. cbn [fst snd] in *.
    unfold count_uploaded, uploaded_of in *. cbn [List.filter map].
    destruct (outcome c bucket (root, file)) as [|msg|e] eqn:Eo; [| |discriminate].
    + destruct Ho as [-> Ho]. cbn [is_uploaded map length].
      destruct (IH (n + 1) st1 Hl) as (H1 & H2 & H3 & H4). cbv zeta in *.
      rewrite H1, H2, H3, Hu, Ho, <- app_assoc. cbn [app put_all foldl fst snd].
      repeat split; try reflexivity.
      * f_equal. lia.
      * intros b' Hne. rewrite H4, Hb by exact Hne. reflexivity.
    + destruct Ho as [-> Ho]. cbn [is_uploaded].
      destruct (IH n st1 Hl) as (H1 & H2 & H3 & H4). cbv zeta in *.
      rewrite H1, H2, H3, Hu, <- app_assoc.
      assert (objects st1 bucket = objects st bucket) as -> by (unfold objects; rewrite Ho; reflexivity).
      repeat split; try reflexivity.
      intros b' Hne. rewrite H4, Hb by exact Hne. reflexivity.
Qed.

(** The loop ends at the first file whose upload fails with another
    exception than ClientError. *)
Lemma store_loop_stops c bucket l1 rf l2 e n st :
  Forall (fun x => is_other_failure (outcome c bucket x) = false) l1 ->
  outcome c bucket rf = OtherFailure e ->
  let out := for_each_counting (l1 ++ rf :: l2)
               (fun x => store_file c bucket x.1 x.2) n st in
  out.1 = inl e
  /\ uploads (store_trace out.2)
     = uploads (store_trace st)
       ++ map (fun x => ((stored_as x).1, bucket, (stored_as x).2)) (l1 ++ [rf])
  /\ objects out.2 bucket = put_all (uploaded_of c bucket l1) (objects st bucket).
Proof.
  intros Hl1 Hrf. cbn zeta. rewrite for_each_counting_app.
  destruct (store_loop_ok c bucket l1 n st Hl1) as (H1 & H2 & H3 & _). cbv zeta in *.
  destruct (for_each_counting l1 _ n st) as [r st1]. cbn [fst snd] in *. subst r.
  cbn [for_each_counting]. unfold mbind, SM_bind.
  destruct rf as [root file]. cbn [fst snd].
  destruct (store_file_spec c bucket root file (n + count_uploaded c bucket l1) st1)
    as (Hu & _ & Ho). cbv zeta in Hu, Ho. rewrite Hrf in Ho. destruct Ho as [Hr Hb].
  destruct (store_file c bucket root file _ st1) as [r st2]. cbn [fst snd] in *. subst r.
  cbn [fst snd]. rewrite Hu, H2, map_app, <- app_assoc.
  repeat split; try reflexivity.
  rewrite <- H3. unfold objects. rewrite Hb. reflexivity.
Qed.

(** What [store_files_to_s3] does before and after its loops. *)
Lemma store_files_to_s3_unfold c bucket st :
  delete_objects c bucket = inr tt ->
  let st0 := mk_store (<[bucket := ∅]> (buckets st))
                      (store_trace st ++ [SLogInfo "Storing files to s3 store started";
                                          SDeleteAll bucket]) in
  store_files_to_s3 c bucket st
  = match for_each_counting (walk_pairs c) (fun rf => store_file c bucket rf.1 rf.2) 0 st0 with
    | (inl e, st') => (inl e, st')
    | (inr n, st') =>
        (inr tt, mk_store (buckets st')
                   (store_trace st'
                    ++ [SLogInfo ("Stored " +:+ Py.str_of_int n +:+ " files");
                        SPrint ("Stored " +:+ Py.str_of_int n +:+ " files")]))
    end.
Proof.
  intros Hdel. cbn zeta.
  unfold store_files_to_s3, mbind, SM_bind, s_lift, clear_bucket. cbn [s_emit].
  rewrite Hdel. cbv beta iota. cbn [buckets store_trace].
  rewrite walk_loop_flat. fold (walk_pairs c). rewrite <- !app_assoc. cbn [app].
  destruct (for_each_counting (walk_pairs c) _ 0 _) as [[e|n] st']; [reflexivity|].
  unfold DEBUG_MODE, s_emit. cbn. rewrite <- !app_assoc. reflexivity.
Qed.

(** X14: when the bucket was emptied and no upload ends in another exception
    than ClientError, [store_files_to_s3] returns after one upload attempt
    for every file of the walk, in the order of the walk: a ClientError
    skips that file only.  The last two lines of output give the number of
    files whose upload succeeded. *)
Theorem store_uploads_every_file c bucket st :
  let out := store_files_to_s3 c bucket st in
  let n := Z.of_nat (length (List.filter (fun rf => is_uploaded (outcome c bucket rf))
                                         (walk_pairs c))) in
  delete_objects c bucket = inr tt ->
  Forall (fun rf => is_other_failure (outcome c bucket rf) = false) (walk_pairs c) ->
  out.1 = inr tt
  /\ uploads (store_trace out.2)
     = uploads (store_trace st)
       ++ map (fun rf => ((stored_as rf).1, bucket, (stored_as rf).2)) (walk_pairs c)
  /\ exists tr,
       store_trace out.2
       = tr ++ [SLogInfo ("Stored " +:+ Py.str_of_int n +:+ " files");
                SPrint ("Stored " +:+ Py.str_of_int n +:+ " files")].
Proof.
  intros out n Hdel Hok. subst out.
  rewrite (store_files_to_s3_unfold c bucket st Hdel). cbv zeta.
  match goal with |- context [for_each_counting _ _ 0 ?s0] =>
    destruct (store_loop_ok c bucket (walk_pairs c) 0 s0 Hok) as (H1 & H2 & _);
    cbv zeta in H1, H2;
    destruct (for_each_counting (walk_pairs c) _ 0 s0) as [r st'] end.
  cbn [fst snd] in *. subst r. cbn [fst snd store_trace].
  split; [reflexivity|]. split.
  - cbn [store_trace] in H2. rewrite uploads_app, H2, uploads_app. cbn.
    rewrite !app_nil_r. reflexivity.
  - exists (store_trace st'). unfold count_uploaded, uploaded_of.
    rewrite length_map, Z.add_0_l. reflexivity.
Qed.

(** X15: under the same conditions the bucket holds, after the run, the
    files whose upload succeeded and nothing else: each under its key, a
    later upload under a key replacing an earlier one.  What the bucket held
    before is gone; other buckets are untouched. *)
Theorem store_replaces_bucket c bucket st :
  let out := store_files_to_s3 c bucket st in
  delete_objects c bucket = inr tt ->
  Forall (fun rf => is_other_failure (outcome c bucket rf) = false) (walk_pairs c) ->
  objects out.2 bucket = put_all (uploaded_of c bucket (walk_pairs c)) ∅
  /\ (forall b', bucket <> b' -> objects out.2 b' = objects st b').
Proof.
  intros out Hdel Hok. subst out.
  rewrite (store_files_to_s3_unfold c bucket st Hdel). cbv zeta.
  match goal with |- context [for_each_counting _ _ 0 ?s0] =>
    destruct (store_loop_ok c bucket (walk_pairs c) 0 s0 Hok) as (H1 & _ & H3 & H4);
    cbv zeta in H1, H3, H4;
    destruct (for_each_counting (walk_pairs c) _ 0 s0) as [r st'] end.
  cbn [fst snd] in *. subst r. cbn [fst snd].
  rewrite objects_insert in H3. split.
  - rewrite <- H3. reflexivity.
  - intros b' Hne. unfold objects at 1. cbn [buckets].
    fold (objects st' b'). rewrite (H4 b' Hne). apply objects_insert_ne. exact Hne.
Qed.

(** X16: an upload that ends in another exception than ClientError ends
    [store_files_to_s3] with that exception.  The files behind it are not
    uploaded; the bucket, emptied at the start, holds the files uploaded
    before it and none of its former objects. *)
Theorem store_failure_leaves_partial_bucket c bucket l1 rf l2 e st :
  let out := store_files_to_s3 c bucket st in
  delete_objects c bucket = inr tt ->
  walk_pairs c = l1 ++ rf :: l2 ->
  Forall (fun x => is_other_failure (outcome c bucket x) = false) l1 ->
  outcome c bucket rf = OtherFailure e ->
  out.1 = inl e
  /\ uploads (store_trace out.2)
     = uploads (store_trace st)
       ++ map (fun x => ((stored_as x).1, bucket, (stored_as x).2)) (l1 ++ [rf])
  /\ objects out.2 bucket = put_all (uploaded_of c bucket l1) ∅.
Proof.
  intros out Hdel Hsplit Hl1 Hrf. subst out.
  rewrite (store_files_to_s3_unfold c bucket st Hdel). cbv zeta. rewrite Hsplit.
  match goal with |- context [for_each_counting _ _ 0 ?s0] =>
    destruct (store_loop_stops c bucket l1 rf l2 e 0 s0 Hl1 Hrf) as (H1 & H2 & H3);
    cbv zeta in H1, H2, H3;
    destruct (for_each_counting (l1 ++ rf :: l2) _ 0 s0) as [r st'] end.
  cbn [fst snd] in *. subst r. cbn [fst snd].
  rewrite objects_insert in H3.
  split; [reflexivity|]. split; [|exact H3].
  cbn [store_trace] in H2. rewrite H2, uploads_app. cbn. rewrite !app_nil_r. reflexivity.
Qed.

Lemma store_uploads_every_file_witness :
  let out := store_files_to_s3 StoreDemo.client "out" StoreDemo.init in
  let n := Z.of_nat (length (List.filter
                               (fun rf => is_uploaded (outcome StoreDemo.client "out" rf))
                               (walk_pairs StoreDemo.client))) in
  out.1 = inr tt
  /\ uploads (store_trace out.2)
     = uploads (store_trace StoreDemo.init)
       ++ map (fun rf => ((stored_as rf).1, "out", (stored_as rf).2))
              (walk_pairs StoreDemo.client)
  /\ exists tr,
       store_trace out.2
       = tr ++ [SLogInfo ("Stored " +:+ Py.str_of_int n +:+ " files");
                SPrint ("Stored " +:+ Py.str_of_int n +:+ " files")].
Proof.
  apply (store_uploads_every_file StoreDemo.client "out" StoreDemo.init).
  - reflexivity.
  - vm_compute. repeat constructor.
Defined.

Lemma store_replaces_bucket_witness :
  let out := store_files_to_s3 StoreDemo.client "out" StoreDemo.init in
  objects out.2 "out"
  = put_all (uploaded_of StoreDemo.client "out" (walk_pairs StoreDemo.client)) ∅
  /\ (forall b', "out" <> b' -> objects out.2 b' = objects StoreDemo.init b').
Proof.
  apply (store_replaces_bucket StoreDemo.client "out" StoreDemo.init).
  - reflexivity.
  - vm_compute. repeat constructor.
Defined.

Lemma store_failure_leaves_partial_bucket_witness :
  let out := store_files_to_s3 StoreDemo.broken_client "out" StoreDemo.init in
  out.1 = inl (Py.ExternalError "S3UploadFailedError")
  /\ uploads (store_trace out.2)
     = uploads (store_trace StoreDemo.init)
       ++ map (fun x => ((stored_as x).1, "out", (stored_as x).2))
              ([("/data1/s3/pictures/cam/Image", "a.png")]
               ++ [("/data1/s3/pictures/cam/Image", "b.png")])
  /\ objects out.2 "out"
     = put_all (uploaded_of StoreDemo.broken_client "out"
                            [("/data1/s3/pictures/cam/Image", "a.png")]) ∅.
Proof.
  apply (store_failure_leaves_partial_bucket StoreDemo.broken_client "out"
           [("/data1/s3/pictures/cam/Image", "a.png")]
           ("/data1/s3/pictures/cam/Image", "b.png")
           [("/data1/s3/pictures/cam/Image", "c.png")]
           (Py.ExternalError "S3UploadFailedError") StoreDemo.init).
  - reflexivity.
  - vm_compute. reflexivity.
  - vm_compute. repeat constructor.
  - vm_compute. reflexivity.
Defined.

Example store_demo_run :
  let out := store_files_to_s3 StoreDemo.client "out" StoreDemo.init in
  out.1 = inr tt
  /\ objects out.2 "out" !! "cam/Image/a.png" = Some "/data1/s3/pictures/cam/Image/a.png"
  /\ objects out.2 "out" !! "cam/Image/b.png" = None
  /\ objects out.2 "out" !! "cam/Image/c.png" = Some "/data1/s3/pictures/cam/Image/c.png"
  /\ objects out.2 "out" !! "old/x.png" = None
  /\ last (store_trace out.2) = Some (SPrint "Stored 2 files").
Proof. vm_compute. repeat split; reflexivity. Qed.

(** ** Object keys *)

Lemma string_app_nil_r (s : string) : s +:+ "" = s.
Proof. induction s as [|c s IH]; [reflexivity|]. rewrite app_String, IH. reflexivity. Qed.

Lemma split_go_none old s : forall cur,
  occurs_nowhere old s = true ->
  Py.split_go old s 0 cur = [String.rev cur +:+ s].
Proof.
  induction s as [|c s IH]; intros cur H.
  - cbn. rewrite string_app_nil_r. reflexivity.
  - cbn [occurs_nowhere] in H. apply andb_true_iff in H as [Hc Hs].
    apply negb_true_iff in Hc. cbn [Py.split_go]. rewrite Hc, (IH _ Hs), rev_String.
    reflexivity.
Qed.

Lemma split_go_step_over old a : forall c s cur,
  Py.split_go old (a +:+ String c s) (String.length a) cur
  = Py.split_go old (String c s) 0 cur.
Proof.
  induction a as [|x a IH]; intros c s cur; [reflexivity|].
  rewrite app_String. cbn [String.length Py.split_go]. apply IH.
Qed.

Lemma split_go_step_over_end old a cur :
  Py.split_go old a (String.length a) cur = [String.rev cur].
Proof.
  induction a as [|x a IH]; [reflexivity|]. cbn [String.length Py.split_go]. exact IH.
Qed.

Lemma startswith_app p s : Py.startswith p (p +:+ s) = true.
Proof.
  induction p as [|c p IH]; [reflexivity|].
  rewrite app_String. cbn [Py.startswith]. rewrite Ascii.eqb_refl, IH. reflexivity.
Qed.

(** Replacing a text that begins a string and occurs nowhere behind. *)
Lemma str_replace_prefix c0 old new rest :
  occurs_nowhere (String c0 old) rest = true ->
  str_replace (String c0 old) new (String c0 old +:+ rest) = new +:+ rest.
Proof.
  intros H. unfold str_replace, Py.split.
  remember (String c0 old) as sep eqn:Esep.
  assert (Py.split_go sep (sep +:+ rest) 0 "" = ["" ; rest]) as ->.
  { rewrite Esep at 2. rewrite app_String. cbn [Py.split_go].
    rewrite <- app_String, <- Esep, startswith_app.
    replace (String.length sep - 1)%nat with (String.length old)
      by (rewrite Esep; cbn [String.length]; lia).
    f_equal.
    destruct rest as [|r rest].
    - rewrite string_app_nil_r. apply split_go_step_over_end.
    - rewrite split_go_step_over. rewrite (split_go_none _ _ "" H). reflexivity. }
  reflexivity.
Qed.

Lemma ends_with_app c a b : b <> "" -> ends_with c (a +:+ b) = ends_with c b.
Proof.
  intros Hb. induction a as [|x a IH]; [reflexivity|].
  rewrite app_String. cbn [ends_with]. rewrite IH.
  destruct (a +:+ b) eqn:E; [|reflexivity].
  destruct a; [change ("" +:+ b) with b in E; congruence | discriminate E].
Qed.

Lemma startswith_sep_no_char s : no_char "/" s = true -> Py.startswith "/" s = false.
Proof.
  destruct s as [|c s]; [reflexivity|]. cbn [no_char Py.startswith].
  intros H. apply andb_true_iff in H as [H _]. apply negb_true_iff in H.
  rewrite Ascii.eqb_sym, H. reflexivity.
Qed.



Example object_key_example :
  (stored_as ("/data1/s3/pictures/cam_image_raw/Image/2023-08-22_18-33-48_2023-08-22_18-33-52",
              "2023-08-22_18-33-50-0(a).png")).2
  = "cam_image_raw/Image/2023-08-22_18-33-48_2023-08-22_18-33-52/2023-08-22_18-33-50-0(a).png"
  /\ str_replace "/data1/s3/pictures/" "" "/data1/s3/pictures/x/data1/s3/pictures/y.png"
     = "xy.png".
Proof. vm_compute. split; reflexivity. Qed.

(** ** The download stage and the processing stage *)

Lemma rfind_from_shift c s : forall i f,
  -1 <= Py.rfind_from c s 0 (-1)
  /\ Py.rfind_from c s i f
     = if Py.rfind_from c s 0 (-1) =? -1 then f else i + Py.rfind_from c s 0 (-1).
Proof.
  induction s as [|a s IH]; intros i f.
  - cbn. split; [lia|reflexivity].
  - cbn [Py.rfind_from].
    destruct (IH (i + 1) (if Ascii.eqb a c then i else f)) as [Hge ->].
    destruct (IH (0 + 1) (if Ascii.eqb a c then 0 else -1)) as [_ ->].
    destruct (Z.eqb_spec (Py.rfind_from c s 0 (-1)) (-1)) as [E|E].
    + destruct (Ascii.eqb a c); cbn [Z.eqb Z.add]; split; try lia; try reflexivity.
    + destruct (Z.eqb_spec (0 + 1 + Py.rfind_from c s 0 (-1)) (-1)); split; lia.
Qed.

Lemma slice_to_app_length a b k :
  Py.slice_to (String.length a + k) (a +:+ b) = a +:+ Py.slice_to k b.
Proof.
  induction a as [|x a IH]; [reflexivity|].
  rewrite !app_String. cbn [String.length Nat.add Py.slice_to]. rewrite IH. reflexivity.
Qed.

Lemma slice_from_app_length_plus a b k :
  Py.slice_from (String.length a + k) (a +:+ b) = Py.slice_from k b.
Proof.
  induction a as [|x a IH]; [reflexivity|].
  rewrite !app_String. cbn [String.length Nat.add Py.slice_from]. exact IH.
Qed.

(** A directory prefix without a dot does not change the extension. *)
Lemma splitext_directory_prefix d name :
  no_char "." d = true ->
  (OsPath.splitext (d +:+ "/" +:+ name)).2 = (OsPath.splitext name).2.
Proof.
  intros Hd.
  rewrite <- string_app_assoc.
  set (pre := d +:+ "/").
  assert (Hlen : String.length pre = S (String.length d)).
  { unfold pre. rewrite string_length_app. cbn. lia. }
  unfold OsPath.splitext, Py.rfind, OsPath.chars_between, OsPath.sep, OsPath.extsep.
  rewrite !(rfind_from_app _ pre).
  assert (Py.rfind_from "/" pre 0 (-1) = Z.of_nat (String.length d)) as ->.
  { unfold pre. rewrite rfind_from_app. cbn. lia. }
  assert (Py.rfind_from "." pre 0 (-1) = -1) as ->.
  { unfold pre. rewrite rfind_from_app, (rfind_from_no_char _ d) by exact Hd. reflexivity. }
  destruct (rfind_from_shift "/" name (0 + Z.of_nat (String.length pre))
              (Z.of_nat (String.length d))) as [Hs ->].
  destruct (rfind_from_shift "." name (0 + Z.of_nat (String.length pre)) (-1)) as [Hdot ->].
  set (rs := Py.rfind_from "/" name 0 (-1)) in *.
  set (rd := Py.rfind_from "." name 0 (-1)) in *.
  destruct (Z.eqb_spec rd (-1)) as [Ed|Ed].
  - rewrite Ed.
    replace (_ <? -1) with false by (symmetry; apply Z.ltb_ge; destruct (rs =? -1); lia).
    replace (rs <? -1) with false by (symmetry; apply Z.ltb_ge; lia).
    reflexivity.
  - assert (Hpos : 0 <= rd) by lia.
    replace (Z.to_nat (0 + Z.of_nat (String.length pre) + rd))
      with (String.length pre + Z.to_nat rd)%nat by lia.
    rewrite slice_to_app_length, slice_from_app_length_plus.
    destruct (Z.eqb_spec rs (-1)) as [Es|Es].
    + rewrite Es.
      replace (Z.to_nat (Z.of_nat (String.length d) + 1))
        with (String.length pre + 0)%nat by lia.
      rewrite slice_from_app_length_plus.
      replace (_ <? _) with true by (symmetry; apply Z.ltb_lt; lia).
      replace (-1 <? rd) with true by (symmetry; apply Z.ltb_lt; lia).
      change (Z.to_nat (-1 + 1)) with 0%nat.
      destruct (_ && _); reflexivity.
    + replace (Z.to_nat (0 + Z.of_nat (String.length pre) + rs + 1))
        with (String.length pre + Z.to_nat (rs + 1))%nat by lia.
      rewrite slice_from_app_length_plus.
      replace (0 + Z.of_nat (String.length pre) + rs <? 0 + Z.of_nat (String.length pre) + rd)
        with (rs <? rd)
        by (destruct (Z.ltb_spec rs rd); symmetry; [apply Z.ltb_lt|apply Z.ltb_ge]; lia).
      destruct (_ && _); reflexivity.
Qed.

Lemma extension_under_source_prefix name :
  get_file_extension (SOURCE_PREFIX +:+ name) = get_file_extension name.
Proof.
  unfold get_file_extension.
  change (SOURCE_PREFIX +:+ name) with ("bg" +:+ "/" +:+ name).
  pose proof (splitext_directory_prefix "bg" name eq_refl) as H.
  destruct (OsPath.splitext ("bg" +:+ "/" +:+ name)), (OsPath.splitext name).
  cbn [snd] in H. rewrite H. reflexivity.
Qed.

(** X18: an object under the source prefix is submitted for download
    exactly when the processing stage takes the file of that name for a
    container: both stages test the lower-cased extension of the name, and
    the prefix does not change it. *)
Theorem download_selects_what_processing_selects name size :
  is_submitted (mk_object (SOURCE_PREFIX +:+ name) size) = is_bag_file name.
Proof.
  unfold is_submitted, is_bag_file. cbn [Key].
  rewrite extension_under_source_prefix. reflexivity.
Qed.

Lemma occurs_nowhere_char c s : occurs_nowhere (String c "") s = no_char c s.
Proof.
  induction s as [|a s IH]; [reflexivity|].
  cbn [occurs_nowhere no_char Py.startswith]. rewrite IH.
  replace (Py.startswith "" s) with true by (destruct s; reflexivity).
  rewrite andb_true_r, Ascii.eqb_sym. reflexivity.
Qed.

Lemma split_local_bag_path name :
  no_char "/" name = true ->
  Py.split "/" ("data1/s3/bg/" +:+ name) = ["data1"; "s3"; "bg"; name].
Proof.
  intros Hn. unfold Py.split.
  rewrite !app_String. change ("" +:+ name) with name.
  cbn [Py.split_go Py.startswith Ascii.eqb Bool.eqb andb String.length Nat.sub].
  rewrite split_go_none by (rewrite occurs_nowhere_char; exact Hn).
  reflexivity.
Qed.

Lemma purepath_under_source_prefix name :
  no_char "/" name = true -> name <> "" -> name <> "." ->
  purepath DESTINATION_LOCAL_BAG (SOURCE_PREFIX +:+ name)
  = ((DESTINATION_LOCAL_BAG +:+ "/") +:+ SOURCE_PREFIX) +:+ name.
Proof.
  intros Hn H0 H1. unfold purepath.
  change (splitroot (path_join DESTINATION_LOCAL_BAG (SOURCE_PREFIX +:+ name)))
    with ("/", "data1/s3/bg/" +:+ name).
  cbv beta iota.
  rewrite (split_local_bag_path name Hn).
  cbn [List.filter String.eqb Ascii.eqb Bool.eqb negb andb].
  apply String.eqb_neq in H0, H1. rewrite H0, H1. reflexivity.
Qed.

Lemma bag_file_name_is_a_component name :
  is_bag_file name = true -> name <> "" /\ name <> ".".
Proof. intros H. split; intros ->; discriminate H. Qed.

(** X19: an object of the source bucket whose key is the source prefix
    followed by a container file name is downloaded to the local path
    [DESTINATION_LOCAL_BAG/SOURCE_PREFIX name], and that path is an entry
    of the list of containers that the processing stage, called on the
    local directory of the prefix, builds from a listing with that name. *)
Theorem downloaded_container_is_processed s3_client name names :
  let key := SOURCE_PREFIX +:+ name in
  let path_to_files := (DESTINATION_LOCAL_BAG +:+ "/") +:+ SOURCE_PREFIX in
  let out := download_object s3_client key in
  no_char "/" name = true ->
  is_bag_file name = true ->
  name ∈ names ->
  (exists line,
     out.2 = [DLogInfo line; DPrint line;
              DDownloadFile SOURCE_BUCKET key (path_to_files +:+ name)])
  /\ path_to_files +:+ name ∈ lst_files path_to_files names.
Proof.
  intros key path_to_files out Hn Hb Hin.
  destruct (bag_file_name_is_a_component name Hb) as [H0 H1].
  split.
  - unfold out, download_object, key.
    rewrite (purepath_under_source_prefix name Hn H0 H1). fold path_to_files.
    eexists. destruct (download_file _ _ _ _); reflexivity.
  - unfold lst_files, Py.sorted. rewrite merge_sort_Permutation.
    apply list_elem_of_In, in_map, filter_In. split; [|exact Hb].
    apply list_elem_of_In. exact Hin.
Qed.

Lemma downloaded_container_is_processed_witness :
  let key := SOURCE_PREFIX +:+ "run1.bag" in
  let path_to_files := (DESTINATION_LOCAL_BAG +:+ "/") +:+ SOURCE_PREFIX in
  let out := download_object (mk_source (fun _ _ _ => None)) key in
  (exists line,
     out.2 = [DLogInfo line; DPrint line;
              DDownloadFile SOURCE_BUCKET key (path_to_files +:+ "run1.bag")])
  /\ path_to_files +:+ "run1.bag" ∈ lst_files path_to_files ["notes.txt"; "run1.bag"].
Proof.
  apply (downloaded_container_is_processed (mk_source (fun _ _ _ => None))
           "run1.bag" ["notes.txt"; "run1.bag"]).
  - reflexivity.
  - reflexivity.
  - apply list_elem_of_further, list_elem_of_here.
Defined.

Example download_object_example :
  download_object (mk_source (fun _ _ _ => Some (Py.ExternalError "ClientError"))) "bg/run1.bag"
  = (inl (Py.ExternalError "ClientError"),
     [DLogInfo "Downloading bg/run1.bag to /data1/s3/bg/run1.bag";
      DPrint "Downloading bg/run1.bag to /data1/s3/bg/run1.bag";
      DDownloadFile "test-task-01" "bg/run1.bag" "/data1/s3/bg/run1.bag"])
  /\ purepath "/data1/s3" "bg//sub/./x.bag" = "/data1/s3/bg/sub/x.bag"
  /\ purepath "/data1/s3" "/bg/x.bag" = "/bg/x.bag"
  /\ purepath "" "" = "."
  /\ submitted [mk_object "bg/" 0; mk_object "bg/a.BAG" 7; mk_object "bg/a.txt" 1;
                mk_object "bg/.bag" 2; mk_object "bg/sub/b.bag" 3]
     = [mk_object "bg/a.BAG" 7; mk_object "bg/sub/b.bag" 3].
Proof. vm_compute. repeat split; reflexivity. Qed.
